(** * SciServer.CasJobs: a shallow embedding of the CasJobs REST client

    The development follows the three source files

    - [SciServer/constants.py]  (module [Constants] below),
    - [SciServer/utils.py]      (module [Utils]),
    - [SciServer/CasJobs.py]    (module [CasJobs]),

    and keeps their names.  Python strings are [string]; a Python [dict] of
    headers is a [gmap string string]; JSON shaped values are the inductive
    [value]; the mutable module state ([task.name]) and everything the
    client does to the outside (HTTP requests, sleeps, prints, file writes)
    live in an explicit state record threaded by a small reader, state and
    exception monad.  The collaborators of the client (the token provider,
    [Config], the remote service, the file system) are the fields of an
    environment; the service is a function from the rank of a request in the
    run and the request to a response, so that it may answer the same poll
    differently over time.

    What is left out: numbers that are not integers, response bodies that
    are not text, failures of the transport, and the inner working of
    [pandas], whose objects are kept symbolic.  The polling loop of
    [waitForJob] need not end; it is given a number of rounds ([fuel]), and
    the properties say what holds for every such number. *)

From Stdlib Require Import ZArith Ascii String List Bool Lia DecimalString DecimalPos.
From stdpp Require Import gmap strings list.

Local Open Scope string_scope.
Local Open Scope Z_scope.
Local Open Scope list_scope.
Set Warnings "-register-all".

(** ** Python built-ins used by the client *)

Module Py.

(** [str.replace(old, new)]: every non-overlapping occurrence of [old],
    scanning left to right.  [skip] counts the characters of a match that
    are still to be dropped. *)
Fixpoint replace_go (old new : string) (skip : nat) (s : string) : string :=
  match s with
  | EmptyString => EmptyString
  | String c s' =>
      match skip with
      | S k => replace_go old new k s'
      | O =>
          if String.prefix old s
          then new +:+ replace_go old new (String.length old - 1) s'
          else String c (replace_go old new 0 s')
      end
  end.

(** With an empty [old], Python inserts [new] before every character and at
    the end. *)
Fixpoint replace_empty (new s : string) : string :=
  match s with
  | EmptyString => new
  | String c s' => new +:+ String c (replace_empty new s')
  end.

Definition replace (old new s : string) : string :=
  match old with
  | EmptyString => replace_empty new s
  | String _ _ => replace_go old new 0 s
  end.

(** [sep.join(args)] *)
Fixpoint join (sep : string) (args : list string) : string :=
  match args with
  | [] => ""
  | [a] => a
  | a :: rest => a +:+ sep +:+ join sep rest
  end.

(** [str(n)] for an [int]. *)
Definition str_of_int (n : Z) : string := NilZero.string_of_int (Z.to_int n).

(** [int(s)] for a [str]: surrounding white space, an optional sign, decimal
    digits with single underscores between them.  [None] stands for the
    [ValueError] Python raises on anything else. *)
Definition is_space (c : ascii) : bool :=
  let n := nat_of_ascii c in
  ((9 <=? n)%nat && (n <=? 13)%nat) || (n =? 32)%nat.

Definition digit_of (c : ascii) : option Z :=
  let n := nat_of_ascii c in
  if ((48 <=? n)%nat && (n <=? 57)%nat)%bool
  then Some (Z.of_nat n - 48) else None.

Fixpoint lstrip (s : string) : string :=
  match s with
  | String c s' => if is_space c then lstrip s' else s
  | EmptyString => EmptyString
  end.

(** Digits up to the trailing white space; [prev] tells that the previous
    character was a digit (so that an underscore or the end may follow). *)
Fixpoint parse_digits (acc : Z) (prev : bool) (s : string) : option Z :=
  match s with
  | EmptyString => if prev then Some acc else None
  | String c s' =>
      match digit_of c with
      | Some d => parse_digits (10 * acc + d) true s'
      | None =>
          if prev then
            if Ascii.eqb c "_" then
              match s' with
              | String c' _ =>
                  match digit_of c' with
                  | Some _ => parse_digits acc false s'
                  | None => None
                  end
              | EmptyString => None
              end
            else if is_space c then
              match lstrip s' with EmptyString => Some acc | _ => None end
            else None
          else None
      end
  end.

Definition int_of_str (s : string) : option Z :=
  match lstrip s with
  | String "+" s' => parse_digits 0 false s'
  | String "-" s' => Z.opp <$> parse_digits 0 false s'
  | s' => parse_digits 0 false s'
  end.

(** [sub in s] for strings. *)
Definition contains (sub s : string) : Prop :=
  exists a b, s = a +:+ sub +:+ b.

End Py.

(** ** constants.py *)

Module Constants.

Definition NL : string := String "010" "".

(** [_join_str]: the strings [args] joined by [sep] (a blank by default). *)
Definition _join_str (sep : string) (args : list string) : string :=
  Py.join sep args.

Module DCONST.
Definition JOB_ID := "<job_id>".
Definition TABLENAME_ID := "<tablename>".
Definition HTTP_CODE_ID := "<code>".
Definition CONTEXT_ID := "<context>".
Definition TASKNAME_ID := "<taskname>".
End DCONST.

Module EXCEPT.
Definition LOGIN_ERROR := "User token is not defined. First log into SciServer.".
Definition SCHEMA_ERROR := "Error when getting schema name.".
Definition GET_TABLE_ERROR :=
    _join_str " " ["Error when getting table description";
                   "from database context " +:+ DCONST.CONTEXT_ID +:+ "." +:+ NL].
Definition ILLEGAL_FORMAT_ERROR :=
    _join_str " " ["Error when executing query. Illegal format parameter specification: "].
Definition EXECUTE_QUERY_ERROR := "Error when executing query.".
Definition SUMBIT_JOB_ERROR := "Error when submitting a job.".
Definition GET_JOB_STATUS_ERROR :=
    _join_str " " ["Error when getting the status of job " +:+ DCONST.JOB_ID +:+ "." +:+ NL].
Definition CANCEL_JOB_ERROR :=
    "Error when canceling job " +:+ DCONST.JOB_ID +:+ "." +:+ NL.
Definition UPLOAD_CSV_ERROR :=
    _join_str " " ["Error when uploading CSV data into";
                   "CasJobs table " +:+ DCONST.TABLENAME_ID +:+ "." +:+ NL].
Definition HTTP_ERROR :=
    _join_str " " ["Http Response from CasJobs API";
                   "returned status code " +:+ DCONST.HTTP_CODE_ID +:+ ":" +:+ NL].
End EXCEPT.

Module TASKNAMES.
Definition GETTABLES := "getTables".
Definition GETSCHEMANAME := "getSchemaName".
Definition EXECUTEQUERY := "executeQuery".
Definition SUBMITJOB := "submitJob".
Definition GETJOBSTATUS := "getJobStatus".
Definition CANCELJOB := "cancelJob".
Definition WRITEFITSFILEFROMQUERY := "writeFitsFileFromQuery".
Definition GETPANDASDATAFRAMEFROMQUERY := "getPandasDataFrameFromQuery".
Definition GETNUMPYARRAYFROMQUERY := "getNumpyArrayFromQuery".
Definition UPLOADPANDASDATAFRAMETOTABLE := "uploadPandasDataFrameToTable".
Definition UPLOADCSVDATATOTABLE := "uploadCSVDataToTable".
End TASKNAMES.

Module CASJOBSCONST.
Definition SCISCRIPT_PYTHON := "SciScript-Python.CasJobs.".
Definition SCISCRIPT_PYTHON_COMPUTE := "Compute." +:+ SCISCRIPT_PYTHON.
Definition X_AUTH_TOKEN := "X-Auth-Token".
Definition CONTENT_TYPE := "Content-Type".
Definition ACCEPT := "Accept".
Definition CONTENT_JSON := "application/json".
Definition FORMAT_PANDAS := "pandas".
Definition FORMAT_JSON := "json".
Definition FORMAT_DICT := "dict".
Definition WEBSERVICESID := "WebServicesId".
Definition KEYSTONE_USER_ID := "<keystone_user_id>".
Definition MYDB := "MyDB".
Definition QUERY := "Query".
Definition TASKNAME := "TaskName".
End CASJOBSCONST.

Module URLCONST.
Definition CONTEXTS := "contexts".
Definition TABLES := "Tables".
Definition TASKNAME := CASJOBSCONST.TASKNAME.
Definition USERS := "users".
Definition QUERY := "query".
Definition JOBS := "jobs".
Definition EQ := "=".
Definition Q := "?".
End URLCONST.

End Constants.
Import Constants.

(** ** Values, exceptions and the outside world *)

(** Python values the client handles.  [VNone] to [VDict] are what
    [orjson.loads] can produce (numbers are integers here; a [dict] keeps its
    insertion order).  The remaining constructors stand for objects of the
    libraries the client hands its results to, kept symbolic:
    [io.StringIO(s)], [io.BytesIO(b)], [pandas.DataFrame(data, columns=c)],
    [pandas.read_csv(buffer, index_col=None)], [frame.as_matrix()] and
    the concatenation [prefix + str(v)]. *)
Inductive value : Type :=
| VNone
| VBool (b : bool)
| VInt (n : Z)
| VStr (s : string)
| VList (items : list value)
| VDict (fields : list (string * value))
| VStringIO (text : string)
| VBytesIO (bytes : string)
| VDataFrame (data columns : value)
| VReadCsv (buffer : value)
| VMatrix (frame : value)
| VConcatStr (prefix : string) (v : value).

(** Exceptions.  [ValueError msg] is the one this client raises itself, with
    its message; the others are raised by built-ins and collaborators, whose
    messages are not modelled: [InvalidLiteral] is the [ValueError] of
    [int()], [KeystoneError] whatever [Authentication] raises. *)
Inductive exn : Type :=
| ValueError (msg : string)
| InvalidLiteral
| TypeError
| KeyError
| IndexError
| JSONDecodeError
| OSError
| KeystoneError.

(** What running a piece of client code gives: a value, an exception, or
    nothing yet, when the polling loop was cut off after [fuel] rounds. *)
Inductive outcome (A : Type) : Type :=
| Return (a : A)
| Raise (e : exn)
| OutOfFuel.
Arguments Return {A} a.
Arguments Raise {A} e.
Arguments OutOfFuel {A}.

Inductive Method : Type := GET | POST | PUT | DELETE.

(** A request body: none, the bytes [orjson.dumps] gives for a value, or raw
    bytes supplied by the caller. *)
Inductive Body : Type :=
| NoBody
| JsonBody (v : value)
| RawBody (bytes : string).

(** One HTTP request as handed to [requests] or to the [aiohttp] session
    ([base_url] is the session's, [None] for [requests]). *)
Record Request : Type := mkRequest {
  method : Method;
  base_url : option string;
  url : string;
  headers : gmap string string;
  data : Body
}.

(** A response: [content] is the body, taken as text ([decode()] and
    [text()] are the identity on it; bodies that are not valid UTF-8 are
    outside the model); [json] is what [orjson.loads] (or [resp.json()])
    makes of the body, [None] when it raises. *)
Record Response : Type := mkResponse {
  status_code : Z;
  content : string;
  json : option value
}.

(** The collaborators, fixed during a call: the token provider, the keystone
    lookup, [Config], the remote service (its answer to the [n]-th request
    of the run) and the file system. *)
Record Env : Type := mkEnv {
  getToken : option string;
  getKeystoneUserWithToken : string -> option string;
  isSciServerComputeEnvironment : bool;
  CasJobsRESTUri : string;
  SkyServerWSurl : string;
  server : nat -> Request -> Response;
  writable : string -> bool
}.

(** What the client does, in the order it does it. *)
Inductive Event : Type :=
| EvRequest (r : Request)
| EvSleep (seconds : Z)
| EvPrint (text : string)
| EvWrite (fileName content : string).

(** The mutable state: the module level [task.name] and the trace. *)
Record State : Type := mkState {
  task_name : option string;
  trace : list Event
}.

Definition is_request (e : Event) : option Request :=
  match e with EvRequest r => Some r | _ => None end.

Definition is_sleep (e : Event) : option Z :=
  match e with EvSleep n => Some n | _ => None end.

(** The requests, and the sleeps, of a trace, oldest first. *)
Definition requests (t : list Event) : list Request := omap is_request t.
Definition sleeps (t : list Event) : list Z := omap is_sleep t.

(** ** The monad *)

Definition M (A : Type) : Type := Env -> State -> outcome A * State.

Definition ret {A} (a : A) : M A := fun _ st => (Return a, st).

Definition raise {A} (e : exn) : M A := fun _ st => (Raise e, st).

Definition bind {A B} (m : M A) (k : A -> M B) : M B :=
  fun env st =>
    match m env st with
    | (Return a, st') => k a env st'
    | (Raise e, st') => (Raise e, st')
    | (OutOfFuel, st') => (OutOfFuel, st')
    end.

Declare Scope py_scope.
Delimit Scope py_scope with py.
Notation "x <- m ;; k" := (bind m (fun x => k))
  (at level 100, m at next level, right associativity) : py_scope.
Notation "m ;;; k" := (bind m (fun _ => k))
  (at level 100, right associativity) : py_scope.
Local Open Scope py_scope.

Definition ask : M Env := fun env st => (Return env, st).

Definition emit (e : Event) : M unit :=
  fun _ st => (Return tt, mkState (task_name st) (trace st ++ [e])).

Definition get_task_name : M (option string) :=
  fun _ st => (Return (task_name st), st).

Definition set_task_name (n : option string) : M unit :=
  fun _ st => (Return tt, mkState n (trace st)).

(** A built-in that returns or raises. *)
Definition lift {A} (o : exn + A) : M A :=
  match o with inl e => raise e | inr a => ret a end.

(** [for x in l: ...] collecting one result per item, stopping at the first
    exception. *)
Fixpoint mapM {A B} (f : A -> M B) (l : list A) : M (list B) :=
  match l with
  | [] => ret []
  | x :: l' => y <- f x ;; ys <- mapM f l' ;; ret (y :: ys)
  end.

(** Sending a request: it is recorded, and the service answers (a transport
    that fails before any answer is not modelled). *)
Definition send (r : Request) : M Response :=
  fun env st =>
    (Return (server env (length (requests (trace st))) r),
     mkState (task_name st) (trace st ++ [EvRequest r])).

(** *** Built-ins on values *)

Fixpoint assoc (k : string) (d : list (string * value)) : option value :=
  match d with
  | [] => None
  | (k', v) :: d' => if String.eqb k k' then Some v else assoc k d'
  end.

(** [seq[i]] for a Python sequence of length [n]: negative indices count
    from the end. *)
Definition index {A} (l : list A) (i : Z) : exn + A :=
  let n := Z.of_nat (length l) in
  let j := if i <? 0 then i + n else i in
  if (j <? 0) || (n <=? j) then inl IndexError
  else match l !! Z.to_nat j with Some x => inr x | None => inl IndexError end.

Definition chars (s : string) : list value :=
  (fun c => VStr (String c "")) <$> list_ascii_of_string s.

(** [v[key]].  Only JSON values and lists built by the client are ever
    subscripted. *)
Definition getitem (v key : value) : exn + value :=
  match v, key with
  | VDict d, VStr k => match assoc k d with Some x => inr x | None => inl KeyError end
  | VDict _, _ => inl KeyError
  | VList l, VInt i => index l i
  | VList l, VBool b => index l (if b then 1 else 0)
  | VStr s, VInt i => index (chars s) i
  | VStr s, VBool b => index (chars s) (if b then 1 else 0)
  | _, _ => inl TypeError
  end.

(** [len(v)] *)
Definition len (v : value) : exn + Z :=
  match v with
  | VList l => inr (Z.of_nat (length l))
  | VDict d => inr (Z.of_nat (length d))
  | VStr s => inr (Z.of_nat (String.length s))
  | _ => inl TypeError
  end.

(** [for x in v] *)
Definition iter (v : value) : exn + list value :=
  match v with
  | VList l => inr l
  | VDict d => inr ((fun kv => VStr (fst kv)) <$> d)
  | VStr s => inr (chars s)
  | _ => inl TypeError
  end.

(** [int(v)] *)
Definition int (v : value) : exn + Z :=
  match v with
  | VInt n => inr n
  | VBool b => inr (if b then 1 else 0)
  | VStr s => match Py.int_of_str s with Some n => inr n | None => inl InvalidLiteral end
  | _ => inl TypeError
  end.

(** Sequencing of built-ins that return or raise. *)
Definition ebind {A B} (o : exn + A) (k : A -> exn + B) : exn + B :=
  match o with inl e => inl e | inr a => k a end.

Notation "x <~ o ;; k" := (ebind o (fun x => k))
  (at level 100, o at next level, right associativity) : py_scope.

Fixpoint emap {A B} (f : A -> exn + B) (l : list A) : exn + list B :=
  match l with
  | [] => inr []
  | x :: l' => y <~ f x ;; ys <~ emap f l' ;; inr (y :: ys)
  end.

(** [x in (a, b, ...)] for a format tag [x] and a tuple of strings; the tag
    is a string or [None], and [None] equals no string. *)
Definition in_tuple (x : option string) (t : list string) : bool :=
  match x with
  | Some s => existsb (String.eqb s) t
  | None => false
  end.

(** [x == s] for a format tag [x] and a string [s]. *)
Definition eq_tag (x : option string) (s : string) : bool :=
  match x with
  | Some t => String.eqb t s
  | None => false
  end.

(** [str(x)] for a format tag. *)
Definition str_of_tag (x : option string) : string :=
  match x with Some s => s | None => "None" end.

(** [d[k]] for a dictionary of strings. *)
Definition subscript (d : gmap string string) (k : string) : exn + string :=
  match d !! k with Some v => inr v | None => inl KeyError end.

(** ** utils.py *)

Module Utils.

Definition __token : M string :=
  env <- ask ;;
  match getToken env with
  | None => raise (ValueError EXCEPT.LOGIN_ERROR)
  | Some token =>
      if String.eqb token "" then raise (ValueError EXCEPT.LOGIN_ERROR)
      else ret token
  end.

Definition __get_taskname (env : Env) (task_id : string) : string :=
  if isSciServerComputeEnvironment env
  then CASJOBSCONST.SCISCRIPT_PYTHON_COMPUTE +:+ task_id
  else CASJOBSCONST.SCISCRIPT_PYTHON +:+ task_id.

Definition __taskname_url (env : Env) (taskname : string) : string :=
  "?" +:+ URLCONST.TASKNAME +:+ "=" +:+ __get_taskname env taskname.

Definition __format_to_accept_header (accept_format : option string) : exn + string :=
  if in_tuple accept_format ["pandas"; "json"; "dict"] then inr "application/json+array"
  else if in_tuple accept_format ["csv"; "readable"; "StringIO"] then inr "text/plain"
  else if in_tuple accept_format ["fits"; "BytesIO"] then inr "application/fits"
  else inl (ValueError (EXCEPT.ILLEGAL_FORMAT_ERROR +:+ str_of_tag accept_format)).

Definition __get_headers (token : string) (accept_format : option string)
  : exn + gmap string string :=
  let headers : gmap string string :=
    <[CASJOBSCONST.CONTENT_TYPE := CASJOBSCONST.CONTENT_JSON]>
      (<[CASJOBSCONST.X_AUTH_TOKEN := token]> ∅) in
  match accept_format with
  | Some _ =>
      a <~ __format_to_accept_header accept_format ;;
      inr (<[CASJOBSCONST.ACCEPT := a]> headers)
  | None => inr headers
  end.

Definition __format_data (sql task_name : string) : Body :=
  JsonBody (VDict [(CASJOBSCONST.QUERY, VStr sql);
                   (CASJOBSCONST.TASKNAME, VStr task_name)]).

Definition __response_to_json (response : Response) : exn + value :=
  match json response with
  | Some v => inr v
  | None => inl JSONDecodeError
  end.

Definition __validate_response_status (response : Response) (on_error : string)
  : exn + unit :=
  if negb (status_code response =? 200) then
    inl (ValueError
           (_join_str " "
              [on_error;
               Py.replace DCONST.HTTP_CODE_ID
                 (Py.str_of_int (status_code response)) EXCEPT.HTTP_ERROR;
               content response]))
  else inr tt.

Definition __response_get (url : string) (token : string) (on_error : string)
  : M value :=
  h <- lift (__get_headers token None) ;;
  get_response <- send (mkRequest GET None url h NoBody) ;;
  lift (__validate_response_status get_response on_error) ;;;
  lift (__response_to_json get_response).

Definition __parse_post (response : Response) (format : option string)
  : exn + value :=
  if in_tuple format ["readable"; "StringIO"] then
    inr (VStringIO (content response))
  else if eq_tag format "pandas" then
    r <~ __response_to_json response ;;
    results <~ getitem r (VStr "Result") ;;
    n <~ len results ;;
    if 1 <? n then
      items <~ iter results ;;
      res <~ emap (fun result =>
                     d <~ getitem result (VStr "Data") ;;
                     c <~ getitem result (VStr "Columns") ;;
                     inr (VDataFrame d c)) items ;;
      inr (VList res)
    else
      r0 <~ getitem results (VInt 0) ;;
      d <~ getitem r0 (VStr "Data") ;;
      c <~ getitem r0 (VStr "Columns") ;;
      inr (VDataFrame d c)
  else if in_tuple format ["csv"; "json"] then
    inr (VStr (content response))
  else if eq_tag format "dict" then
    __response_to_json response
  else if in_tuple format ["fits"; "BytesIO"] then
    inr (VBytesIO (content response))
  else inl (ValueError (EXCEPT.ILLEGAL_FORMAT_ERROR +:+ str_of_tag format)).

Definition __async_validate_response_status (response : Response) : exn + unit :=
  if negb (status_code response =? 200) then
    inl (ValueError
           (_join_str " "
              [EXCEPT.EXECUTE_QUERY_ERROR;
               Py.replace DCONST.HTTP_CODE_ID
                 (Py.str_of_int (status_code response)) EXCEPT.HTTP_ERROR;
               content response]))
  else inr tt.

(** The [aiohttp.ClientSession] of a batch: its base URL and the headers it
    puts on every request. *)
Record Session : Type := mkSession {
  session_base_url : string;
  session_headers : gmap string string
}.

Definition __make_post_request (_session : Session) (url data task_name : string)
  : M value :=
  resp <- send (mkRequest POST (Some (session_base_url _session)) url
                  (session_headers _session) (__format_data data task_name)) ;;
  lift (__async_validate_response_status resp) ;;;
  response_json <- lift (__response_to_json resp) ;;
  results <- lift (getitem response_json (VStr "Result")) ;;
  items <- lift (iter results) ;;
  output <- lift (emap (fun response =>
                          c <~ getitem response (VStr "Columns") ;;
                          d <~ getitem response (VStr "Data") ;;
                          inr (VDict [("Columns", c); ("Data", d)])) items) ;;
  ret (VList output).

(** [asyncio.gather] returns the results of the tasks in the order of the
    tasks, and the first exception aborts the batch.  The tasks are run here
    one after the other, in the order of [datas]: which request reaches the
    service first is not modelled. *)
Definition __async_post_request (url : string) (datas : list string)
    (headers : gmap string string) (task_name : string) : M value :=
  env <- ask ;;
  let _session := mkSession (SkyServerWSurl env) headers in
  responses <- mapM (fun data => __make_post_request _session url data task_name)
                 datas ;;
  ret (VList responses).

(** The table is built once, when the module is loaded, from [Config]. *)
Definition URL_DICT (env : Env) : gmap string string :=
  <[TASKNAMES.UPLOADCSVDATATOTABLE :=
      _join_str ""
        [CasJobsRESTUri env +:+ "/" +:+ URLCONST.CONTEXTS +:+ "/" +:+ DCONST.CONTEXT_ID;
         "/" +:+ URLCONST.TABLES +:+ "/" +:+ DCONST.TABLENAME_ID +:+ DCONST.TASKNAME_ID]]>
  (<[TASKNAMES.CANCELJOB :=
      _join_str ""
        [CasJobsRESTUri env +:+ "/" +:+ URLCONST.JOBS;
         "/" +:+ DCONST.JOB_ID +:+ __taskname_url env TASKNAMES.CANCELJOB]]>
  (<[TASKNAMES.GETJOBSTATUS :=
      _join_str ""
        [CasJobsRESTUri env +:+ "/" +:+ URLCONST.JOBS;
         "/" +:+ DCONST.JOB_ID +:+ __taskname_url env TASKNAMES.GETJOBSTATUS]]>
  (<[TASKNAMES.SUBMITJOB :=
      _join_str ""
        [CasJobsRESTUri env +:+ "/" +:+ URLCONST.CONTEXTS +:+ "/" +:+ DCONST.CONTEXT_ID;
         "/" +:+ URLCONST.JOBS +:+ __taskname_url env TASKNAMES.SUBMITJOB]]>
  (<[TASKNAMES.EXECUTEQUERY :=
      _join_str ""
        [CasJobsRESTUri env +:+ "/" +:+ URLCONST.CONTEXTS +:+ "/" +:+ DCONST.CONTEXT_ID;
         "/" +:+ URLCONST.QUERY +:+ DCONST.TASKNAME_ID]]>
  (<[TASKNAMES.GETTABLES :=
      _join_str ""
        [CasJobsRESTUri env +:+ "/" +:+ URLCONST.CONTEXTS +:+ "/" +:+ DCONST.CONTEXT_ID;
         "/" +:+ URLCONST.TABLES +:+ __taskname_url env TASKNAMES.GETTABLES]]>
  (<[TASKNAMES.GETSCHEMANAME :=
      _join_str ""
        [CasJobsRESTUri env +:+ "/" +:+ URLCONST.USERS +:+ "/";
         CASJOBSCONST.KEYSTONE_USER_ID;
         __taskname_url env TASKNAMES.GETSCHEMANAME]]>
  ∅)))))).

End Utils.
Import Utils.

(** ** CasJobs.py *)

(** A job id as callers pass it: an integer, or a string (the empty string
    asks for the statuses of all jobs). *)
Inductive JobId : Type :=
| JobInt (n : Z)
| JobStr (s : string).

Definition str_of_job (jobId : JobId) : string :=
  match jobId with
  | JobInt n => Py.str_of_int n
  | JobStr s => s
  end.

(** The [sql] argument of [executeQueryAsync]: one query or a list. *)
Inductive Queries : Type :=
| OneQuery (sql : string)
| ManyQueries (sqls : list string).

(** A [pandas.DataFrame] to upload, as far as [to_csv] looks at it: the name
    of its index ([None] when it has none), the column names, and for each
    row its index label and its cells, already rendered as text. *)
Record DataFrame : Type := mkDataFrame {
  index_name : option string;
  columns : list string;
  rows : list (string * list string)
}.

(** [frame.to_csv(index=...)] for cells that need no quoting: a header line,
    then a line per row, each ended by a newline; with [index] the index
    label comes first on every line.  The bytes of [.encode("utf8")] are the
    text itself. *)
Definition csv_line (cells : list string) : string :=
  Py.join "," cells +:+ NL.

Definition to_csv (frame : DataFrame) (index : bool) : string :=
  let header :=
    if index then default "" (index_name frame) :: columns frame
    else columns frame in
  let line (row : string * list string) :=
    if index then fst row :: snd row else snd row in
  String.concat "" (csv_line <$> (header :: (line <$> rows frame))).

Module CasJobs.

(** [task.name] is the field [task_name] of the state; it starts as [None]. *)
Definition initial_state : State := mkState None [].

Definition getSchemaName : M value :=
  env <- ask ;;
  token <- __token ;;
  template <- lift (subscript (URL_DICT env) TASKNAMES.GETSCHEMANAME) ;;
  user_id <- match getKeystoneUserWithToken env token with
             | Some i => ret i
             | None => raise KeystoneError
             end ;;
  let usersUrl := Py.replace CASJOBSCONST.KEYSTONE_USER_ID user_id template in
  r <- __response_get usersUrl token EXCEPT.SCHEMA_ERROR ;;
  w <- lift (getitem r (VStr "WebServicesId")) ;;
  ret (VConcatStr "wsid_" w).

Definition getTables (context : string) : M value :=
  env <- ask ;;
  template <- lift (subscript (URL_DICT env) TASKNAMES.GETTABLES) ;;
  token <- __token ;;
  __response_get
    (Py.replace DCONST.CONTEXT_ID context template)
    token
    (Py.replace DCONST.CONTEXT_ID context EXCEPT.GET_TABLE_ERROR).

(** The first lines of [executeQuery] and of [uploadCSVDataToTable]: take the
    override and reset it, or fall back on the default of the operation. *)
Definition take_task_name (default_id : string) : M string :=
  env <- ask ;;
  name <- get_task_name ;;
  match name with
  | Some n => set_task_name None ;;; ret n
  | None => ret (__get_taskname env default_id)
  end.

Definition executeQuery (sql context : string) (format : option string) : M value :=
  env <- ask ;;
  taskName <- take_task_name TASKNAMES.EXECUTEQUERY ;;
  template <- lift (subscript (URL_DICT env) TASKNAMES.EXECUTEQUERY) ;;
  let u := Py.replace DCONST.TASKNAME_ID (__taskname_url env taskName)
             (Py.replace DCONST.CONTEXT_ID context template) in
  let d := __format_data sql taskName in
  token <- __token ;;
  h <- lift (__get_headers token format) ;;
  postResponse <- send (mkRequest POST None u h d) ;;
  lift (__validate_response_status postResponse EXCEPT.EXECUTE_QUERY_ERROR) ;;;
  lift (__parse_post postResponse format).

(** The [nest_asyncio] patch applied inside a notebook kernel changes
    nothing in what follows, and is left out. *)
Definition executeQueryAsync (sql : Queries) (context : string)
    (format : option string) : M value :=
  env <- ask ;;
  let sql := match sql with OneQuery q => [q] | ManyQueries qs => qs end in
  token <- __token ;;
  h <- lift (__get_headers token (Some "json")) ;;
  responses <- __async_post_request
                 (CasJobsRESTUri env +:+ "/contexts/" +:+ context +:+ "/query")
                 sql h (__get_taskname env TASKNAMES.EXECUTEQUERY) ;;
  match format with
  | Some _ =>
      items <- lift (iter responses) ;;
      r <- lift (emap (fun response =>
                         a <~ getitem response (VStr "Result") ;;
                         b <~ getitem a (VInt 0) ;;
                         c <~ getitem b (VStr "Data") ;;
                         iter c) items) ;;
      cols <- lift (a <~ getitem responses (VInt 0) ;;
                    b <~ getitem a (VStr "Result") ;;
                    c <~ getitem b (VInt 0) ;;
                    getitem c (VStr "Columns")) ;;
      ret (VDataFrame (VList (concat r)) cols)
  | None => ret responses
  end.

Definition submitJob (sql context : string) : M value :=
  env <- ask ;;
  template <- lift (subscript (URL_DICT env) TASKNAMES.SUBMITJOB) ;;
  let u := Py.replace DCONST.CONTEXT_ID context template in
  let d := __format_data sql (__get_taskname env TASKNAMES.SUBMITJOB) in
  token <- __token ;;
  h <- lift (__get_headers token (Some "readable")) ;;
  putResponse <- send (mkRequest PUT None u h d) ;;
  lift (__validate_response_status putResponse EXCEPT.SUMBIT_JOB_ERROR) ;;;
  n <- lift (int (VStr (content putResponse))) ;;
  ret (VInt n).

Definition getJobStatus (jobId : JobId) : M value :=
  env <- ask ;;
  let jobId := str_of_job jobId in
  template <- lift (subscript (URL_DICT env) TASKNAMES.GETJOBSTATUS) ;;
  token <- __token ;;
  __response_get
    (Py.replace DCONST.JOB_ID jobId template)
    token
    (Py.replace DCONST.JOB_ID jobId EXCEPT.GET_JOB_STATUS_ERROR).

Definition cancelJob (jobId : JobId) : M value :=
  env <- ask ;;
  let jobId := str_of_job jobId in
  template <- lift (subscript (URL_DICT env) TASKNAMES.CANCELJOB) ;;
  token <- __token ;;
  h <- lift (__get_headers token None) ;;
  response <- send (mkRequest DELETE None
                      (Py.replace DCONST.JOB_ID jobId template) h NoBody) ;;
  lift (__validate_response_status response
          (Py.replace DCONST.JOB_ID jobId EXCEPT.CANCEL_JOB_ERROR)) ;;;
  ret (VBool true).

Definition minPollTime : Z := 5.
Definition waitingStr : string := "Waiting...".

(** [jobStatus in (3, 4, 5)] *)
Definition is_terminal (jobStatus : Z) : bool :=
  (jobStatus =? 3) || (jobStatus =? 4) || (jobStatus =? 5).

(** The [while not complete] loop; [fuel] bounds the number of rounds. *)
Fixpoint waitForJob_loop (fuel : nat) (jobId : JobId) (verbose : bool)
    (pollTime : Z) : M value :=
  match fuel with
  | O => fun _ st => (OutOfFuel, st)
  | S fuel' =>
      (if verbose then emit (EvPrint waitingStr) else ret tt) ;;;
      jobDesc <- getJobStatus jobId ;;
      status <- lift (getitem jobDesc (VStr "Status")) ;;
      jobStatus <- lift (int status) ;;
      if is_terminal jobStatus then
        (if verbose then emit (EvPrint ("Done!" +:+ NL)) else ret tt) ;;;
        ret jobDesc
      else
        emit (EvSleep (Z.max minPollTime pollTime)) ;;;
        waitForJob_loop fuel' jobId verbose pollTime
  end.

(** The [try] of the source re-raises what it catches; so do those of the
    operations below. *)
Definition waitForJob (fuel : nat) (jobId : JobId) (verbose : bool)
    (pollTime : Z) : M value :=
  (if verbose then emit (EvPrint waitingStr) else ret tt) ;;;
  waitForJob_loop fuel jobId verbose pollTime.

(** [buffer.read()] on a fresh buffer. *)
Definition read (buffer : value) : exn + string :=
  match buffer with
  | VStringIO s => inr s
  | VBytesIO b => inr b
  | _ => inl TypeError
  end.

Definition writeFitsFileFromQuery (fileName queryString context : string)
  : M value :=
  env <- ask ;;
  set_task_name (Some (__get_taskname env TASKNAMES.WRITEFITSFILEFROMQUERY)) ;;;
  bytesio <- executeQuery queryString context (Some "fits") ;;
  (if writable env fileName then ret tt else raise OSError) ;;;
  b <- lift (read bytesio) ;;
  emit (EvWrite fileName b) ;;;
  ret (VBool true).

Definition getPandasDataFrameFromQuery (queryString context : string) : M value :=
  env <- ask ;;
  set_task_name (Some (__get_taskname env TASKNAMES.GETPANDASDATAFRAMEFROMQUERY)) ;;;
  cvsResponse <- executeQuery queryString context (Some "readable") ;;
  let dataFrame := VReadCsv cvsResponse in
  ret dataFrame.

Definition getNumpyArrayFromQuery (queryString context : string) : M value :=
  env <- ask ;;
  set_task_name (Some (__get_taskname env TASKNAMES.GETNUMPYARRAYFROMQUERY)) ;;;
  dataFrame <- getPandasDataFrameFromQuery queryString context ;;
  ret (VMatrix dataFrame).

Definition uploadCSVDataToTable (csvData tableName context : string) : M value :=
  env <- ask ;;
  taskName <- take_task_name TASKNAMES.UPLOADCSVDATATOTABLE ;;
  template <- lift (subscript (URL_DICT env) TASKNAMES.EXECUTEQUERY) ;;
  let u := Py.replace DCONST.TASKNAME_ID (__taskname_url env taskName)
             (Py.replace DCONST.TABLENAME_ID tableName
                (Py.replace DCONST.CONTEXT_ID context template)) in
  token <- __token ;;
  postResponse <- send (mkRequest POST None u
                          (<[CASJOBSCONST.X_AUTH_TOKEN := token]> ∅)
                          (RawBody csvData)) ;;
  lift (__validate_response_status postResponse
          (Py.replace DCONST.TABLENAME_ID tableName EXCEPT.UPLOAD_CSV_ERROR)) ;;;
  ret (VBool true).

(** [dataFrame.index.name is not None and dataFrame.index.name != ""] *)
Definition index_is_named (dataFrame : DataFrame) : bool :=
  match index_name dataFrame with
  | Some n => negb (String.eqb n "")
  | None => false
  end.

Definition uploadPandasDataFrameToTable (dataFrame : DataFrame)
    (tableName context : string) : M value :=
  env <- ask ;;
  set_task_name (Some (__get_taskname env TASKNAMES.UPLOADPANDASDATAFRAMETOTABLE)) ;;;
  let sio :=
    if index_is_named dataFrame then to_csv dataFrame true
    else to_csv dataFrame false in
  uploadCSVDataToTable sio tableName context.

(** The public operations, with their arguments. *)
Inductive Op : Type :=
| GetSchemaName
| GetTables (context : string)
| ExecuteQuery (sql context : string) (format : option string)
| ExecuteQueryAsync (sql : Queries) (context : string) (format : option string)
| SubmitJob (sql context : string)
| GetJobStatus (jobId : JobId)
| CancelJob (jobId : JobId)
| WaitForJob (jobId : JobId) (verbose : bool) (pollTime : Z)
| WriteFitsFileFromQuery (fileName queryString context : string)
| GetPandasDataFrameFromQuery (queryString context : string)
| GetNumpyArrayFromQuery (queryString context : string)
| UploadPandasDataFrameToTable (dataFrame : DataFrame) (tableName context : string)
| UploadCSVDataToTable (csvData tableName context : string).

Definition call (fuel : nat) (op : Op) : M value :=
  match op with
  | GetSchemaName => getSchemaName
  | GetTables c => getTables c
  | ExecuteQuery q c f => executeQuery q c f
  | ExecuteQueryAsync q c f => executeQueryAsync q c f
  | SubmitJob q c => submitJob q c
  | GetJobStatus j => getJobStatus j
  | CancelJob j => cancelJob j
  | WaitForJob j v p => waitForJob fuel j v p
  | WriteFitsFileFromQuery n q c => writeFitsFileFromQuery n q c
  | GetPandasDataFrameFromQuery q c => getPandasDataFrameFromQuery q c
  | GetNumpyArrayFromQuery q c => getNumpyArrayFromQuery q c
  | UploadPandasDataFrameToTable d t c => uploadPandasDataFrameToTable d t c
  | UploadCSVDataToTable d t c => uploadCSVDataToTable d t c
  end.

End CasJobs.
Import CasJobs.

(** * Vocabulary of the properties

    Predicates and functions in which the properties below are stated, and
    the environments and inputs of their examples. *)

(** The message [__validate_response_status] builds. *)
Definition http_error_message (on_error : string) (response : Response) : string :=
  on_error +:+ " Http Response from CasJobs API returned status code "
  +:+ Py.str_of_int (status_code response) +:+ ":" +:+ NL +:+ " "
  +:+ content response.

(** Two responses: a failure and a success. *)
Definition response_404 : Response := mkResponse 404 "no such table" None.
Definition response_200 : Response := mkResponse 200 "[]" (Some (VList [])).

(** A specification of a computation in a fixed environment: whatever the
    state, the trace only grows, by events that satisfy [R]; a returned value
    satisfies [Q], a raised exception [E], and [F] holds if the fuel ran
    out. *)
Definition spec {A} (env : Env) (R : Event -> Prop) (E : exn -> Prop)
    (F : Prop) (Q : A -> Prop) (m : M A) : Prop :=
  forall st, exists delta,
    trace (snd (m env st)) = trace st ++ delta
    /\ Forall R delta
    /\ match fst (m env st) with
       | Return a => Q a
       | Raise e => E e
       | OutOfFuel => F
       end.

(** The token provider gives no token: [None] or the empty string. *)
Definition no_token (env : Env) : Prop :=
  getToken env = None \/ getToken env = Some "".

(** The token provider gives the non-empty token [t]. *)
Definition has_token (env : Env) (t : string) : Prop :=
  getToken env = Some t /\ t <> "".

(** Events that are no requests, and the login error. *)
Definition not_a_request (e : Event) : Prop := is_request e = None.
Definition is_login_error (e : exn) : Prop := e = ValueError EXCEPT.LOGIN_ERROR.

(** The [Accept] header that goes with a format tag ([None]: no header). *)
Definition accept_for (format : option string) : option string :=
  match format with
  | Some _ =>
      match __format_to_accept_header format with
      | inr a => Some a
      | inl _ => None
      end
  | None => None
  end.

(** The method of the requests of an operation. *)
Definition method_of (op : Op) : Method :=
  match op with
  | GetSchemaName | GetTables _ | GetJobStatus _ | WaitForJob _ _ _ => GET
  | CancelJob _ => DELETE
  | SubmitJob _ _ => PUT
  | _ => POST
  end.

(** The two operations that post CSV data. *)
Definition is_upload (op : Op) : bool :=
  match op with
  | UploadPandasDataFrameToTable _ _ _ | UploadCSVDataToTable _ _ _ => true
  | _ => false
  end.

(** The [Content-Type] and the [Accept] header of the requests of an
    operation ([None]: no such header). *)
Definition content_type_of (op : Op) : option string :=
  if is_upload op then None else Some "application/json".

Definition accept_of (op : Op) : option string :=
  match op with
  | ExecuteQuery _ _ format => accept_for format
  | ExecuteQueryAsync _ _ _ => Some "application/json+array"
  | SubmitJob _ _ => Some "text/plain"
  | WriteFitsFileFromQuery _ _ _ => Some "application/fits"
  | GetPandasDataFrameFromQuery _ _ | GetNumpyArrayFromQuery _ _ => Some "text/plain"
  | _ => None
  end.

(** An event that, if it is a request, has this method and these headers. *)
Definition carries (t : string) (m : Method) (content_type accept : option string)
    (e : Event) : Prop :=
  forall r, e = EvRequest r ->
    method r = m
    /\ headers r !! "X-Auth-Token" = Some t
    /\ headers r !! "Content-Type" = content_type
    /\ headers r !! "Accept" = accept.

(** Any exception but the login error. *)
Definition other_error (e : exn) : Prop := e <> ValueError EXCEPT.LOGIN_ERROR.

(** The messages of the client's other errors all begin with [Error]. *)
Definition starts_E (s : string) : Prop := exists s', s = String "E" s'.

(** Built-ins raise their own exceptions, never the client's [ValueError]. *)
Definition builtin {A} (o : exn + A) : Prop :=
  forall msg, o <> inl (ValueError msg).

(** The recognized format tags. *)
Definition recognized (format : option string) : bool :=
  in_tuple format
    ["pandas"; "json"; "dict"; "csv"; "readable"; "StringIO"; "fits"; "BytesIO"].

(** The illegal-format error for a tag. *)
Definition illegal_format (format : option string) : exn :=
  ValueError (EXCEPT.ILLEGAL_FORMAT_ERROR +:+ str_of_tag format).

(** A result set with its [Data] and its [Columns]. *)
Definition result_set (v : value) : Prop :=
  (exists d, getitem v (VStr "Data") = inr d)
  /\ (exists c, getitem v (VStr "Columns") = inr c).

(** A response whose body is the JSON the service sends for a query: an
    object whose [Result] is a list, not empty, of result sets. *)
Definition decodable (response : Response) : Prop :=
  exists r results,
    json response = Some r
    /\ getitem r (VStr "Result") = inr (VList results)
    /\ results <> []
    /\ Forall result_set results.

(** A response with one result set of one row. *)
Definition one_row : value :=
  VDict [("Result", VList [VDict [("Columns", VList [VStr "c"]);
                                  ("Data", VList [VList [VInt 1]])]])].

Definition one_row_response : Response := mkResponse 200 "{...}" (Some one_row).

(** The headers [__get_headers] builds when no format is given. *)
Definition json_headers (t : string) : gmap string string :=
  <[CASJOBSCONST.CONTENT_TYPE := CASJOBSCONST.CONTENT_JSON]>
    (<[CASJOBSCONST.X_AUTH_TOKEN := t]> ∅).

(** The request [getJobStatus] sends. *)
Definition poll_request (env : Env) (t : string) (jobId : JobId) : Request :=
  mkRequest GET None
    (Py.replace DCONST.JOB_ID (str_of_job jobId)
       (CasJobsRESTUri env +:+ "/jobs/<job_id>"
        +:+ __taskname_url env TASKNAMES.GETJOBSTATUS))
    (json_headers t) NoBody.

(** The number of requests sent so far. *)
Definition sent (st : State) : nat := length (requests (trace st)).

(** The state with more events on its trace. *)
Definition log (st : State) (evs : list Event) : State :=
  mkState (task_name st) (trace st ++ evs).

(** What the [k]-th request of the run yields when it is a poll of [jobId]:
    the status record and its [Status] as an integer, if the service answers
    200 with such a record. *)
Definition poll (env : Env) (t : string) (jobId : JobId) (k : nat)
  : option (value * Z) :=
  let response := server env k (poll_request env t jobId) in
  if status_code response =? 200 then
    match json response with
    | Some jobDesc =>
        match (status <~ getitem jobDesc (VStr "Status") ;; int status) with
        | inr jobStatus => Some (jobDesc, jobStatus)
        | inl _ => None
        end
    | None => None
    end
  else None.

(** The events of a round that ends in a sleep, and of the last round. *)
Definition waiting_events (verbose : bool) : list Event :=
  if verbose then [EvPrint waitingStr] else [].

Definition round_events (verbose : bool) (pollTime : Z) (r : Request) : list Event :=
  waiting_events verbose ++ [EvRequest r; EvSleep (Z.max minPollTime pollTime)].

Definition final_events (verbose : bool) (r : Request) : list Event :=
  waiting_events verbose ++ [EvRequest r]
  ++ (if verbose then [EvPrint ("Done!" +:+ NL)] else []).

(** The events of [n] rounds that ended in a sleep. *)
Definition rounds (verbose : bool) (pollTime : Z) (r : Request) (n : nat)
  : list Event :=
  concat (replicate n (round_events verbose pollTime r)).

(** [jobStatus in (3, 4, 5)]: Canceled, Failed or Finished. *)
Definition terminal (jobStatus : Z) : Prop :=
  jobStatus = 3 \/ jobStatus = 4 \/ jobStatus = 5.

(** A service that reports a job as started twice and then as finished. *)
Definition status_record (jobStatus : Z) : value :=
  VDict [("JobID", VInt 42); ("Status", VInt jobStatus)].

Definition finishing_service (k : nat) (r : Request) : Response :=
  match k with
  | O | S O => mkResponse 200 "{...}" (Some (status_record 1))
  | _ => mkResponse 200 "{...}" (Some (status_record 5))
  end.

Definition finishing_env : Env :=
  mkEnv (Some "secret") (fun _ => Some "user") false
    "https://example.org/casjobs/RestApi" "https://example.org/skyserver"
    finishing_service (fun _ => true).

(** The polls and the sleeps of a trace, in order. *)
Inductive step : Type :=
| Poll
| Sleep (seconds : Z).

(** A request is a poll, a sleep is a sleep, other events are no steps. *)
Definition step_of (e : Event) : option step :=
  match e with
  | EvRequest _ => Some Poll
  | EvSleep n => Some (Sleep n)
  | _ => None
  end.

Definition steps (t : list Event) : list step := omap step_of t.

(** [n] polls, each followed by a sleep of [seconds]. *)
Definition waits (n : nat) (seconds : Z) : list step :=
  concat (replicate n [Poll; Sleep seconds]).

(** The status a record shows, as [waitForJob] reads it. *)
Definition status_of (jobDesc : value) : exn + Z :=
  status <~ getitem jobDesc (VStr "Status") ;; int status.

(** How a run of the polling loop that took the steps [ss] may have ended. *)
Definition wait_shape (seconds : Z) (o : outcome value) (ss : list step) : Prop :=
  exists n,
    match o with
    | Return jobDesc =>
        ss = waits n seconds ++ [Poll]
        /\ exists jobStatus, status_of jobDesc = inr jobStatus /\ terminal jobStatus
    | Raise _ => ss = waits n seconds ++ [Poll] \/ ss = waits n seconds
    | OutOfFuel => ss = waits n seconds
    end.

(** An environment without a token, and one with a token; the service
    answers every request with an empty list of tables. *)
Definition anonymous_env : Env :=
  mkEnv None (fun _ => Some "user") false
    "https://example.org/casjobs/RestApi" "https://example.org/skyserver"
    (fun _ _ => mkResponse 200 "[]" (Some (VList []))) (fun _ => true).

Definition logged_in_env : Env :=
  mkEnv (Some "secret") (fun _ => Some "user") false
    "https://example.org/casjobs/RestApi" "https://example.org/skyserver"
    (fun _ _ => mkResponse 200 "[]" (Some (VList []))) (fun _ => true).

(** The task name the next call of [executeQuery] (with [default_id] the name
    of that operation) or of [uploadCSVDataToTable] will use. *)
Definition next_task_name (env : Env) (st : State) (default_id : string) : string :=
  match task_name st with
  | Some n => n
  | None => __get_taskname env default_id
  end.

(** The state once the override has been looked at. *)
Definition consumed (st : State) : State := mkState None (trace st).

(** The URL and the request of [executeQuery] for a task name. *)
Definition executeQuery_url (env : Env) (context taskName : string) : string :=
  Py.replace DCONST.TASKNAME_ID (__taskname_url env taskName)
    (Py.replace DCONST.CONTEXT_ID context
       (CasJobsRESTUri env +:+ "/contexts/<context>/query<taskname>")).

Definition executeQuery_request (env : Env) (h : gmap string string)
    (sql context taskName : string) : Request :=
  mkRequest POST None (executeQuery_url env context taskName) h
    (__format_data sql taskName).

(** The URL and the request of [uploadCSVDataToTable] for a task name. *)
Definition upload_url (env : Env) (tableName context taskName : string) : string :=
  Py.replace DCONST.TASKNAME_ID (__taskname_url env taskName)
    (Py.replace DCONST.TABLENAME_ID tableName
       (Py.replace DCONST.CONTEXT_ID context
          (CasJobsRESTUri env +:+ "/contexts/<context>/query<taskname>"))).

Definition upload_request (env : Env) (t csvData tableName context taskName : string)
  : Request :=
  mkRequest POST None (upload_url env tableName context taskName)
    (<[CASJOBSCONST.X_AUTH_TOKEN := t]> ∅) (RawBody csvData).

(** The [TaskName] field of a request body, if the body is a JSON object
    that has one. *)
Definition body_task_name (b : Body) : option value :=
  match b with
  | JsonBody v =>
      match getitem v (VStr CASJOBSCONST.TASKNAME) with
      | inr x => Some x
      | inl _ => None
      end
  | _ => None
  end.

(** A request of [executeQuery], or of [uploadCSVDataToTable], that names
    the task [taskName]: in its URL, and for the query in its body too. *)
Definition names_query_task (env : Env) (sql context taskName : string) (r : Request)
  : Prop :=
  url r = executeQuery_url env context taskName
  /\ data r = __format_data sql taskName.

Definition names_upload_task (env : Env) (tableName context taskName : string)
    (r : Request) : Prop :=
  url r = upload_url env tableName context taskName.

(** A string without the character that opens a placeholder. *)
Fixpoint plain (s : string) : bool :=
  match s with
  | EmptyString => true
  | String c s' => negb (Ascii.eqb c "<") && plain s'
  end.

(** The prefix of the environment. *)
Definition task_prefix (env : Env) : string :=
  if isSciServerComputeEnvironment env
  then CASJOBSCONST.SCISCRIPT_PYTHON_COMPUTE
  else CASJOBSCONST.SCISCRIPT_PYTHON.

(** The CSV text of a frame with its index column, named [name], and
    without it. *)
Definition csv_with_index (name : string) (frame : DataFrame) : string :=
  String.concat ""
    (csv_line <$> ((name :: columns frame)
                   :: ((fun row => fst row :: snd row) <$> rows frame))).

Definition csv_without_index (frame : DataFrame) : string :=
  String.concat "" (csv_line <$> (columns frame :: (snd <$> rows frame))).

(** Two frames of two rows, one with a named index. *)
Definition named_frame : DataFrame :=
  mkDataFrame (Some "id") ["ra"; "dec"] [("0", ["10.5"; "-3.2"]); ("1", ["11.0"; "4.1"])].

Definition unnamed_frame : DataFrame :=
  mkDataFrame None ["ra"; "dec"] [("0", ["10.5"; "-3.2"]); ("1", ["11.0"; "4.1"])].

(** What [__make_post_request] makes of a response: the [Columns] and [Data]
    of each of its result sets. *)
Definition result_entry (response : Response) : exn + value :=
  _ <~ __async_validate_response_status response ;;
  response_json <~ __response_to_json response ;;
  results <~ getitem response_json (VStr "Result") ;;
  items <~ iter results ;;
  output <~ emap (fun response =>
                    c <~ getitem response (VStr "Columns") ;;
                    d <~ getitem response (VStr "Data") ;;
                    inr (VDict [("Columns", c); ("Data", d)])) items ;;
  inr (VList output).

(** The request [__make_post_request] sends. *)
Definition query_request (_session : Session) (url data task_name : string) : Request :=
  mkRequest POST (Some (session_base_url _session)) url (session_headers _session)
    (__format_data data task_name).

(** The combined table: what the last lines of [executeQueryAsync] compute
    from the gathered [responses]. *)
Definition combined_table (responses : value) : exn + value :=
  items <~ iter responses ;;
  r <~ emap (fun response =>
               a <~ getitem response (VStr "Result") ;;
               b <~ getitem a (VInt 0) ;;
               c <~ getitem b (VStr "Data") ;;
               iter c) items ;;
  cols <~ (a <~ getitem responses (VInt 0) ;;
           b <~ getitem a (VStr "Result") ;;
           c <~ getitem b (VInt 0) ;;
           getitem c (VStr "Columns")) ;;
  inr (VDataFrame (VList (concat r)) cols).

(** A service that answers every query with one result set of one row. *)
Definition query_env : Env :=
  mkEnv (Some "secret") (fun _ => Some "user") false
    "https://example.org/casjobs/RestApi" "https://example.org/skyserver"
    (fun _ _ => mkResponse 200 "{...}" (Some one_row)) (fun _ => true).

(** The entries of a batch whose first request is the [k]-th of the run, in
    the order of the queries. *)
Fixpoint gathered (env : Env) (_session : Session) (url task_name : string)
    (k : nat) (datas : list string) : exn + list value :=
  match datas with
  | [] => inr []
  | data :: datas' =>
      v <~ result_entry (server env k (query_request _session url data task_name)) ;;
      vs <~ gathered env _session url task_name (S k) datas' ;;
      inr (v :: vs)
  end.


(** The URL of the requests about one job, for the operation [name]. *)
Definition job_url (env : Env) (jobId : JobId) (name : string) : string :=
  Py.replace DCONST.JOB_ID (str_of_job jobId)
    (CasJobsRESTUri env +:+ "/jobs/<job_id>" +:+ __taskname_url env name).

(** What a GET of [__response_get] gives for a response. *)
Definition get_result (on_error : string) (response : Response) : outcome value :=
  match __validate_response_status response on_error with
  | inl e => Raise e
  | inr _ =>
      match __response_to_json response with
      | inl e => Raise e
      | inr v => Return v
      end
  end.

(** The request of [getTables]. *)
Definition tables_request (env : Env) (t context : string) : Request :=
  mkRequest GET None
    (Py.replace DCONST.CONTEXT_ID context
       (CasJobsRESTUri env +:+ "/contexts/<context>/Tables"
        +:+ __taskname_url env TASKNAMES.GETTABLES))
    (json_headers t) NoBody.

(** The request of [cancelJob]. *)
Definition cancel_request (env : Env) (t : string) (jobId : JobId) : Request :=
  mkRequest DELETE None (job_url env jobId TASKNAMES.CANCELJOB) (json_headers t) NoBody.


(** A service that refuses every request. *)
Definition refusing_env : Env :=
  mkEnv (Some "secret") (fun _ => Some "user") false
    "https://example.org/casjobs/RestApi" "https://example.org/skyserver"
    (fun _ _ => mkResponse 403 "Forbidden" None) (fun _ => true).


(** A service that answers every request with the same CSV text. *)
Definition csv_env : Env :=
  mkEnv (Some "secret") (fun _ => Some "user") false
    "https://example.org/casjobs/RestApi" "https://example.org/skyserver"
    (fun _ _ => mkResponse 200 ("foo,bar" +:+ NL +:+ "1,2" +:+ NL) None)
    (fun _ => true).

(** An outcome with its value changed. *)
Definition map_outcome {A B} (f : A -> B) (o : outcome A) : outcome B :=
  match o with
  | Return a => Return (f a)
  | Raise e => Raise e
  | OutOfFuel => OutOfFuel
  end.

(** A service that answers every request with the same bytes, and a file
    system that takes every file. *)
Definition fits_env : Env :=
  mkEnv (Some "secret") (fun _ => Some "user") false
    "https://example.org/casjobs/RestApi" "https://example.org/skyserver"
    (fun _ _ => mkResponse 200 "SIMPLE  =                    T" None)
    (fun _ => true).

(** A computation that leaves [task.name] as it finds it. *)
Definition keeps_task_name {A} (m : M A) : Prop :=
  forall env st, task_name (snd (m env st)) = task_name st.


(** The session, the URL and the task name of a batch. *)
Definition batch_session (env : Env) (t : string) : Session :=
  mkSession (SkyServerWSurl env)
    (<[CASJOBSCONST.ACCEPT := "application/json+array"]> (json_headers t)).

Definition batch_url (env : Env) (context : string) : string :=
  CasJobsRESTUri env +:+ "/contexts/" +:+ context +:+ "/query".

Definition batch_request (env : Env) (t context sql : string) : Request :=
  query_request (batch_session env t) (batch_url env context) sql
    (__get_taskname env TASKNAMES.EXECUTEQUERY).

(** The queries of the argument of [executeQueryAsync]. *)
Definition queries_of (sql : Queries) : list string :=
  match sql with
  | OneQuery q => [q]
  | ManyQueries qs => qs
  end.

(** A computation that adds nothing to the trace. *)
Definition silent {A} (m : M A) : Prop :=
  forall env st, trace (snd (m env st)) = trace st.

(** A computation that adds requests only, one at most, and that does not
    return without having sent one. *)
Definition one_shot {A} (m : M A) : Prop :=
  forall env st, exists rs,
    (length rs <= 1)%nat
    /\ trace (snd (m env st)) = trace st ++ (EvRequest <$> rs)
    /\ (forall a, fst (m env st) = Return a -> length rs = 1%nat).

(** The operations other than the polling loop and the batch. *)
Definition single_request (op : Op) : bool :=
  match op with
  | WaitForJob _ _ _ | ExecuteQueryAsync _ _ _ => false
  | _ => true
  end.

Definition is_print (e : Event) : option string :=
  match e with EvPrint text => Some text | _ => None end.

(** The lines printed along a trace, and the trace without them. *)
Definition prints (t : list Event) : list string := omap is_print t.

Definition unprinted (t : list Event) : list Event :=
  List.filter (fun e => match e with EvPrint _ => false | _ => true end) t.

(** What is printed once the wait is over. *)
Definition done_line (o : outcome value) : list string :=
  match o with
  | Return _ => ["Done!" +:+ NL]
  | _ => []
  end.

(** The result set [s] has the data and the columns of [f]. *)
Definition is_result_set (s : value) (f : value * value) : Prop :=
  getitem s (VStr "Data") = inr (fst f) /\ getitem s (VStr "Columns") = inr (snd f).

(** The table [__parse_post] builds from a result set, and the entry
    [__make_post_request] keeps of it. *)
Definition frame (f : value * value) : value := VDataFrame (fst f) (snd f).

Definition entry (f : value * value) : value :=
  VDict [("Columns", snd f); ("Data", fst f)].

(** The request of [executeQuery] for the format [pandas]. *)
Definition pandas_request (env : Env) (st : State) (t sql context : string) : Request :=
  executeQuery_request env
    (<[CASJOBSCONST.ACCEPT := "application/json+array"]> (json_headers t))
    sql context (next_task_name env st TASKNAMES.EXECUTEQUERY).

(** A service that answers every request with two result sets, the second
    one with a field of its own. *)
Definition two_sets : value :=
  VDict [("Result",
          VList [VDict [("Columns", VList [VStr "a"]); ("Data", VList [VList [VInt 1]])];
                 VDict [("TableName", VStr "Table2"); ("Columns", VList [VStr "b"]);
                        ("Data", VList [VList [VInt 2]; VList [VInt 3]])]])].

Definition two_sets_env : Env :=
  mkEnv (Some "secret") (fun _ => Some "user") false
    "https://example.org/casjobs/RestApi" "https://example.org/skyserver"
    (fun _ _ => mkResponse 200 "{...}" (Some two_sets)) (fun _ => true).

(** The request of [getSchemaName] for the user [user_id]. *)
Definition schema_request (env : Env) (t user_id : string) : Request :=
  mkRequest GET None
    (Py.replace CASJOBSCONST.KEYSTONE_USER_ID user_id
       (CasJobsRESTUri env +:+ "/users/<keystone_user_id>"
        +:+ __taskname_url env TASKNAMES.GETSCHEMANAME))
    (json_headers t) NoBody.

(** A service that answers every request with the record of a user. *)
Definition schema_env : Env :=
  mkEnv (Some "secret") (fun _ => Some "user") false
    "https://example.org/casjobs/RestApi" "https://example.org/skyserver"
    (fun _ _ => mkResponse 200 "{...}"
                  (Some (VDict [("UserId", VStr "user"); ("WebServicesId", VInt 1234)])))
    (fun _ => true).

(** The context of an operation that sets the override before it calls
    [executeQuery] or [uploadCSVDataToTable], and the operation whose name
    reaches the service. *)
Definition wrapper_name (op : Op) : option (string * string) :=
  match op with
  | WriteFitsFileFromQuery _ _ c => Some (c, TASKNAMES.WRITEFITSFILEFROMQUERY)
  | GetPandasDataFrameFromQuery _ c => Some (c, TASKNAMES.GETPANDASDATAFRAMEFROMQUERY)
  | GetNumpyArrayFromQuery _ c => Some (c, TASKNAMES.GETPANDASDATAFRAMEFROMQUERY)
  | UploadPandasDataFrameToTable _ _ c =>
      Some (c, TASKNAMES.UPLOADPANDASDATAFRAMETOTABLE)
  | _ => None
  end.

(** * Properties *)

(** ** Examples of the built-ins *)

Example replace_ex1 : Py.replace "<code>" "404" "status <code>: <code>!" = "status 404: 404!".
Proof. reflexivity. Qed.

Example replace_ex2 : Py.replace "aa" "b" "aaaaa" = "bba".
Proof. reflexivity. Qed.

Example replace_ex3 : Py.replace "" "-" "abc" = "-a-b-c-".
Proof. reflexivity. Qed.

Example str_ex : Py.str_of_int 200 = "200" /\ Py.str_of_int (-7) = "-7" /\ Py.str_of_int 0 = "0".
Proof. repeat split; reflexivity. Qed.

Example int_ex : Py.int_of_str " 1_23
" = Some 123 /\ Py.int_of_str "-5" = Some (-5) /\ Py.int_of_str "1__2" = None
  /\ Py.int_of_str "" = None /\ Py.int_of_str "12 3" = None /\ Py.int_of_str "_1" = None.
Proof. repeat split; reflexivity. Qed.

Example HTTP_ERROR_text :
  EXCEPT.HTTP_ERROR = "Http Response from CasJobs API returned status code <code>:" +:+ NL.
Proof. reflexivity. Qed.

(** ** Strings and the HTTP error *)

Lemma app_assoc_s (a b c : string) : (a +:+ b) +:+ c = a +:+ (b +:+ c).
Proof.
  induction a as [|x a IH]; [reflexivity|].
  change (String x ((a +:+ b) +:+ c) = String x (a +:+ b +:+ c)).
  now rewrite IH.
Qed.

Lemma HTTP_ERROR_replace (code : string) :
  Py.replace DCONST.HTTP_CODE_ID code EXCEPT.HTTP_ERROR
  = "Http Response from CasJobs API returned status code " +:+ code +:+ ":" +:+ NL.
Proof. reflexivity. Qed.

Lemma validate_unfold (response : Response) (on_error : string) :
  __validate_response_status response on_error
  = if status_code response =? 200 then inr tt
    else inl (ValueError (http_error_message on_error response)).
Proof.
  unfold __validate_response_status, http_error_message.
  destruct (status_code response =? 200); cbn [negb]; [reflexivity|].
  rewrite HTTP_ERROR_replace. cbn [_join_str Py.join].
  now rewrite !app_assoc_s.
Qed.

Lemma app_nil_r_s (a : string) : a +:+ "" = a.
Proof.
  induction a as [|x a IH]; [reflexivity|].
  change (String x (a +:+ "") = String x a). now rewrite IH.
Qed.

Lemma contains_here (sub b : string) : Py.contains sub (sub +:+ b).
Proof. now exists "", b. Qed.

Lemma contains_end (sub : string) : Py.contains sub sub.
Proof. exists "", "". now rewrite app_nil_r_s. Qed.

Lemma contains_app_r (sub a s : string) :
  Py.contains sub s -> Py.contains sub (a +:+ s).
Proof.
  intros (x & y & ->). exists (a +:+ x), y. now rewrite app_assoc_s.
Qed.

(** C4.  A response whose status code is not 200 makes the validation (the
    synchronous one with the message of the calling operation, the
    asynchronous one with the message of [executeQueryAsync]) raise a
    [ValueError] whose message contains that message, the status code in
    decimal and the body of the response; a response with status code 200
    makes it return without raising. *)
Theorem validate_response_status_message (response : Response) (on_error : string) :
  (status_code response <> 200 ->
     exists msg amsg,
       __validate_response_status response on_error = inl (ValueError msg)
       /\ __async_validate_response_status response = inl (ValueError amsg)
       /\ msg = http_error_message on_error response
       /\ amsg = http_error_message EXCEPT.EXECUTE_QUERY_ERROR response
       /\ Py.contains on_error msg
       /\ Py.contains EXCEPT.EXECUTE_QUERY_ERROR amsg
       /\ Py.contains (Py.str_of_int (status_code response)) msg
       /\ Py.contains (Py.str_of_int (status_code response)) amsg
       /\ Py.contains (content response) msg
       /\ Py.contains (content response) amsg)
  /\ (status_code response = 200 ->
        __validate_response_status response on_error = inr tt
        /\ __async_validate_response_status response = inr tt).
Proof.
  change (__async_validate_response_status response)
    with (__validate_response_status response EXCEPT.EXECUTE_QUERY_ERROR).
  rewrite !validate_unfold. split.
  - intros Hne. apply Z.eqb_neq in Hne. rewrite Hne.
    eexists _, _. do 4 (split; [reflexivity|]).
    unfold http_error_message.
    repeat split; try apply contains_here;
      repeat (first [ apply contains_here | apply contains_end | apply contains_app_r ]).
  - intros ->. now split.
Qed.

Lemma validate_response_status_message_witness :
  (exists msg amsg,
      __validate_response_status response_404 "Error when getting schema name."
      = inl (ValueError msg)
      /\ __async_validate_response_status response_404 = inl (ValueError amsg)
      /\ msg = http_error_message "Error when getting schema name." response_404
      /\ amsg = http_error_message EXCEPT.EXECUTE_QUERY_ERROR response_404
      /\ Py.contains "Error when getting schema name." msg
      /\ Py.contains EXCEPT.EXECUTE_QUERY_ERROR amsg
      /\ Py.contains "404" msg
      /\ Py.contains "404" amsg
      /\ Py.contains "no such table" msg
      /\ Py.contains "no such table" amsg)
  /\ __validate_response_status response_200 "Error when getting schema name." = inr tt.
Proof.
  split.
  - apply (proj1 (validate_response_status_message response_404
                    "Error when getting schema name.")).
    vm_compute. discriminate.
  - apply (proj2 (validate_response_status_message response_200
                    "Error when getting schema name.")).
    reflexivity.
Defined.

(** ** Running the monad *)

Lemma bind_Return {A B} (m : M A) (k : A -> M B) env st a st' :
  m env st = (Return a, st') -> bind m k env st = k a env st'.
Proof. unfold bind. now intros ->. Qed.

Lemma bind_Raise {A B} (m : M A) (k : A -> M B) env st e st' :
  m env st = (Raise e, st') -> bind m k env st = (Raise e, st').
Proof. unfold bind. now intros ->. Qed.

Lemma bind_OutOfFuel {A B} (m : M A) (k : A -> M B) env st st' :
  m env st = (OutOfFuel, st') -> bind m k env st = (OutOfFuel, st').
Proof. unfold bind. now intros ->. Qed.

Section Spec.
Context (env : Env) (R : Event -> Prop) (E : exn -> Prop) (F : Prop).

Lemma spec_ret {A} (Q : A -> Prop) (a : A) : Q a -> spec env R E F Q (ret a).
Proof. intros H st. exists []. cbn. rewrite app_nil_r. auto. Qed.

Lemma spec_raise {A} (Q : A -> Prop) (e : exn) : E e -> spec env R E F Q (raise e).
Proof. intros H st. exists []. cbn. rewrite app_nil_r. auto. Qed.

Lemma spec_lift {A} (Q : A -> Prop) (o : exn + A) :
  match o with inl e => E e | inr a => Q a end -> spec env R E F Q (lift o).
Proof. destruct o; [apply spec_raise | apply spec_ret]. Qed.

Lemma spec_ask (Q : Env -> Prop) : Q env -> spec env R E F Q ask.
Proof. intros H st. exists []. cbn. rewrite app_nil_r. auto. Qed.

Lemma spec_get_task_name (Q : option string -> Prop) :
  (forall n, Q n) -> spec env R E F Q get_task_name.
Proof. intros H st. exists []. cbn. rewrite app_nil_r. auto. Qed.

Lemma spec_set_task_name (Q : unit -> Prop) n :
  Q tt -> spec env R E F Q (set_task_name n).
Proof. intros H st. exists []. cbn. rewrite app_nil_r. auto. Qed.

Lemma spec_emit (Q : unit -> Prop) (e : Event) :
  R e -> Q tt -> spec env R E F Q (emit e).
Proof. intros H HQ st. exists [e]. cbn. auto. Qed.

Lemma spec_send (Q : Response -> Prop) (r : Request) :
  R (EvRequest r) -> (forall resp, Q resp) -> spec env R E F Q (send r).
Proof. intros H HQ st. exists [EvRequest r]. cbn. auto. Qed.

Lemma spec_bind {A B} (Q : A -> Prop) (Q' : B -> Prop) (m : M A) (k : A -> M B) :
  spec env R E F Q m ->
  (forall a, Q a -> spec env R E F Q' (k a)) ->
  spec env R E F Q' (bind m k).
Proof.
  intros Hm Hk st. destruct (Hm st) as (d1 & Ht & HR & Ho).
  unfold bind. destruct (m env st) as [[a | e | ] st1]; cbn in *.
  - destruct (Hk a Ho st1) as (d2 & Ht2 & HR2 & Ho2).
    exists (d1 ++ d2). rewrite Ht2, Ht, <- app_assoc.
    split; [reflexivity|]. split; [|exact Ho2].
    apply Forall_app; auto.
  - exists d1. auto.
  - exists d1. auto.
Qed.

Lemma spec_weaken {A} (Q Q' : A -> Prop) (m : M A) :
  spec env R E F Q m -> (forall a, Q a -> Q' a) -> spec env R E F Q' m.
Proof.
  intros Hm HQ st. destruct (Hm st) as (d & Ht & HR & Ho).
  exists d. repeat split; auto. destruct (fst (m env st)); auto.
Qed.

Lemma spec_mapM {A B} (f : A -> M B) (l : list A) :
  (forall x, spec env R E F (fun _ => True) (f x)) ->
  spec env R E F (fun _ => True) (mapM f l).
Proof.
  intros Hf. induction l as [|x l IH]; cbn [mapM].
  - now apply spec_ret.
  - eapply spec_bind; [apply Hf|]. intros y _.
    eapply spec_bind; [apply IH|]. intros ys _. now apply spec_ret.
Qed.

End Spec.

(** ** The URL table *)

Lemma URL_DICT_GETSCHEMANAME env :
  subscript (URL_DICT env) TASKNAMES.GETSCHEMANAME
  = inr (CasJobsRESTUri env +:+ "/users/<keystone_user_id>"
         +:+ __taskname_url env TASKNAMES.GETSCHEMANAME).
Proof.
  unfold subscript, URL_DICT.
  rewrite !lookup_insert_ne by discriminate. rewrite lookup_insert_eq.
  cbn [_join_str Py.join]. now rewrite !app_assoc_s.
Qed.

Lemma URL_DICT_GETTABLES env :
  subscript (URL_DICT env) TASKNAMES.GETTABLES
  = inr (CasJobsRESTUri env +:+ "/contexts/<context>/Tables"
         +:+ __taskname_url env TASKNAMES.GETTABLES).
Proof.
  unfold subscript, URL_DICT.
  rewrite !lookup_insert_ne by discriminate. rewrite lookup_insert_eq.
  cbn [_join_str Py.join]. now rewrite !app_assoc_s.
Qed.

Lemma URL_DICT_EXECUTEQUERY env :
  subscript (URL_DICT env) TASKNAMES.EXECUTEQUERY
  = inr (CasJobsRESTUri env +:+ "/contexts/<context>/query<taskname>").
Proof.
  unfold subscript, URL_DICT.
  rewrite !lookup_insert_ne by discriminate. rewrite lookup_insert_eq.
  cbn [_join_str Py.join]. now rewrite !app_assoc_s.
Qed.

Lemma URL_DICT_SUBMITJOB env :
  subscript (URL_DICT env) TASKNAMES.SUBMITJOB
  = inr (CasJobsRESTUri env +:+ "/contexts/<context>/jobs"
         +:+ __taskname_url env TASKNAMES.SUBMITJOB).
Proof.
  unfold subscript, URL_DICT.
  rewrite !lookup_insert_ne by discriminate. rewrite lookup_insert_eq.
  cbn [_join_str Py.join]. now rewrite !app_assoc_s.
Qed.

Lemma URL_DICT_GETJOBSTATUS env :
  subscript (URL_DICT env) TASKNAMES.GETJOBSTATUS
  = inr (CasJobsRESTUri env +:+ "/jobs/<job_id>"
         +:+ __taskname_url env TASKNAMES.GETJOBSTATUS).
Proof.
  unfold subscript, URL_DICT.
  rewrite !lookup_insert_ne by discriminate. rewrite lookup_insert_eq.
  cbn [_join_str Py.join]. now rewrite !app_assoc_s.
Qed.

Lemma URL_DICT_CANCELJOB env :
  subscript (URL_DICT env) TASKNAMES.CANCELJOB
  = inr (CasJobsRESTUri env +:+ "/jobs/<job_id>"
         +:+ __taskname_url env TASKNAMES.CANCELJOB).
Proof.
  unfold subscript, URL_DICT.
  rewrite !lookup_insert_ne by discriminate. rewrite lookup_insert_eq.
  cbn [_join_str Py.join]. now rewrite !app_assoc_s.
Qed.

(** ** The token check *)

Lemma __token_no_token env st :
  no_token env -> __token env st = (Raise (ValueError EXCEPT.LOGIN_ERROR), st).
Proof. intros [H | H]; unfold __token, bind, ask; rewrite H; reflexivity. Qed.

Lemma __token_has_token env st t :
  has_token env t -> __token env st = (Return t, st).
Proof.
  intros [H Hne]. unfold __token, bind, ask. rewrite H.
  apply String.eqb_neq in Hne. now rewrite Hne.
Qed.

(** Steps of a proof of a [spec]: one rule per construct of the monad. *)
Lemma spec_ask_eq env R E F : spec env R E F (fun e => e = env) ask.
Proof. now apply spec_ask. Qed.

Lemma spec_lift_eq {A} env R E F (o : exn + A) :
  (forall e, o = inl e -> E e) -> spec env R E F (fun a => o = inr a) (lift o).
Proof. intros H. apply spec_lift. destruct o; auto. Qed.

Lemma spec_lift_any {A} env R E F (Q : A -> Prop) (o : exn + A) :
  (forall e, o = inl e -> E e) -> (forall a, Q a) -> spec env R E F Q (lift o).
Proof. intros H HQ. apply spec_lift. destruct o; auto. Qed.

Lemma spec_token_none env R (E : exn -> Prop) F (Q : string -> Prop) :
  no_token env -> E (ValueError EXCEPT.LOGIN_ERROR) -> spec env R E F Q __token.
Proof.
  intros H HE st. exists []. rewrite (__token_no_token _ _ H). cbn.
  rewrite app_nil_r. auto.
Qed.

Lemma spec_token_some env R E F t :
  has_token env t -> spec env R E F (fun x => x = t) __token.
Proof.
  intros H st. exists []. rewrite (__token_has_token _ _ _ H). cbn.
  rewrite app_nil_r. auto.
Qed.

Lemma spec_out_of_fuel {A} env R E (F : Prop) (Q : A -> Prop) :
  F -> spec env R E F Q (fun _ st => (OutOfFuel, st)).
Proof. intros H st. exists []. cbn. rewrite app_nil_r. auto. Qed.

Ltac spec_step :=
  lazymatch goal with
  | |- spec _ _ _ _ _ (bind _ _) => eapply spec_bind; [ | intros ? ? ]
  | |- spec _ _ _ _ ?P (ret _) =>
      tryif is_evar P then apply spec_ret with (Q := fun _ => True); exact I
      else apply spec_ret
  | |- spec _ _ _ _ ?P (raise _) =>
      tryif is_evar P then apply spec_raise with (Q := fun _ => True)
      else apply spec_raise
  | |- spec _ _ _ _ _ ask => apply spec_ask_eq
  | |- spec _ _ _ _ _ get_task_name => apply spec_get_task_name with (Q := fun _ => True)
  | |- spec _ _ _ _ _ (set_task_name _) => apply spec_set_task_name with (Q := fun _ => True)
  | |- spec _ _ _ _ _ (emit _) => apply spec_emit with (Q := fun _ => True)
  | |- spec _ _ _ _ _ (send _) => apply spec_send with (Q := fun _ => True)
  | |- spec _ _ _ _ _ (lift _) => first [ apply spec_lift_eq | apply spec_lift_any ]
  | |- spec _ _ _ _ _ (match ?x with _ => _ end) => destruct x eqn:?
  end.

(** *** Without a token: the login error, and no request *)

Section NoToken.
Context (env : Env) (Hno : no_token env).

Local Abbreviation refused := (spec env not_a_request is_login_error False (fun _ : value => False)).

Lemma take_task_name_quiet default_id :
  spec env not_a_request is_login_error False (fun _ : string => True)
    (take_task_name default_id).
Proof. unfold take_task_name. repeat (spec_step; auto). Qed.

Ltac refuse :=
  repeat first
    [ apply spec_token_none with (Q := fun _ => False); [exact Hno | reflexivity]
    | apply take_task_name_quiet
    | progress rewrite ?URL_DICT_GETSCHEMANAME, ?URL_DICT_GETTABLES,
        ?URL_DICT_EXECUTEQUERY, ?URL_DICT_SUBMITJOB, ?URL_DICT_GETJOBSTATUS,
        ?URL_DICT_CANCELJOB
    | contradiction
    | discriminate
    | reflexivity
    | exact I
    | progress subst
    | spec_step ].

Lemma getSchemaName_refused : refused getSchemaName.
Proof. unfold getSchemaName. refuse. Qed.

Lemma getTables_refused context : refused (getTables context).
Proof. unfold getTables. refuse. Qed.

Lemma executeQuery_refused sql context format :
  refused (executeQuery sql context format).
Proof. unfold executeQuery. refuse. Qed.

Lemma executeQueryAsync_refused sql context format :
  refused (executeQueryAsync sql context format).
Proof. unfold executeQueryAsync. refuse. Qed.

Lemma submitJob_refused sql context : refused (submitJob sql context).
Proof. unfold submitJob. refuse. Qed.

Lemma getJobStatus_refused jobId : refused (getJobStatus jobId).
Proof. unfold getJobStatus. refuse. Qed.

Lemma cancelJob_refused jobId : refused (cancelJob jobId).
Proof. unfold cancelJob. refuse. Qed.

Lemma waitForJob_refused fuel jobId verbose pollTime :
  refused (waitForJob (S fuel) jobId verbose pollTime).
Proof.
  unfold waitForJob. cbn [waitForJob_loop].
  spec_step; [destruct verbose; refuse|].
  spec_step; [destruct verbose; refuse|].
  spec_step; [apply getJobStatus_refused | cbn beta in *; contradiction].
Qed.

Lemma uploadCSVDataToTable_refused csvData tableName context :
  refused (uploadCSVDataToTable csvData tableName context).
Proof. unfold uploadCSVDataToTable. refuse. Qed.

Ltac refuse_then lem :=
  repeat (spec_step; [solve [refuse]|]);
  spec_step; [apply lem | cbn beta in *; contradiction].

Lemma writeFitsFileFromQuery_refused fileName queryString context :
  refused (writeFitsFileFromQuery fileName queryString context).
Proof. unfold writeFitsFileFromQuery. refuse_then executeQuery_refused. Qed.

Lemma getPandasDataFrameFromQuery_refused queryString context :
  refused (getPandasDataFrameFromQuery queryString context).
Proof. unfold getPandasDataFrameFromQuery. refuse_then executeQuery_refused. Qed.

Lemma getNumpyArrayFromQuery_refused queryString context :
  refused (getNumpyArrayFromQuery queryString context).
Proof.
  unfold getNumpyArrayFromQuery. refuse_then getPandasDataFrameFromQuery_refused.
Qed.

Lemma uploadPandasDataFrameToTable_refused dataFrame tableName context :
  refused (uploadPandasDataFrameToTable dataFrame tableName context).
Proof.
  unfold uploadPandasDataFrameToTable.
  repeat (spec_step; [solve [refuse]|]). apply uploadCSVDataToTable_refused.
Qed.

Lemma call_refused fuel op : refused (call (S fuel) op).
Proof.
  destruct op; cbn [call];
    auto using getSchemaName_refused, getTables_refused, executeQuery_refused,
      executeQueryAsync_refused, submitJob_refused, getJobStatus_refused,
      cancelJob_refused, waitForJob_refused, uploadCSVDataToTable_refused,
      writeFitsFileFromQuery_refused, getPandasDataFrameFromQuery_refused,
      getNumpyArrayFromQuery_refused, uploadPandasDataFrameToTable_refused.
Qed.

End NoToken.

(** *** With a token: what every request carries *)

Lemma starts_E_other (s b : string) : starts_E s -> other_error (ValueError (s +:+ b)).
Proof. intros [s' ->] [=]. Qed.

Lemma validate_other_error response on_error e :
  starts_E on_error ->
  __validate_response_status response on_error = inl e -> other_error e.
Proof.
  intros HE. rewrite validate_unfold.
  destruct (status_code response =? 200); [discriminate|].
  intros [= <-]. now apply starts_E_other.
Qed.

Lemma format_to_accept_header_other_error format e :
  __format_to_accept_header format = inl e -> other_error e.
Proof.
  unfold __format_to_accept_header.
  repeat match goal with |- context [if ?b then _ else _] => destruct b end;
    try discriminate.
  intros [= <-]. apply starts_E_other. now eexists.
Qed.

Lemma get_headers_other_error t format e :
  __get_headers t format = inl e -> other_error e.
Proof.
  unfold __get_headers. destruct format as [f|]; [|discriminate].
  unfold ebind. destruct (__format_to_accept_header (Some f)) eqn:H; [|discriminate].
  intros [= <-]. eapply format_to_accept_header_other_error, H.
Qed.

Lemma get_headers_lookup t format h :
  __get_headers t format = inr h ->
  h !! "X-Auth-Token" = Some t
  /\ h !! "Content-Type" = Some "application/json"
  /\ h !! "Accept" = accept_for format.
Proof.
  unfold __get_headers, accept_for. destruct format as [f|].
  - unfold ebind. destruct (__format_to_accept_header (Some f)); [discriminate|].
    intros [= <-]. split; [|split].
    + rewrite !lookup_insert_ne by discriminate. apply lookup_insert_eq.
    + rewrite lookup_insert_ne by discriminate. apply lookup_insert_eq.
    + apply lookup_insert_eq.
  - intros [= <-]. split; [|split].
    + rewrite !lookup_insert_ne by discriminate. apply lookup_insert_eq.
    + apply lookup_insert_eq.
    + now rewrite !lookup_insert_ne by discriminate.
Qed.

Lemma builtin_other_error {A} (o : exn + A) e :
  o = inl e -> builtin o -> other_error e.
Proof. intros -> H ->. now apply (H EXCEPT.LOGIN_ERROR). Qed.

Lemma builtin_inr {A} (a : A) : builtin (inr a).
Proof. intros msg. discriminate. Qed.

Lemma builtin_ebind {A B} (o : exn + A) (k : A -> exn + B) :
  builtin o -> (forall a, builtin (k a)) -> builtin (ebind o k).
Proof.
  intros Ho Hk msg. destruct o as [e | a]; cbn.
  - intros [= ->]. exact (Ho msg eq_refl).
  - apply Hk.
Qed.

Lemma builtin_emap {A B} (f : A -> exn + B) (l : list A) :
  (forall a, builtin (f a)) -> builtin (emap f l).
Proof.
  intros Hf. induction l as [|x l IH]; cbn [emap].
  - apply builtin_inr.
  - apply builtin_ebind; [apply Hf|]. intros y.
    apply builtin_ebind; [apply IH|]. intros ys. apply builtin_inr.
Qed.

Lemma builtin_index {A} (l : list A) i : builtin (index l i).
Proof.
  intros msg. unfold index.
  destruct (_ || _); [discriminate|]. destruct (l !! _); discriminate.
Qed.

Lemma builtin_getitem v key : builtin (getitem v key).
Proof.
  intros msg.
  destruct v, key; cbn; try discriminate; try apply builtin_index.
  destruct (assoc _ _); discriminate.
Qed.

Lemma builtin_len v : builtin (len v).
Proof. intros msg. destruct v; discriminate. Qed.

Lemma builtin_iter v : builtin (iter v).
Proof. intros msg. destruct v; discriminate. Qed.

Lemma builtin_int v : builtin (int v).
Proof.
  intros msg. destruct v; cbn; try discriminate.
  destruct (Py.int_of_str s); discriminate.
Qed.

Lemma builtin_read v : builtin (read v).
Proof. intros msg. destruct v; discriminate. Qed.

Lemma builtin_response_to_json response : builtin (__response_to_json response).
Proof. intros msg. unfold __response_to_json. destruct (json response); discriminate. Qed.

Create HintDb builtin.
#[local] Hint Resolve builtin_inr builtin_index builtin_getitem builtin_len
  builtin_iter builtin_int builtin_read builtin_response_to_json : builtin.

Ltac solve_builtin :=
  repeat first
    [ apply builtin_ebind; [ | intros ? ]
    | apply builtin_emap; intros ?
    | solve [ auto with builtin ] ].

(** ** Format dispatch *)

Ltac case_tags s :=
  destruct (String.eqb s "pandas"), (String.eqb s "json"), (String.eqb s "dict"),
    (String.eqb s "csv"), (String.eqb s "readable"), (String.eqb s "StringIO"),
    (String.eqb s "fits"), (String.eqb s "BytesIO").

Lemma format_to_accept_header_illegal format :
  recognized format = false ->
  __format_to_accept_header format = inl (illegal_format format).
Proof.
  unfold recognized, __format_to_accept_header, illegal_format.
  destruct format as [s|]; [|reflexivity].
  cbn [in_tuple existsb orb]. case_tags s; cbn; intros; first [discriminate | reflexivity].
Qed.

Lemma format_to_accept_header_legal format :
  recognized format = true ->
  exists a, __format_to_accept_header format = inr a.
Proof.
  unfold recognized, __format_to_accept_header.
  destruct format as [s|]; [|intros; discriminate].
  cbn [in_tuple existsb orb].
  case_tags s; cbn; intros; first [discriminate | eexists; reflexivity].
Qed.

Lemma parse_post_illegal response format :
  recognized format = false ->
  __parse_post response format = inl (illegal_format format).
Proof.
  unfold recognized, __parse_post, illegal_format.
  destruct format as [s|]; [|reflexivity].
  cbn [in_tuple eq_tag existsb orb]. case_tags s; cbn; intros; first [discriminate | reflexivity].
Qed.

Lemma parse_post_pandas_builtin response :
  builtin
    (r <~ __response_to_json response ;;
     results <~ getitem r (VStr "Result") ;;
     n <~ len results ;;
     if 1 <? n then
       items <~ iter results ;;
       res <~ emap (fun result =>
                      d <~ getitem result (VStr "Data") ;;
                      c <~ getitem result (VStr "Columns") ;;
                      inr (VDataFrame d c)) items ;;
       inr (VList res)
     else
       r0 <~ getitem results (VInt 0) ;;
       d <~ getitem r0 (VStr "Data") ;;
       c <~ getitem r0 (VStr "Columns") ;;
       inr (VDataFrame d c)).
Proof.
  solve_builtin. destruct (1 <? _); solve_builtin.
Qed.

Lemma parse_post_legal response format :
  recognized format = true -> builtin (__parse_post response format).
Proof.
  unfold recognized, __parse_post.
  destruct format as [s|]; [|intros; discriminate].
  cbn [in_tuple eq_tag existsb orb].
  case_tags s; cbn [orb]; intros; try discriminate;
    first [ apply builtin_inr | apply builtin_response_to_json
          | apply parse_post_pandas_builtin ].
Qed.

Lemma emap_result_sets (results : list value) :
  Forall result_set results ->
  exists res,
    emap (fun result =>
            d <~ getitem result (VStr "Data") ;;
            c <~ getitem result (VStr "Columns") ;;
            inr (VDataFrame d c)) results = inr res.
Proof.
  induction 1 as [|x l [[d Hd] [c Hc]] _ [res IH]]; cbn [emap].
  - now eexists.
  - rewrite Hd. cbn [ebind]. rewrite Hc. cbn [ebind]. rewrite IH. now eexists.
Qed.

Lemma parse_post_pandas_returns response :
  decodable response ->
  exists v,
    (r <~ __response_to_json response ;;
     results <~ getitem r (VStr "Result") ;;
     n <~ len results ;;
     if 1 <? n then
       items <~ iter results ;;
       res <~ emap (fun result =>
                      d <~ getitem result (VStr "Data") ;;
                      c <~ getitem result (VStr "Columns") ;;
                      inr (VDataFrame d c)) items ;;
       inr (VList res)
     else
       r0 <~ getitem results (VInt 0) ;;
       d <~ getitem r0 (VStr "Data") ;;
       c <~ getitem r0 (VStr "Columns") ;;
       inr (VDataFrame d c)) = inr v.
Proof.
  intros (r & results & Hj & Hres & Hne & HF).
  unfold __response_to_json. rewrite Hj. cbn [ebind]. rewrite Hres. cbn [ebind len].
  destruct (1 <? Z.of_nat (length results)) eqn:Hn.
  - cbn [iter ebind]. destruct (emap_result_sets results HF) as [res ->].
    now eexists.
  - apply Z.ltb_ge in Hn.
    destruct results as [|x [|y l]]; [contradiction | | cbn [length] in Hn; lia].
    inversion HF as [|? ? [[d Hd] [c Hc]] _]; subst.
    change (getitem (VList [x]) (VInt 0)) with (@inr exn _ x). cbn [ebind].
    rewrite Hd. cbn [ebind]. rewrite Hc. now eexists.
Qed.

Lemma parse_post_returns response format :
  recognized format = true -> decodable response ->
  exists v, __parse_post response format = inr v.
Proof.
  intros Hr Hd. pose proof (parse_post_legal response format Hr) as Hb.
  revert Hb. unfold __parse_post.
  destruct (in_tuple format ["readable"; "StringIO"]); [now eexists|].
  destruct (eq_tag format "pandas"); [intros _; now apply parse_post_pandas_returns|].
  destruct (in_tuple format ["csv"; "json"]); [now eexists|].
  destruct (eq_tag format "dict").
  { intros _. destruct Hd as (r & results & Hj & _).
    unfold __response_to_json. rewrite Hj. now eexists. }
  destruct (in_tuple format ["fits"; "BytesIO"]); [now eexists|].
  intros Hb. exfalso. exact (Hb _ eq_refl).
Qed.

(** C3.  A format tag outside the recognized set makes both the choice of
    the accept header and the decoding of the response body raise the
    illegal-format error, whose message ends with the tag as [str] prints it;
    for a tag inside the set the choice of the accept header returns a
    header, and the decoding raises no [ValueError] whatever the response,
    and returns when the body is the JSON the service sends for a query. *)
Theorem illegal_format_exactly_outside_recognized
    (format : option string) (response : Response) :
  (recognized format = false ->
     __format_to_accept_header format
     = inl (ValueError (EXCEPT.ILLEGAL_FORMAT_ERROR +:+ str_of_tag format))
     /\ __parse_post response format
        = inl (ValueError (EXCEPT.ILLEGAL_FORMAT_ERROR +:+ str_of_tag format)))
  /\ (recognized format = true ->
        (exists a, __format_to_accept_header format = inr a)
        /\ (forall msg, __parse_post response format <> inl (ValueError msg))
        /\ (decodable response -> exists v, __parse_post response format = inr v)).
Proof.
  split; intros H.
  - split; [now apply format_to_accept_header_illegal | now apply parse_post_illegal].
  - split; [now apply format_to_accept_header_legal|].
    split; [now apply parse_post_legal | now apply parse_post_returns].
Qed.

Lemma one_row_decodable : decodable one_row_response.
Proof.
  exists one_row, [VDict [("Columns", VList [VStr "c"]); ("Data", VList [VList [VInt 1]])]].
  split; [reflexivity|]. split; [reflexivity|]. split; [discriminate|].
  constructor; [|constructor]. split; eexists; reflexivity.
Qed.

Lemma illegal_format_exactly_outside_recognized_witness :
  (__format_to_accept_header (Some "xml")
   = inl (ValueError (EXCEPT.ILLEGAL_FORMAT_ERROR +:+ "xml"))
   /\ __parse_post one_row_response (Some "xml")
      = inl (ValueError (EXCEPT.ILLEGAL_FORMAT_ERROR +:+ "xml")))
  /\ ((exists a, __format_to_accept_header (Some "pandas") = inr a)
      /\ (forall msg, __parse_post one_row_response (Some "pandas") <> inl (ValueError msg))
      /\ exists v, __parse_post one_row_response (Some "pandas") = inr v).
Proof.
  split.
  - apply (proj1 (illegal_format_exactly_outside_recognized (Some "xml")
                    one_row_response)).
    reflexivity.
  - destruct (proj2 (illegal_format_exactly_outside_recognized (Some "pandas")
                       one_row_response) eq_refl) as (Ha & Hb & Hv).
    split; [exact Ha|]. split; [exact Hb|]. exact (Hv one_row_decodable).
Defined.

Lemma starts_E_const : starts_E EXCEPT.SCHEMA_ERROR /\ starts_E EXCEPT.EXECUTE_QUERY_ERROR
  /\ starts_E EXCEPT.SUMBIT_JOB_ERROR.
Proof. repeat split; now eexists. Qed.

Lemma starts_E_replace (old new : string) (s : string) :
  old <> "" -> String.prefix old (String "E" s) = false ->
  starts_E (Py.replace old new (String "E" s)).
Proof.
  intros Hne Hp. destruct old as [|c old]; [congruence|].
  unfold Py.replace. cbn [Py.replace_go]. rewrite Hp. now eexists.
Qed.

Lemma parse_post_other_error response format e :
  __parse_post response format = inl e -> other_error e.
Proof.
  intros H. destruct (recognized format) eqn:Hr.
  - exact (builtin_other_error _ _ H (parse_post_legal response format Hr)).
  - rewrite (parse_post_illegal response format Hr) in H. injection H as <-.
    apply starts_E_other. eexists; reflexivity.
Qed.

Section Token.
Context (env : Env) (t : string) (Ht : has_token env t).

Local Abbreviation granted m ct acc :=
  (spec env (carries t m ct acc) other_error True (fun _ : value => True)).

Lemma take_task_name_granted m ct acc default_id :
  spec env (carries t m ct acc) other_error True (fun _ : string => True)
    (take_task_name default_id).
Proof. unfold take_task_name. repeat (spec_step; auto). Qed.

Ltac grant1 :=
  first
    [ apply spec_token_some; exact Ht
    | apply take_task_name_granted
    | progress rewrite ?URL_DICT_GETSCHEMANAME, ?URL_DICT_GETTABLES,
        ?URL_DICT_EXECUTEQUERY, ?URL_DICT_SUBMITJOB, ?URL_DICT_GETJOBSTATUS,
        ?URL_DICT_CANCELJOB
    | discriminate
    | exact I
    | progress subst
    | progress cbn beta in *
    | spec_step
    | lazymatch goal with
      | |- spec _ _ _ _ _ _ => fail
      | |- _ => progress intros
      end
    | match goal with
      | H : __get_headers _ _ = inl _ |- other_error _ =>
          exact (get_headers_other_error _ _ _ H)
      | H : __validate_response_status _ _ = inl _ |- other_error _ =>
          refine (validate_other_error _ _ _ _ H);
          first [ assumption
                | apply starts_E_replace; [discriminate | reflexivity]
                | eexists; reflexivity ]
      | H : __parse_post _ _ = inl _ |- other_error _ =>
          exact (parse_post_other_error _ _ _ H)
      | H : ?o = inl ?e |- other_error ?e =>
          refine (builtin_other_error _ _ H _); solve [solve_builtin]
      | |- other_error OSError => discriminate
      | |- other_error KeystoneError => discriminate
      | H : __get_headers _ _ = inr ?h |- carries _ _ _ _ (EvRequest _) =>
          let r := fresh "r" in
          intros r [= <-]; cbn [method headers];
          destruct (get_headers_lookup _ _ _ H) as (? & ? & ?); auto
      | |- carries _ _ _ _ (EvPrint _) => intros ? [=]
      | |- carries _ _ _ _ (EvSleep _) => intros ? [=]
      | |- carries _ _ _ _ (EvWrite _ _) => intros ? [=]
      end ].

Ltac grant := repeat grant1.

Lemma __response_get_granted url on_error :
  starts_E on_error ->
  granted GET (Some "application/json") None (__response_get url t on_error).
Proof.
  intros HE. unfold __response_get. grant.
Qed.

Ltac starts :=
  first [ assumption
        | apply starts_E_replace; [discriminate | reflexivity]
        | eexists; reflexivity ].

Lemma getSchemaName_granted :
  granted GET (Some "application/json") None getSchemaName.
Proof.
  unfold getSchemaName. grant.
  all: try (apply __response_get_granted; starts). all: grant.
Qed.

Lemma getTables_granted context :
  granted GET (Some "application/json") None (getTables context).
Proof.
  unfold getTables. grant. apply __response_get_granted; starts.
Qed.

Lemma getJobStatus_granted jobId :
  granted GET (Some "application/json") None (getJobStatus jobId).
Proof.
  unfold getJobStatus. grant. apply __response_get_granted; starts.
Qed.

Lemma cancelJob_granted jobId :
  granted DELETE (Some "application/json") None (cancelJob jobId).
Proof. unfold cancelJob. grant. Qed.

Lemma submitJob_granted sql context :
  granted PUT (Some "application/json") (Some "text/plain") (submitJob sql context).
Proof. unfold submitJob. grant. Qed.

Lemma executeQuery_granted sql context format :
  granted POST (Some "application/json") (accept_for format)
    (executeQuery sql context format).
Proof. unfold executeQuery. grant. Qed.

Lemma make_post_request_granted _session url data task_name :
  session_headers _session !! "X-Auth-Token" = Some t ->
  session_headers _session !! "Content-Type" = Some "application/json" ->
  session_headers _session !! "Accept" = Some "application/json+array" ->
  granted POST (Some "application/json") (Some "application/json+array")
    (__make_post_request _session url data task_name).
Proof.
  intros H1 H2 H3. unfold __make_post_request. grant.
  - intros r [= <-]. cbn [method headers]. auto.
  - refine (validate_other_error _ EXCEPT.EXECUTE_QUERY_ERROR _ _ _);
      [eexists; reflexivity | eassumption].
Qed.

Lemma executeQueryAsync_granted sql context format :
  granted POST (Some "application/json") (Some "application/json+array")
    (executeQueryAsync sql context format).
Proof.
  unfold executeQueryAsync, __async_post_request. grant.
  all: try match goal with
    | H : __get_headers _ _ = inr ?h |- spec _ _ _ _ _ (mapM _ _) =>
        destruct (get_headers_lookup _ _ _ H) as (? & ? & ?);
        apply spec_mapM; intros; apply spec_weaken with (Q := fun _ => True);
        [apply make_post_request_granted; assumption | auto]
    end.
  all: grant.
Qed.

Lemma waitForJob_loop_granted fuel jobId verbose pollTime :
  granted GET (Some "application/json") None
    (waitForJob_loop fuel jobId verbose pollTime).
Proof.
  induction fuel as [|fuel IH]; cbn [waitForJob_loop].
  - now apply spec_out_of_fuel.
  - grant. all: try apply getJobStatus_granted. all: grant. all: try apply IH.
Qed.

Lemma waitForJob_granted fuel jobId verbose pollTime :
  granted GET (Some "application/json") None
    (waitForJob fuel jobId verbose pollTime).
Proof.
  unfold waitForJob. grant. apply waitForJob_loop_granted.
Qed.

Lemma writeFitsFileFromQuery_granted fileName queryString context :
  granted POST (Some "application/json") (Some "application/fits")
    (writeFitsFileFromQuery fileName queryString context).
Proof.
  unfold writeFitsFileFromQuery. grant.
  all: try apply (executeQuery_granted _ _ (Some "fits")). all: grant.
Qed.

Lemma getPandasDataFrameFromQuery_granted queryString context :
  granted POST (Some "application/json") (Some "text/plain")
    (getPandasDataFrameFromQuery queryString context).
Proof.
  unfold getPandasDataFrameFromQuery. grant.
  all: try apply (executeQuery_granted _ _ (Some "readable")). all: grant.
Qed.

Lemma getNumpyArrayFromQuery_granted queryString context :
  granted POST (Some "application/json") (Some "text/plain")
    (getNumpyArrayFromQuery queryString context).
Proof.
  unfold getNumpyArrayFromQuery. grant.
  all: try apply getPandasDataFrameFromQuery_granted. all: grant.
Qed.

Lemma uploadCSVDataToTable_granted csvData tableName context :
  granted POST None None (uploadCSVDataToTable csvData tableName context).
Proof.
  unfold uploadCSVDataToTable. grant.
  intros r [= <-]. cbn [method headers]. split; [reflexivity|].
  split; [apply lookup_insert_eq|].
  now rewrite !lookup_insert_ne by discriminate.
Qed.

Lemma uploadPandasDataFrameToTable_granted dataFrame tableName context :
  granted POST None None (uploadPandasDataFrameToTable dataFrame tableName context).
Proof.
  unfold uploadPandasDataFrameToTable. grant. apply uploadCSVDataToTable_granted.
Qed.

Lemma call_granted fuel op :
  granted (method_of op) (content_type_of op) (accept_of op) (call fuel op).
Proof.
  destruct op; cbn [call method_of content_type_of is_upload accept_of].
  - apply getSchemaName_granted.
  - apply getTables_granted.
  - apply executeQuery_granted.
  - apply executeQueryAsync_granted.
  - apply submitJob_granted.
  - apply getJobStatus_granted.
  - apply cancelJob_granted.
  - apply waitForJob_granted.
  - apply writeFitsFileFromQuery_granted.
  - apply getPandasDataFrameFromQuery_granted.
  - apply getNumpyArrayFromQuery_granted.
  - apply uploadPandasDataFrameToTable_granted.
  - apply uploadCSVDataToTable_granted.
Qed.

End Token.

(** ** Polling a job *)

Lemma getJobStatus_run env st t jobId :
  has_token env t ->
  getJobStatus jobId env st
  = let response := server env (sent st) (poll_request env t jobId) in
    (match __validate_response_status response
             (Py.replace DCONST.JOB_ID (str_of_job jobId) EXCEPT.GET_JOB_STATUS_ERROR) with
     | inl e => Raise e
     | inr _ =>
         match __response_to_json response with
         | inl e => Raise e
         | inr v => Return v
         end
     end, log st [EvRequest (poll_request env t jobId)]).
Proof.
  intros Ht. unfold getJobStatus.
  cbv beta delta [bind ask] iota. rewrite URL_DICT_GETJOBSTATUS.
  cbv beta delta [lift ret] iota. rewrite (__token_has_token _ _ _ Ht).
  cbv beta delta [__response_get bind __get_headers lift ret send] iota zeta.
  fold (json_headers t). fold (poll_request env t jobId). fold (sent st).
  destruct (__validate_response_status _ _); [reflexivity|].
  destruct (__response_to_json _); reflexivity.
Qed.

Lemma requests_app (a b : list Event) : requests (a ++ b) = requests a ++ requests b.
Proof. apply omap_app. Qed.

Lemma sent_log st evs : sent (log st evs) = (sent st + length (requests evs))%nat.
Proof. unfold sent, log. cbn [trace]. now rewrite requests_app, length_app. Qed.

Lemma log_nil st : log st [] = st.
Proof. unfold log. rewrite app_nil_r. now destruct st. Qed.

Lemma log_log st a b : log (log st a) b = log st (a ++ b).
Proof. unfold log. cbn [task_name trace]. now rewrite app_assoc. Qed.

Lemma waiting_run (verbose : bool) env st :
  (if verbose then emit (EvPrint waitingStr) else ret tt) env st
  = (Return tt, log st (waiting_events verbose)).
Proof. destruct verbose; cbn; [reflexivity | now rewrite log_nil]. Qed.

Lemma sent_waiting st (verbose : bool) : sent (log st (waiting_events verbose)) = sent st.
Proof. rewrite sent_log. destruct verbose; cbn; lia. Qed.

Section Polling.
Context (env : Env) (t : string) (Ht : has_token env t).
Context (jobId : JobId) (verbose : bool) (pollTime : Z).

Local Abbreviation pr := (poll_request env t jobId).

Lemma poll_getJobStatus st jobDesc jobStatus :
  poll env t jobId (sent st) = Some (jobDesc, jobStatus) ->
  getJobStatus jobId env st = (Return jobDesc, log st [EvRequest pr])
  /\ (status <~ getitem jobDesc (VStr "Status") ;; int status) = inr jobStatus.
Proof.
  unfold poll. rewrite (getJobStatus_run _ _ _ _ Ht). cbv zeta.
  rewrite validate_unfold. unfold __response_to_json.
  destruct (status_code _ =? 200); [|discriminate].
  destruct (json _) as [d|]; [|discriminate].
  destruct (ebind _ _) as [e|n] eqn:Hs; [discriminate|].
  intros [= <- <-]. now split.
Qed.

Lemma loop_round fuel st jobDesc jobStatus :
  poll env t jobId (sent st) = Some (jobDesc, jobStatus) ->
  is_terminal jobStatus = false ->
  waitForJob_loop (S fuel) jobId verbose pollTime env st
  = waitForJob_loop fuel jobId verbose pollTime env
      (log st (round_events verbose pollTime pr)).
Proof.
  intros Hp Hs. cbn [waitForJob_loop].
  rewrite (bind_Return _ _ _ _ _ _ (waiting_run verbose env st)).
  rewrite <- (sent_waiting st verbose) in Hp.
  destruct (poll_getJobStatus _ _ _ Hp) as [Hg Hi].
  rewrite (bind_Return _ _ _ _ _ _ Hg).
  unfold ebind in Hi. destruct (getitem jobDesc (VStr "Status")) as [|status]; [discriminate|].
  cbv beta delta [bind lift ret emit] iota. rewrite Hi, Hs.
  cbn [task_name trace log]. unfold round_events, log. cbn [task_name trace].
  now rewrite <- !app_assoc.
Qed.

Lemma loop_final fuel st jobDesc jobStatus :
  poll env t jobId (sent st) = Some (jobDesc, jobStatus) ->
  is_terminal jobStatus = true ->
  waitForJob_loop (S fuel) jobId verbose pollTime env st
  = (Return jobDesc, log st (final_events verbose pr)).
Proof.
  intros Hp Hs. cbn [waitForJob_loop].
  rewrite (bind_Return _ _ _ _ _ _ (waiting_run verbose env st)).
  rewrite <- (sent_waiting st verbose) in Hp.
  destruct (poll_getJobStatus _ _ _ Hp) as [Hg Hi].
  rewrite (bind_Return _ _ _ _ _ _ Hg).
  unfold ebind in Hi. destruct (getitem jobDesc (VStr "Status")) as [|status]; [discriminate|].
  cbv beta delta [bind lift ret] iota. rewrite Hi, Hs.
  unfold final_events, log.
  destruct verbose; cbn; now rewrite <- ?app_assoc, ?app_nil_r.
Qed.

Local Abbreviation rounds_of n := (rounds verbose pollTime pr n).

Lemma requests_round :
  requests (round_events verbose pollTime pr) = [pr].
Proof. unfold round_events. now destruct verbose. Qed.

Lemma requests_final : requests (final_events verbose pr) = [pr].
Proof. unfold final_events. now destruct verbose. Qed.

Lemma requests_rounds n : requests (rounds_of n) = replicate n pr.
Proof.
  unfold rounds. induction n as [|n IH]; [reflexivity|].
  cbn [replicate concat]. rewrite requests_app, requests_round, IH. reflexivity.
Qed.

Lemma sent_rounds st n : sent (log st (rounds_of n)) = (sent st + n)%nat.
Proof. now rewrite sent_log, requests_rounds, length_replicate. Qed.

(** While the polls see a status that is not terminal, the loop goes on. *)
Lemma loop_rounds n : forall st fuel,
  (forall i, (i < n)%nat -> exists jobDesc jobStatus,
      poll env t jobId (sent st + i) = Some (jobDesc, jobStatus)
      /\ is_terminal jobStatus = false) ->
  waitForJob_loop (n + fuel) jobId verbose pollTime env st
  = waitForJob_loop fuel jobId verbose pollTime env (log st (rounds_of n)).
Proof.
  induction n as [|n IH]; intros st fuel Hp.
  - cbn. unfold rounds. cbn. now rewrite log_nil.
  - destruct (Hp 0%nat ltac:(lia)) as (d & s & Hd & Hs).
    rewrite Nat.add_0_r in Hd.
    change (S n + fuel)%nat with (S (n + fuel)).
    rewrite (loop_round _ _ _ _ Hd Hs), IH.
    + rewrite log_log. unfold rounds. reflexivity.
    + intros i Hi. rewrite sent_log, requests_round. cbn [length].
      destruct (Hp (S i) ltac:(lia)) as (d' & s' & Hd' & Hs').
      exists d', s'. split; [|exact Hs'].
      now replace (sent st + 1 + i)%nat with (sent st + S i)%nat by lia.
Qed.

End Polling.

Lemma is_terminal_true jobStatus : terminal jobStatus -> is_terminal jobStatus = true.
Proof. unfold terminal, is_terminal. intros [-> | [-> | ->]]; reflexivity. Qed.

Lemma is_terminal_false jobStatus : ~ terminal jobStatus -> is_terminal jobStatus = false.
Proof.
  unfold terminal, is_terminal. intros H.
  destruct (Z.eqb_spec jobStatus 3), (Z.eqb_spec jobStatus 4),
    (Z.eqb_spec jobStatus 5); cbn; tauto.
Qed.

(** Ready, Started and Canceling are not terminal. *)
Lemma running_not_terminal jobStatus :
  jobStatus = 0 \/ jobStatus = 1 \/ jobStatus = 2 -> ~ terminal jobStatus.
Proof. unfold terminal. lia. Qed.

(** C1.  With a token, let the next [n] polls each answer with a status
    record whose [Status] is not 3, 4 or 5 (as 0, 1 and 2 are).  Then
    [waitForJob] has not returned after [n] rounds or fewer and has polled
    once in every round; and if the poll after these answers with a record
    whose [Status] is 3, 4 or 5, [waitForJob] returns that record, having
    polled [n + 1] times and no more. *)
Theorem waitForJob_returns_at_first_terminal_status
    (env : Env) (st : State) (t : string) (jobId : JobId) (verbose : bool)
    (pollTime : Z) (n : nat) :
  getToken env = Some t -> t <> "" ->
  (forall i, (i < n)%nat -> exists jobDesc jobStatus,
      poll env t jobId (sent st + i) = Some (jobDesc, jobStatus)
      /\ ~ terminal jobStatus) ->
  (forall fuel, (fuel <= n)%nat ->
     fst (waitForJob fuel jobId verbose pollTime env st) = OutOfFuel
     /\ requests (trace (snd (waitForJob fuel jobId verbose pollTime env st)))
        = requests (trace st) ++ replicate fuel (poll_request env t jobId))
  /\ (forall jobDesc jobStatus,
        poll env t jobId (sent st + n) = Some (jobDesc, jobStatus) ->
        terminal jobStatus ->
        forall fuel, (n < fuel)%nat ->
          fst (waitForJob fuel jobId verbose pollTime env st) = Return jobDesc
          /\ requests (trace (snd (waitForJob fuel jobId verbose pollTime env st)))
             = requests (trace st) ++ replicate (S n) (poll_request env t jobId)).
Proof.
  intros Hg Hne Hwait. assert (Ht : has_token env t) by now split.
  assert (Hrun : forall fuel,
             waitForJob fuel jobId verbose pollTime env st
             = waitForJob_loop fuel jobId verbose pollTime env
                 (log st (waiting_events verbose))).
  { intros fuel. unfold waitForJob.
    now rewrite (bind_Return _ _ _ _ _ _ (waiting_run verbose env st)). }
  assert (Hrequests : requests (waiting_events verbose) = []) by now destruct verbose.
  split.
  - intros fuel Hle. rewrite Hrun.
    replace fuel with (fuel + 0)%nat at 1 2 by lia.
    rewrite (loop_rounds env t Ht jobId verbose pollTime fuel).
    + cbn [waitForJob_loop fst snd]. split; [reflexivity|].
      unfold log. cbn [trace].
      now rewrite !requests_app, Hrequests, requests_rounds, app_nil_r.
    + intros i Hi. rewrite sent_waiting.
      destruct (Hwait i ltac:(lia)) as (d & s & Hd & Hs).
      exists d, s. split; [exact Hd | now apply is_terminal_false].
  - intros jobDesc jobStatus Hp Hterm fuel Hlt. rewrite Hrun.
    replace fuel with (n + S (fuel - n - 1))%nat at 1 2 by lia.
    rewrite (loop_rounds env t Ht jobId verbose pollTime n).
    + rewrite (loop_final env t Ht jobId verbose pollTime _ _ jobDesc jobStatus).
      * cbn [fst snd]. split; [reflexivity|].
        unfold log. cbn [trace].
        rewrite !requests_app, Hrequests, requests_rounds, requests_final, app_nil_r.
        now rewrite replicate_S_end, app_assoc.
      * now rewrite sent_rounds, sent_waiting.
      * now apply is_terminal_true.
    + intros i Hi. rewrite sent_waiting.
      destruct (Hwait i ltac:(lia)) as (d & s & Hd & Hs).
      exists d, s. split; [exact Hd | now apply is_terminal_false].
Qed.

Lemma waitForJob_returns_at_first_terminal_status_witness :
  fst (waitForJob 5 (JobInt 42) false 1 finishing_env initial_state)
  = Return (status_record 5)
  /\ requests (trace (snd (waitForJob 5 (JobInt 42) false 1 finishing_env initial_state)))
     = replicate 3 (poll_request finishing_env "secret" (JobInt 42)).
Proof.
  refine (proj2 (waitForJob_returns_at_first_terminal_status finishing_env
                   initial_state "secret" (JobInt 42) false 1 2 _ _ _)
            (status_record 5) 5 _ _ 5%nat _).
  - reflexivity.
  - discriminate.
  - intros i Hi. exists (status_record 1), 1. split.
    + destruct i as [|[|i]]; [reflexivity | reflexivity | lia].
    + unfold terminal. lia.
  - reflexivity.
  - unfold terminal. lia.
  - lia.
Defined.

Lemma steps_app (a b : list Event) : steps (a ++ b) = steps a ++ steps b.
Proof. apply omap_app. Qed.

Lemma steps_waiting verbose : steps (waiting_events verbose) = [].
Proof. now destruct verbose. Qed.

Lemma is_terminal_terminal jobStatus : is_terminal jobStatus = true -> terminal jobStatus.
Proof.
  unfold is_terminal, terminal.
  destruct (Z.eqb_spec jobStatus 3), (Z.eqb_spec jobStatus 4),
    (Z.eqb_spec jobStatus 5); cbn; intros; try discriminate; auto.
Qed.

Lemma wait_shape_later seconds o ss :
  wait_shape seconds o ss -> wait_shape seconds o (Poll :: Sleep seconds :: ss).
Proof.
  intros [n H]. exists (S n). unfold waits in *. cbn [replicate concat].
  destruct o as [d | e | ].
  - destruct H as [-> H]. split; [reflexivity | exact H].
  - destruct H as [-> | ->]; [left | right]; reflexivity.
  - now rewrite H.
Qed.

(** [getJobStatus] raises at once, or sends one request and then returns or
    raises. *)
Lemma getJobStatus_events env st jobId :
  (exists e, getJobStatus jobId env st = (Raise e, st))
  \/ (exists r o, getJobStatus jobId env st = (o, log st [EvRequest r])
                  /\ o <> OutOfFuel).
Proof.
  destruct (getToken env) as [t|] eqn:Hg.
  - destruct (String.eqb_spec t "") as [-> | Hne].
    + left. eexists. unfold getJobStatus. cbv beta delta [bind ask] iota.
      rewrite URL_DICT_GETJOBSTATUS. cbv beta delta [lift ret] iota.
      rewrite __token_no_token by now right. reflexivity.
    + right. rewrite (getJobStatus_run env st t jobId) by now split.
      cbv zeta. eexists _, _. split; [reflexivity|].
      destruct (__validate_response_status _ _); [discriminate|].
      destruct (__response_to_json _); discriminate.
  - left. eexists. unfold getJobStatus. cbv beta delta [bind ask] iota.
    rewrite URL_DICT_GETJOBSTATUS. cbv beta delta [lift ret] iota.
    rewrite __token_no_token by now left. reflexivity.
Qed.

Lemma waitForJob_loop_shape env jobId verbose pollTime fuel : forall st,
  exists delta,
    trace (snd (waitForJob_loop fuel jobId verbose pollTime env st)) = trace st ++ delta
    /\ wait_shape (Z.max pollTime 5)
         (fst (waitForJob_loop fuel jobId verbose pollTime env st)) (steps delta).
Proof.
  induction fuel as [|fuel IH]; intros st.
  - exists []. cbn. rewrite app_nil_r. split; [reflexivity|]. now exists 0%nat.
  - cbn [waitForJob_loop].
    rewrite (bind_Return _ _ _ _ _ _ (waiting_run verbose env st)).
    destruct (getJobStatus_events env (log st (waiting_events verbose)) jobId)
      as [[e Hg] | (r & o & Hg & Ho)].
    { rewrite (bind_Raise _ _ _ _ _ _ Hg). exists (waiting_events verbose).
      split; [reflexivity|]. exists 0%nat. right. apply steps_waiting. }
    destruct o as [jobDesc | e | ]; [ | | congruence].
    2:{ rewrite (bind_Raise _ _ _ _ _ _ Hg).
        exists (waiting_events verbose ++ [EvRequest r]).
        split; [now rewrite log_log|]. exists 0%nat. left.
        now rewrite steps_app, steps_waiting. }
    rewrite (bind_Return _ _ _ _ _ _ Hg). rewrite log_log.
    cbv beta delta [bind lift] iota.
    destruct (getitem jobDesc (VStr "Status")) as [e | status] eqn:Hst.
    { exists (waiting_events verbose ++ [EvRequest r]). split; [reflexivity|].
      exists 0%nat. left. now rewrite steps_app, steps_waiting. }
    cbv beta delta [ret] iota.
    destruct (int status) as [e | jobStatus] eqn:Hint.
    { exists (waiting_events verbose ++ [EvRequest r]). split; [reflexivity|].
      exists 0%nat. left. now rewrite steps_app, steps_waiting. }
    cbv beta delta [raise] iota.
    destruct (is_terminal jobStatus) eqn:Hterm.
    + exists ((waiting_events verbose ++ [EvRequest r])
              ++ (if verbose then [EvPrint ("Done!" +:+ NL)] else [])).
      split.
      * destruct verbose; cbn; now rewrite ?app_nil_r, <- ?app_assoc.
      * exists 0%nat. destruct verbose; cbn [fst emit ret].
        -- split; [reflexivity|]. exists jobStatus. unfold status_of, ebind.
           rewrite Hst. split; [exact Hint | now apply is_terminal_terminal].
        -- split; [reflexivity|]. exists jobStatus. unfold status_of, ebind.
           rewrite Hst. split; [exact Hint | now apply is_terminal_terminal].
    + cbv beta delta [emit] iota. cbn [task_name trace log].
      destruct (IH (mkState (task_name st)
                      ((trace st ++ waiting_events verbose ++ [EvRequest r])
                       ++ [EvSleep (Z.max minPollTime pollTime)])))
        as (delta & Htr & Hsh).
      exists ((waiting_events verbose ++ [EvRequest r])
              ++ [EvSleep (Z.max minPollTime pollTime)] ++ delta).
      split.
      * rewrite Htr. cbn [trace]. now rewrite <- !app_assoc.
      * assert (Hm : Z.max minPollTime pollTime = Z.max pollTime 5)
          by (unfold minPollTime; lia).
        rewrite Hm in *. rewrite !steps_app, steps_waiting.
        change (wait_shape (Z.max pollTime 5)
                  (fst (waitForJob_loop fuel jobId verbose pollTime env
                          (mkState (task_name st)
                             ((trace st ++ waiting_events verbose ++ [EvRequest r])
                              ++ [EvSleep (Z.max pollTime 5)]))))
                  (Poll :: Sleep (Z.max pollTime 5) :: steps delta)).
        now apply wait_shape_later.
Qed.

(** C2.  Whatever the poll time, the token, the service and the number of
    rounds allowed, the polls and sleeps of [waitForJob] alternate: every
    sleep comes right after a poll, is followed by the next poll unless the
    rounds are over, and lasts [max(pollTime, 5)] seconds, which is 5 when
    [pollTime] is below 5; and when [waitForJob] returns, with a record
    whose status is terminal, its last step is the poll that gave this
    record, with no sleep after it. *)
Theorem waitForJob_sleeps_between_polls
    (env : Env) (st : State) (jobId : JobId) (verbose : bool) (pollTime : Z)
    (fuel : nat) :
  exists delta,
    trace (snd (waitForJob fuel jobId verbose pollTime env st)) = trace st ++ delta
    /\ wait_shape (Z.max pollTime 5)
         (fst (waitForJob fuel jobId verbose pollTime env st)) (steps delta)
    /\ Z.max pollTime 5 = (if pollTime <? 5 then 5 else pollTime).
Proof.
  unfold waitForJob.
  rewrite (bind_Return _ _ _ _ _ _ (waiting_run verbose env st)).
  destruct (waitForJob_loop_shape env jobId verbose pollTime fuel
              (log st (waiting_events verbose))) as (delta & Htr & Hsh).
  exists (waiting_events verbose ++ delta). split; [|split].
  - rewrite Htr. unfold log. cbn [trace]. now rewrite app_assoc.
  - now rewrite steps_app, steps_waiting.
  - destruct (Z.ltb_spec pollTime 5); lia.
Qed.

Example waitForJob_sleeps_clamped :
  sleeps (trace (snd (waitForJob 5 (JobInt 42) true 1 finishing_env initial_state)))
  = [5; 5]
  /\ steps (trace (snd (waitForJob 5 (JobInt 42) true 1 finishing_env initial_state)))
     = [Poll; Sleep 5; Poll; Sleep 5; Poll].
Proof. split; reflexivity. Qed.

(** ** The token and the headers of every request *)

Lemma requests_none (delta : list Event) :
  Forall not_a_request delta -> requests delta = [].
Proof.
  induction 1 as [|e delta He _ IH]; [reflexivity|].
  unfold requests in *. cbn. unfold not_a_request in He. now rewrite He.
Qed.

Lemma requests_carry t m ct acc (delta : list Event) (r : Request) :
  Forall (carries t m ct acc) delta -> r ∈ requests delta ->
  method r = m
  /\ headers r !! "X-Auth-Token" = Some t
  /\ headers r !! "Content-Type" = ct
  /\ headers r !! "Accept" = acc.
Proof.
  intros HF Hin. apply list_elem_of_omap in Hin as (e & He & Hr).
  rewrite Forall_forall in HF. apply (HF e He).
  destruct e; cbn in Hr; congruence.
Qed.

(** C5.  Every public operation asks for the token before it sends anything:
    when the token provider gives [None] or the empty string the operation
    raises the login error and no request has been sent; when it gives a
    non-empty string the operation does not raise the login error and every
    request it sends carries the token in its [X-Auth-Token] header.  (The
    polling operation is given one round at least.) *)
Theorem token_checked_before_any_request
    (op : Op) (fuel : nat) (env : Env) (st : State) :
  (getToken env = None \/ getToken env = Some "" ->
     fst (call (S fuel) op env st) = Raise (ValueError EXCEPT.LOGIN_ERROR)
     /\ requests (trace (snd (call (S fuel) op env st))) = requests (trace st))
  /\ (forall t, getToken env = Some t -> t <> "" ->
        fst (call fuel op env st) <> Raise (ValueError EXCEPT.LOGIN_ERROR)
        /\ exists delta,
             trace (snd (call fuel op env st)) = trace st ++ delta
             /\ forall r, r ∈ requests delta ->
                  headers r !! "X-Auth-Token" = Some t).
Proof.
  split.
  - intros Hno.
    destruct (call_refused env Hno fuel op st) as (delta & Htr & HF & Ho).
    destruct (fst (call (S fuel) op env st)) as [a | e | ]; try contradiction.
    split; [now rewrite Ho|].
    now rewrite Htr, requests_app, (requests_none _ HF), app_nil_r.
  - intros t Hg Hne.
    destruct (call_granted env t (conj Hg Hne) fuel op st) as (delta & Htr & HF & Ho).
    split.
    + destruct (fst (call fuel op env st)) as [a | e | ]; try discriminate.
      intros [= ->]. now apply Ho.
    + exists delta. split; [exact Htr|]. intros r Hr.
      now destruct (requests_carry _ _ _ _ _ _ HF Hr) as (_ & H & _).
Qed.

Lemma token_checked_before_any_request_witness :
  (fst (call 1 (GetTables "MyDB") anonymous_env initial_state)
   = Raise (ValueError EXCEPT.LOGIN_ERROR)
   /\ requests (trace (snd (call 1 (GetTables "MyDB") anonymous_env initial_state)))
      = requests (trace initial_state))
  /\ (fst (call 1 (GetTables "MyDB") logged_in_env initial_state)
      <> Raise (ValueError EXCEPT.LOGIN_ERROR)
      /\ exists delta,
           trace (snd (call 1 (GetTables "MyDB") logged_in_env initial_state))
           = trace initial_state ++ delta
           /\ forall r, r ∈ requests delta ->
                headers r !! "X-Auth-Token" = Some "secret").
Proof.
  split.
  - apply (proj1 (token_checked_before_any_request (GetTables "MyDB") 0
                    anonymous_env initial_state)).
    left. reflexivity.
  - apply (proj2 (token_checked_before_any_request (GetTables "MyDB") 1
                    logged_in_env initial_state) "secret").
    + reflexivity.
    + discriminate.
Defined.

(** C9, as the code has it.  With a token, every request of every public
    operation carries it in the [X-Auth-Token] header.  The requests of the
    two upload operations, which are POSTs, carry no other header: no
    [Content-Type] and no [Accept].  All other requests, the GETs and the
    DELETE included, carry [Content-Type: application/json]; of these the
    POSTs of [executeQuery] (unless its format is [None]), of the operations
    built on it and of [executeQueryAsync], and the PUT of [submitJob],
    carry the [Accept] header the format table gives for their format, and
    the GETs and the DELETE carry no [Accept]. *)
Theorem request_headers_by_operation
    (op : Op) (fuel : nat) (env : Env) (st : State) (t : string) :
  getToken env = Some t -> t <> "" ->
  exists delta,
    trace (snd (call fuel op env st)) = trace st ++ delta
    /\ forall r, r ∈ requests delta ->
         method r = method_of op
         /\ headers r !! "X-Auth-Token" = Some t
         /\ headers r !! "Content-Type"
            = (if is_upload op then None else Some "application/json")
         /\ headers r !! "Accept" = accept_of op.
Proof.
  intros Hg Hne.
  destruct (call_granted env t (conj Hg Hne) fuel op st) as (delta & Htr & HF & _).
  exists delta. split; [exact Htr|]. intros r Hr.
  exact (requests_carry _ _ _ _ _ _ HF Hr).
Qed.

Lemma request_headers_by_operation_witness :
  exists delta,
    trace (snd (call 1 (ExecuteQuery "select 1" "MyDB" (Some "csv"))
                  logged_in_env initial_state))
    = trace initial_state ++ delta
    /\ forall r, r ∈ requests delta ->
         method r = POST
         /\ headers r !! "X-Auth-Token" = Some "secret"
         /\ headers r !! "Content-Type" = Some "application/json"
         /\ headers r !! "Accept" = Some "text/plain".
Proof.
  apply (request_headers_by_operation (ExecuteQuery "select 1" "MyDB" (Some "csv"))
           1 logged_in_env initial_state "secret").
  - reflexivity.
  - discriminate.
Defined.

(** As the specification words it the property fails: a plain GET carries a
    content type, and the upload POST carries neither a content type nor an
    accept header. *)
Lemma plain_get_carries_content_type :
  ~ (forall r,
       r ∈ requests (trace (snd (getTables "MyDB" logged_in_env initial_state))) ->
       method r = GET -> headers r !! "Content-Type" = None)
  /\ ~ (forall r,
          r ∈ requests (trace (snd (uploadCSVDataToTable "a,b" "T" "MyDB"
                                      logged_in_env initial_state))) ->
          method r = POST ->
          headers r !! "Content-Type" = Some "application/json")
  /\ ~ (forall r,
          r ∈ requests (trace (snd (uploadCSVDataToTable "a,b" "T" "MyDB"
                                      logged_in_env initial_state))) ->
          method r = POST -> is_Some (headers r !! "Accept")).
Proof.
  split; [|split].
  - intros H.
    destruct (requests (trace (snd (getTables "MyDB" logged_in_env initial_state))))
      as [|r l] eqn:Hr; [vm_compute in Hr; discriminate|].
    assert (Hin : r ∈ r :: l) by apply list_elem_of_here.
    specialize (H r Hin). vm_compute in Hr. injection Hr as <- _.
    specialize (H eq_refl). vm_compute in H. discriminate.
  - intros H.
    destruct (requests (trace (snd (uploadCSVDataToTable "a,b" "T" "MyDB"
                                      logged_in_env initial_state))))
      as [|r l] eqn:Hr; [vm_compute in Hr; discriminate|].
    assert (Hin : r ∈ r :: l) by apply list_elem_of_here.
    specialize (H r Hin). vm_compute in Hr. injection Hr as <- _.
    specialize (H eq_refl). vm_compute in H. discriminate.
  - intros H.
    destruct (requests (trace (snd (uploadCSVDataToTable "a,b" "T" "MyDB"
                                      logged_in_env initial_state))))
      as [|r l] eqn:Hr; [vm_compute in Hr; discriminate|].
    assert (Hin : r ∈ r :: l) by apply list_elem_of_here.
    specialize (H r Hin). vm_compute in Hr. injection Hr as <- _.
    destruct (H eq_refl) as [x Hx]. vm_compute in Hx. discriminate.
Qed.

(** ** The task name *)

Lemma take_task_name_run env st default_id :
  take_task_name default_id env st
  = (Return (next_task_name env st default_id), consumed st).
Proof.
  unfold take_task_name, next_task_name, consumed, bind, ask, get_task_name,
    set_task_name, ret.
  destruct st as [[n|] tr]; reflexivity.
Qed.

Lemma executeQuery_no_token env st sql context format :
  no_token env ->
  executeQuery sql context format env st
  = (Raise (ValueError EXCEPT.LOGIN_ERROR), consumed st).
Proof.
  intros Hno. unfold executeQuery. cbv beta delta [bind ask] iota.
  rewrite take_task_name_run, URL_DICT_EXECUTEQUERY.
  cbv beta delta [lift ret] iota zeta. now rewrite __token_no_token.
Qed.

Lemma executeQuery_illegal env st t sql context format e :
  has_token env t -> __get_headers t format = inl e ->
  executeQuery sql context format env st = (Raise e, consumed st).
Proof.
  intros Ht Hh. unfold executeQuery. cbv beta delta [bind ask] iota.
  rewrite take_task_name_run, URL_DICT_EXECUTEQUERY.
  cbv beta delta [lift ret] iota zeta. rewrite (__token_has_token _ _ _ Ht), Hh.
  reflexivity.
Qed.

Lemma executeQuery_run env st t sql context format h :
  has_token env t -> __get_headers t format = inr h ->
  executeQuery sql context format env st
  = let r := executeQuery_request env h sql context
               (next_task_name env st TASKNAMES.EXECUTEQUERY) in
    let response := server env (sent st) r in
    (match __validate_response_status response EXCEPT.EXECUTE_QUERY_ERROR with
     | inl e => Raise e
     | inr _ =>
         match __parse_post response format with
         | inl e => Raise e
         | inr v => Return v
         end
     end, log (consumed st) [EvRequest r]).
Proof.
  intros Ht Hh. unfold executeQuery. cbv beta delta [bind ask] iota.
  rewrite take_task_name_run, URL_DICT_EXECUTEQUERY.
  cbv beta delta [lift ret] iota zeta. rewrite (__token_has_token _ _ _ Ht), Hh.
  cbv beta delta [send] iota.
  fold (executeQuery_url env context (next_task_name env st TASKNAMES.EXECUTEQUERY)).
  fold (executeQuery_request env h sql context
          (next_task_name env st TASKNAMES.EXECUTEQUERY)).
  change (length (requests (trace (consumed st)))) with (sent st).
  destruct (__validate_response_status _ _); [reflexivity|].
  destruct (__parse_post _ _); reflexivity.
Qed.

Lemma uploadCSVDataToTable_no_token env st csvData tableName context :
  no_token env ->
  uploadCSVDataToTable csvData tableName context env st
  = (Raise (ValueError EXCEPT.LOGIN_ERROR), consumed st).
Proof.
  intros Hno. unfold uploadCSVDataToTable. cbv beta delta [bind ask] iota.
  rewrite take_task_name_run, URL_DICT_EXECUTEQUERY.
  cbv beta delta [lift ret] iota zeta. now rewrite __token_no_token.
Qed.

Lemma uploadCSVDataToTable_run env st t csvData tableName context :
  has_token env t ->
  uploadCSVDataToTable csvData tableName context env st
  = let r := upload_request env t csvData tableName context
               (next_task_name env st TASKNAMES.UPLOADCSVDATATOTABLE) in
    let response := server env (sent st) r in
    (match __validate_response_status response
             (Py.replace DCONST.TABLENAME_ID tableName EXCEPT.UPLOAD_CSV_ERROR) with
     | inl e => Raise e
     | inr _ => Return (VBool true)
     end, log (consumed st) [EvRequest r]).
Proof.
  intros Ht. unfold uploadCSVDataToTable. cbv beta delta [bind ask] iota.
  rewrite take_task_name_run, URL_DICT_EXECUTEQUERY.
  cbv beta delta [lift ret] iota zeta. rewrite (__token_has_token _ _ _ Ht).
  cbv beta delta [send] iota.
  fold (upload_url env tableName context
          (next_task_name env st TASKNAMES.UPLOADCSVDATATOTABLE)).
  fold (upload_request env t csvData tableName context
          (next_task_name env st TASKNAMES.UPLOADCSVDATATOTABLE)).
  change (length (requests (trace (consumed st)))) with (sent st).
  destruct (__validate_response_status _ _); reflexivity.
Qed.

Lemma token_cases env : no_token env \/ exists t, has_token env t.
Proof.
  unfold no_token, has_token. destruct (getToken env) as [t|]; [|left; left; reflexivity].
  destruct (String.eqb_spec t "") as [-> | Hne]; [left; right; reflexivity|].
  right. exists t. split; [reflexivity | exact Hne].
Qed.

Lemma executeQuery_task_name env st sql context format :
  task_name (snd (executeQuery sql context format env st)) = None
  /\ exists delta,
       trace (snd (executeQuery sql context format env st)) = trace st ++ delta
       /\ forall r, r ∈ requests delta ->
            names_query_task env sql context
              (next_task_name env st TASKNAMES.EXECUTEQUERY) r.
Proof.
  destruct (token_cases env) as [Hno | [t Ht]].
  - rewrite (executeQuery_no_token _ _ _ _ _ Hno). split; [reflexivity|].
    exists []. cbn. rewrite app_nil_r. split; [reflexivity|].
    intros r Hr. now apply elem_of_nil in Hr.
  - destruct (__get_headers t format) as [e | h] eqn:Hh.
    + rewrite (executeQuery_illegal _ _ _ _ _ _ _ Ht Hh). split; [reflexivity|].
      exists []. cbn. rewrite app_nil_r. split; [reflexivity|].
      intros r Hr. now apply elem_of_nil in Hr.
    + rewrite (executeQuery_run _ _ _ _ _ _ _ Ht Hh). cbv zeta. split; [reflexivity|].
      eexists. split; [reflexivity|]. intros r Hr.
      apply list_elem_of_singleton in Hr as ->. now split.
Qed.

Lemma uploadCSVDataToTable_task_name env st csvData tableName context :
  task_name (snd (uploadCSVDataToTable csvData tableName context env st)) = None
  /\ exists delta,
       trace (snd (uploadCSVDataToTable csvData tableName context env st))
       = trace st ++ delta
       /\ forall r, r ∈ requests delta ->
            names_upload_task env tableName context
              (next_task_name env st TASKNAMES.UPLOADCSVDATATOTABLE) r.
Proof.
  destruct (token_cases env) as [Hno | [t Ht]].
  - rewrite (uploadCSVDataToTable_no_token _ _ _ _ _ Hno). split; [reflexivity|].
    exists []. cbn. rewrite app_nil_r. split; [reflexivity|].
    intros r Hr. now apply elem_of_nil in Hr.
  - rewrite (uploadCSVDataToTable_run _ _ _ _ _ _ Ht). cbv zeta. split; [reflexivity|].
    eexists. split; [reflexivity|]. intros r Hr.
    apply list_elem_of_singleton in Hr as ->. reflexivity.
Qed.

(** C7.  A task-name override that is set is used by the first call of
    [executeQuery] or [uploadCSVDataToTable] that follows, in the URL of its
    request (and for [executeQuery] in the body too), and that call resets
    it to [None], whether it returns or raises; the call after that one
    finds no override, names its own default in its request, and leaves the
    override unset. *)
Theorem task_name_override_is_one_shot
    (env : Env) (st : State) (name sql context : string) (format : option string)
    (csvData tableName : string) :
  task_name st = Some name ->
  let st1 := snd (executeQuery sql context format env st) in
  let st2 := snd (uploadCSVDataToTable csvData tableName context env st) in
  (task_name st1 = None
   /\ exists delta,
        trace st1 = trace st ++ delta
        /\ forall r, r ∈ requests delta -> names_query_task env sql context name r)
  /\ (task_name st2 = None
      /\ exists delta,
           trace st2 = trace st ++ delta
           /\ forall r, r ∈ requests delta ->
                names_upload_task env tableName context name r)
  /\ forall st', st' = st1 \/ st' = st2 ->
       forall sql' context' format' csvData' tableName',
         let st3 := snd (executeQuery sql' context' format' env st') in
         let st4 := snd (uploadCSVDataToTable csvData' tableName' context' env st') in
         (task_name st3 = None
          /\ exists delta,
               trace st3 = trace st' ++ delta
               /\ forall r, r ∈ requests delta ->
                    names_query_task env sql' context'
                      (__get_taskname env TASKNAMES.EXECUTEQUERY) r)
         /\ (task_name st4 = None
             /\ exists delta,
                  trace st4 = trace st' ++ delta
                  /\ forall r, r ∈ requests delta ->
                       names_upload_task env tableName' context'
                         (__get_taskname env TASKNAMES.UPLOADCSVDATATOTABLE) r).
Proof.
  intros Hname st1 st2.
  pose proof (executeQuery_task_name env st sql context format) as H1.
  pose proof (uploadCSVDataToTable_task_name env st csvData tableName context) as H2.
  unfold next_task_name in H1, H2. rewrite Hname in H1, H2.
  split; [exact H1|]. split; [exact H2|].
  intros st' Hst' sql' context' format' csvData' tableName' st3 st4.
  assert (Hnone : task_name st' = None).
  { destruct Hst' as [-> | ->]; [apply H1 | apply H2]. }
  pose proof (executeQuery_task_name env st' sql' context' format') as H3.
  pose proof (uploadCSVDataToTable_task_name env st' csvData' tableName' context') as H4.
  unfold next_task_name in H3, H4. rewrite Hnone in H3, H4.
  split; [exact H3 | exact H4].
Qed.

Lemma task_name_override_is_one_shot_witness :
  task_name (mkState (Some "myTask") []) = Some "myTask"
  /\ task_name (snd (executeQuery "select 1" "MyDB" (Some "csv") logged_in_env
                       (mkState (Some "myTask") []))) = None
  /\ exists delta,
       trace (snd (executeQuery "select 1" "MyDB" (Some "csv") logged_in_env
                     (mkState (Some "myTask") [])))
       = trace (mkState (Some "myTask") []) ++ delta
       /\ forall r, r ∈ requests delta ->
            names_query_task logged_in_env "select 1" "MyDB" "myTask" r.
Proof.
  split; [reflexivity|].
  exact (proj1 (task_name_override_is_one_shot logged_in_env
                  (mkState (Some "myTask") []) "myTask" "select 1" "MyDB"
                  (Some "csv") "a,b" "T" eq_refl)).
Defined.

Example override_used_once :
  let st1 := snd (executeQuery "select 1" "MyDB" (Some "csv") logged_in_env
                    (mkState (Some "myTask") [])) in
  let st2 := snd (executeQuery "select 2" "MyDB" (Some "csv") logged_in_env st1) in
  (body_task_name ∘ data) <$> requests (trace st2)
  = [Some (VStr "myTask"); Some (VStr "SciScript-Python.CasJobs.executeQuery")].
Proof. reflexivity. Qed.

(** ** The URL of a query *)

Lemma replace_go_plain (old' new s rest : string) :
  plain s = true ->
  Py.replace_go (String "<" old') new 0 (s +:+ rest)
  = s +:+ Py.replace_go (String "<" old') new 0 rest.
Proof.
  induction s as [|c s IH]; [reflexivity|].
  cbn [plain]. intros [Hc Hs]%andb_prop.
  change (String c s +:+ rest) with (String c (s +:+ rest)).
  cbn [Py.replace_go String.prefix].
  destruct (ascii_dec "<" c) as [<- | _]; [discriminate|].
  rewrite (IH Hs). reflexivity.
Qed.

Lemma get_taskname_prefix env task_id :
  __get_taskname env task_id = task_prefix env +:+ task_id.
Proof. unfold __get_taskname, task_prefix. now destruct (isSciServerComputeEnvironment env). Qed.

Lemma executeQuery_url_plain env context taskName :
  plain (CasJobsRESTUri env) = true -> plain context = true ->
  executeQuery_url env context taskName
  = CasJobsRESTUri env +:+ "/contexts/" +:+ context +:+ "/query?TaskName="
    +:+ task_prefix env +:+ taskName.
Proof.
  intros Hb Hc. unfold executeQuery_url, Py.replace, DCONST.CONTEXT_ID,
    DCONST.TASKNAME_ID.
  rewrite (replace_go_plain _ _ _ _ Hb).
  change (Py.replace_go "<context>" context 0 "/contexts/<context>/query<taskname>")
    with ("/contexts/" +:+ context +:+ "/query<taskname>").
  rewrite (replace_go_plain _ _ _ _ Hb).
  rewrite (replace_go_plain _ _ "/contexts/" _ eq_refl).
  rewrite (replace_go_plain _ _ _ _ Hc).
  change (Py.replace_go "<taskname>" (__taskname_url env taskName) 0 "/query<taskname>")
    with ("/query" +:+ __taskname_url env taskName +:+ "").
  rewrite app_nil_r_s. unfold __taskname_url. rewrite get_taskname_prefix.
  reflexivity.
Qed.

Lemma upload_url_plain env tableName context taskName :
  plain (CasJobsRESTUri env) = true -> plain context = true ->
  upload_url env tableName context taskName
  = executeQuery_url env context taskName.
Proof.
  intros Hb Hc. unfold upload_url, executeQuery_url. f_equal.
  unfold Py.replace, DCONST.CONTEXT_ID, DCONST.TABLENAME_ID.
  rewrite (replace_go_plain _ _ _ _ Hb).
  change (Py.replace_go "<context>" context 0 "/contexts/<context>/query<taskname>")
    with ("/contexts/" +:+ context +:+ "/query<taskname>").
  rewrite (replace_go_plain _ _ _ _ Hb).
  rewrite (replace_go_plain _ _ "/contexts/" _ eq_refl).
  rewrite (replace_go_plain _ _ _ _ Hc).
  reflexivity.
Qed.

Lemma get_headers_accepted t format :
  format = None \/ recognized format = true ->
  exists h, __get_headers t format = inr h.
Proof.
  intros [-> | Hr]; [eexists; reflexivity|].
  destruct (format_to_accept_header_legal format Hr) as [a Ha].
  unfold __get_headers. destruct format as [f|]; [|eexists; reflexivity].
  rewrite Ha. eexists. reflexivity.
Qed.

(** C10, as the code has it.  With a token and no override, and a format
    that is [None] or recognized, [executeQuery] sends one request: what its
    URL has in the place of the task-name placeholder is the [TaskName]
    parameter with the prefix of the environment twice before
    [executeQuery], while the [TaskName] field of its body has the prefix
    once.  [uploadCSVDataToTable] sends one request, whose URL has the prefix
    twice as well, before [uploadCSVDataToTable]; its body is the CSV data as
    given and has no [TaskName] field.  When the base URI and the context
    contain no placeholder character, the URLs are written out. *)
Theorem default_task_name_prefixed_twice_in_url
    (env : Env) (st : State) (t sql context : string) (format : option string)
    (csvData tableName : string) :
  getToken env = Some t -> t <> "" ->
  task_name st = None ->
  format = None \/ recognized format = true ->
  (exists r,
      requests (trace (snd (executeQuery sql context format env st)))
      = requests (trace st) ++ [r]
      /\ url r
         = Py.replace "<taskname>"
             ("?TaskName=" +:+ task_prefix env +:+ task_prefix env +:+ "executeQuery")
             (Py.replace "<context>" context
                (CasJobsRESTUri env +:+ "/contexts/<context>/query<taskname>"))
      /\ (plain (CasJobsRESTUri env) = true -> plain context = true ->
            url r = CasJobsRESTUri env +:+ "/contexts/" +:+ context
                    +:+ "/query?TaskName=" +:+ task_prefix env +:+ task_prefix env
                    +:+ "executeQuery")
      /\ body_task_name (data r) = Some (VStr (task_prefix env +:+ "executeQuery")))
  /\ (exists r,
         requests (trace (snd (uploadCSVDataToTable csvData tableName context env st)))
         = requests (trace st) ++ [r]
         /\ url r
            = Py.replace "<taskname>"
                ("?TaskName=" +:+ task_prefix env +:+ task_prefix env
                 +:+ "uploadCSVDataToTable")
                (Py.replace "<tablename>" tableName
                   (Py.replace "<context>" context
                      (CasJobsRESTUri env +:+ "/contexts/<context>/query<taskname>")))
         /\ (plain (CasJobsRESTUri env) = true -> plain context = true ->
               url r = CasJobsRESTUri env +:+ "/contexts/" +:+ context
                       +:+ "/query?TaskName=" +:+ task_prefix env +:+ task_prefix env
                       +:+ "uploadCSVDataToTable")
         /\ data r = RawBody csvData
         /\ body_task_name (data r) = None).
Proof.
  intros Hg Hne Hnone Hf. assert (Ht : has_token env t) by now split.
  destruct (get_headers_accepted t format Hf) as [h Hh]. split.
  - rewrite (executeQuery_run _ _ _ _ _ _ _ Ht Hh). cbv zeta.
    unfold next_task_name. rewrite Hnone. eexists. split; [|split; [|split]].
    + cbn [snd log consumed trace]. rewrite requests_app. reflexivity.
    + cbn [url executeQuery_request]. unfold executeQuery_url, __taskname_url.
      now rewrite !get_taskname_prefix.
    + intros Hb Hc. cbn [url executeQuery_request].
      rewrite (executeQuery_url_plain _ _ _ Hb Hc).
      now rewrite get_taskname_prefix.
    + cbn [data executeQuery_request]. now rewrite get_taskname_prefix.
  - rewrite (uploadCSVDataToTable_run _ _ _ _ _ _ Ht). cbv zeta.
    unfold next_task_name. rewrite Hnone. eexists.
    split; [|split; [|split; [|split]]].
    + cbn [snd log consumed trace]. rewrite requests_app. reflexivity.
    + cbn [url upload_request]. unfold upload_url, __taskname_url.
      now rewrite !get_taskname_prefix.
    + intros Hb Hc. cbn [url upload_request].
      rewrite (upload_url_plain _ _ _ _ Hb Hc).
      rewrite (executeQuery_url_plain _ _ _ Hb Hc).
      now rewrite get_taskname_prefix.
    + reflexivity.
    + reflexivity.
Qed.

Lemma default_task_name_prefixed_twice_in_url_witness :
  (exists r,
      requests (trace (snd (executeQuery "select 1" "MyDB" (Some "csv")
                              logged_in_env initial_state)))
      = [r]
      /\ url r = "https://example.org/casjobs/RestApi/contexts/MyDB/query?TaskName=SciScript-Python.CasJobs.SciScript-Python.CasJobs.executeQuery"
      /\ body_task_name (data r) = Some (VStr "SciScript-Python.CasJobs.executeQuery"))
  /\ (exists r,
         requests (trace (snd (uploadCSVDataToTable "a,b" "T" "MyDB"
                                 logged_in_env initial_state)))
         = [r]
         /\ url r = "https://example.org/casjobs/RestApi/contexts/MyDB/query?TaskName=SciScript-Python.CasJobs.SciScript-Python.CasJobs.uploadCSVDataToTable"
         /\ data r = RawBody "a,b"
         /\ body_task_name (data r) = None).
Proof.
  destruct (default_task_name_prefixed_twice_in_url logged_in_env initial_state
              "secret" "select 1" "MyDB" (Some "csv") "a,b" "T"
              eq_refl ltac:(discriminate) eq_refl (or_intror eq_refl))
    as [(r1 & Hr1 & _ & Hu1 & Hb1) (r2 & Hr2 & _ & Hu2 & Hd2 & Hb2)].
  split.
  - exists r1. split; [exact Hr1|]. split; [exact (Hu1 eq_refl eq_refl) | exact Hb1].
  - exists r2. split; [exact Hr2|].
    split; [exact (Hu2 eq_refl eq_refl) | split; [exact Hd2 | exact Hb2]].
Defined.

(** As the specification words it the property fails for the upload: the body of
    its request is the CSV data and carries no task name. *)
Lemma upload_body_carries_no_task_name :
  ~ (forall r,
       r ∈ requests (trace (snd (uploadCSVDataToTable "a,b" "T" "MyDB"
                                   logged_in_env initial_state))) ->
       body_task_name (data r)
       = Some (VStr "SciScript-Python.CasJobs.uploadCSVDataToTable")).
Proof.
  intros H.
  destruct (requests (trace (snd (uploadCSVDataToTable "a,b" "T" "MyDB"
                                    logged_in_env initial_state))))
    as [|r l] eqn:Hr; [vm_compute in Hr; discriminate|].
  assert (Hin : r ∈ r :: l) by apply list_elem_of_here.
  specialize (H r Hin). vm_compute in Hr. injection Hr as <- _.
  vm_compute in H. discriminate.
Qed.

(** ** Uploading a data frame *)

(** C8.  With a token, [uploadPandasDataFrameToTable] sends one request.  If
    the index of the frame has a name (one that is not empty), the body is
    the CSV text whose header begins with that name and whose every line
    begins with the index label of its row; if the index has no name (or the
    empty one), the body is the CSV text of the columns alone. *)
Theorem upload_includes_index_iff_named
    (env : Env) (st : State) (t : string) (dataFrame : DataFrame)
    (tableName context : string) :
  getToken env = Some t -> t <> "" ->
  exists r,
    trace (snd (uploadPandasDataFrameToTable dataFrame tableName context env st))
    = trace st ++ [EvRequest r]
    /\ (forall name, index_name dataFrame = Some name -> name <> "" ->
          data r = RawBody (csv_with_index name dataFrame))
    /\ (index_name dataFrame = None \/ index_name dataFrame = Some "" ->
          data r = RawBody (csv_without_index dataFrame)).
Proof.
  intros Hg Hne. assert (Ht : has_token env t) by now split.
  unfold uploadPandasDataFrameToTable.
  cbv beta delta [bind ask set_task_name] iota.
  rewrite (uploadCSVDataToTable_run _ _ _ _ _ _ Ht). cbv zeta.
  eexists. split; [reflexivity|]. cbn [data upload_request]. split.
  - intros name Hname Hn. unfold index_is_named. rewrite Hname.
    apply String.eqb_neq in Hn. rewrite Hn. cbn [negb].
    unfold to_csv, csv_with_index. now rewrite Hname.
  - intros [Hname | Hname]; unfold index_is_named; rewrite Hname; reflexivity.
Qed.

Lemma upload_includes_index_iff_named_witness :
  (exists r,
      trace (snd (uploadPandasDataFrameToTable named_frame "T" "MyDB"
                    logged_in_env initial_state))
      = trace initial_state ++ [EvRequest r]
      /\ data r = RawBody ("id,ra,dec" +:+ NL +:+ "0,10.5,-3.2" +:+ NL
                           +:+ "1,11.0,4.1" +:+ NL))
  /\ (exists r,
         trace (snd (uploadPandasDataFrameToTable unnamed_frame "T" "MyDB"
                       logged_in_env initial_state))
         = trace initial_state ++ [EvRequest r]
         /\ data r = RawBody ("ra,dec" +:+ NL +:+ "10.5,-3.2" +:+ NL
                              +:+ "11.0,4.1" +:+ NL)).
Proof.
  split.
  - destruct (upload_includes_index_iff_named logged_in_env initial_state "secret"
                named_frame "T" "MyDB" eq_refl ltac:(discriminate))
      as (r & Htr & Hnamed & _).
    exists r. split; [exact Htr|].
    exact (Hnamed "id" eq_refl ltac:(discriminate)).
  - destruct (upload_includes_index_iff_named logged_in_env initial_state "secret"
                unnamed_frame "T" "MyDB" eq_refl ltac:(discriminate))
      as (r & Htr & _ & Hunnamed).
    exists r. split; [exact Htr|].
    exact (Hunnamed (or_introl eq_refl)).
Defined.

(** ** Batches of queries *)

Lemma bind_inv_Return {A B} (m : M A) (k : A -> M B) env st b st' :
  bind m k env st = (Return b, st') ->
  exists a st1, m env st = (Return a, st1) /\ k a env st1 = (Return b, st').
Proof.
  unfold bind. destruct (m env st) as [[a | e | ] st1]; try discriminate.
  intros H. now exists a, st1.
Qed.

Lemma lift_inv_Return {A} (o : exn + A) env st a st' :
  lift o env st = (Return a, st') -> o = inr a /\ st' = st.
Proof. destruct o; cbn; [discriminate|]. now intros [= -> ->]. Qed.

Lemma ret_inv_Return {A} (x : A) env st a st' :
  ret x env st = (Return a, st') -> a = x /\ st' = st.
Proof. now intros [= -> ->]. Qed.

Lemma make_post_request_run _session url data task_name env st :
  __make_post_request _session url data task_name env st
  = (match result_entry (server env (sent st)
                           (query_request _session url data task_name)) with
     | inl e => Raise e
     | inr v => Return v
     end, log st [EvRequest (query_request _session url data task_name)]).
Proof.
  unfold __make_post_request, result_entry.
  cbv beta delta [bind send] iota.
  fold (query_request _session url data task_name). fold (sent st).
  fold (log st [EvRequest (query_request _session url data task_name)]).
  cbv beta delta [ebind lift ret raise] iota.
  destruct (__async_validate_response_status _); [reflexivity|].
  destruct (__response_to_json _); [reflexivity|].
  destruct (getitem _ _); [reflexivity|].
  destruct (iter _); [reflexivity|].
  destruct (emap _ _); reflexivity.
Qed.

Lemma result_entry_list response v :
  result_entry response = inr v -> exists output, v = VList output.
Proof.
  unfold result_entry, ebind.
  destruct (__async_validate_response_status _); [discriminate|].
  destruct (__response_to_json _); [discriminate|].
  destruct (getitem _ _); [discriminate|].
  destruct (iter _); [discriminate|].
  destruct (emap _ _) as [|output]; [discriminate|].
  intros [= <-]. now exists output.
Qed.

(** Every entry [gather] returns is a list. *)
Lemma mapM_make_post_request_lists _session url task_name env datas :
  forall st responses st',
    mapM (fun data => __make_post_request _session url data task_name) datas env st
    = (Return responses, st') ->
    Forall (fun v => exists output, v = VList output) responses.
Proof.
  induction datas as [|data datas IH]; intros st responses st'; cbn [mapM].
  - intros [= <- _]. constructor.
  - intros H. apply bind_inv_Return in H as (v & st1 & Hv & H).
    apply bind_inv_Return in H as (vs & st2 & Hvs & H).
    apply ret_inv_Return in H as [-> _].
    rewrite make_post_request_run in Hv.
    destruct (result_entry _) as [|v'] eqn:Hr; [discriminate|].
    injection Hv as <- _. constructor.
    + exact (result_entry_list _ _ Hr).
    + exact (IH _ _ _ Hvs).
Qed.

Lemma combined_table_raises (responses : list value) :
  Forall (fun v => exists output, v = VList output) responses ->
  combined_table (VList responses) = inl TypeError
  \/ combined_table (VList responses) = inl IndexError.
Proof.
  intros HF. unfold combined_table. destruct HF as [|v l [output ->] _].
  - right. reflexivity.
  - left. reflexivity.
Qed.

(** C6, the combined table.  When a format is given, [executeQueryAsync]
    never returns a table, whatever the queries and the answers of the
    service: each entry gathered is the list of result sets that
    [__make_post_request] built, and the code subscripts it with
    ["Result"]. *)
Theorem executeQueryAsync_combined_never_returns
    (env : Env) (st : State) (sql : Queries) (context format : string) (v : value) :
  fst (executeQueryAsync sql context (Some format) env st) <> Return v.
Proof.
  destruct (executeQueryAsync sql context (Some format) env st) as [o st'] eqn:Hrun.
  cbn [fst]. intros ->. unfold executeQueryAsync in Hrun.
  apply bind_inv_Return in Hrun as (env' & st1 & _ & Hrun).
  apply bind_inv_Return in Hrun as (token & st2 & _ & Hrun).
  apply bind_inv_Return in Hrun as (h & st3 & _ & Hrun).
  apply bind_inv_Return in Hrun as (responses & st4 & Hresp & Hrun).
  unfold __async_post_request in Hresp.
  apply bind_inv_Return in Hresp as (env'' & st5 & _ & Hresp).
  apply bind_inv_Return in Hresp as (l & st6 & Hl & Hresp).
  apply ret_inv_Return in Hresp as [-> _].
  apply mapM_make_post_request_lists in Hl.
  apply bind_inv_Return in Hrun as (items & st7 & Hitems & Hrun).
  apply lift_inv_Return in Hitems as [Hitems _].
  apply bind_inv_Return in Hrun as (r & st8 & Hr & Hrun).
  apply lift_inv_Return in Hr as [Hr _].
  apply bind_inv_Return in Hrun as (cols & st9 & Hcols & Hrun).
  apply lift_inv_Return in Hcols as [Hcols _].
  destruct (combined_table_raises l Hl) as [H | H];
    unfold combined_table in H; rewrite Hitems in H; cbn [ebind] in H;
    rewrite Hr in H; cbn [ebind] in H;
    change (ebind (getitem (VList l) (VInt 0)) _) with
      (a <~ getitem (VList l) (VInt 0) ;;
       b <~ getitem a (VStr "Result") ;;
       c <~ getitem b (VInt 0) ;; getitem c (VStr "Columns")) in H;
    rewrite Hcols in H; discriminate.
Qed.

Example executeQueryAsync_combined_raises :
  fst (executeQueryAsync (ManyQueries ["select 1"]) "MyDB" (Some "pandas")
         query_env initial_state) = Raise TypeError
  /\ fst (executeQueryAsync (ManyQueries ["select 1"]) "MyDB" None
            query_env initial_state)
     = Return (VList [VList [VDict [("Columns", VList [VStr "c"]);
                                    ("Data", VList [VList [VInt 1]])]]]).
Proof. split; reflexivity. Qed.

Lemma mapM_make_post_request_run _session url task_name env datas : forall st,
  fst (mapM (fun data => __make_post_request _session url data task_name) datas env st)
  = match gathered env _session url task_name (sent st) datas with
    | inl e => Raise e
    | inr vs => Return vs
    end.
Proof.
  induction datas as [|data datas IH]; intros st; cbn [mapM gathered].
  - reflexivity.
  - unfold bind at 1. rewrite make_post_request_run.
    destruct (result_entry _) as [e | v]; [reflexivity|]. cbn [ebind].
    unfold bind at 1.
    specialize (IH (log st [EvRequest (query_request _session url data task_name)])).
    rewrite sent_log in IH. cbn [requests omap length] in IH.
    change (length (requests [EvRequest (query_request _session url data task_name)]))
      with 1%nat in IH.
    rewrite Nat.add_1_r in IH.
    destruct (mapM _ datas env _) as [[vs | e | ] st1]; cbn [fst] in IH;
      destruct (gathered _ _ _ _ _ _); try discriminate; try reflexivity.
    + now injection IH as ->.
    + now injection IH as ->.
Qed.

Lemma gathered_in_order env _session url task_name datas : forall k outs,
  gathered env _session url task_name k datas = inr outs ->
  length outs = length datas
  /\ forall i data, datas !! i = Some data ->
       exists out,
         outs !! i = Some out
         /\ result_entry (server env (k + i)
                            (query_request _session url data task_name)) = inr out.
Proof.
  induction datas as [|d datas IH]; intros k outs; cbn [gathered].
  - intros [= <-]. split; [reflexivity|]. intros i data H. discriminate.
  - unfold ebind.
    destruct (result_entry _) as [|v] eqn:Hv; [discriminate|].
    destruct (gathered _ _ _ _ _ _) as [|vs] eqn:Hvs; [discriminate|].
    intros [= <-]. destruct (IH _ _ Hvs) as [Hlen Hnth]. split.
    + cbn. now rewrite Hlen.
    + intros [|i] data Hd; cbn in Hd.
      * injection Hd as <-. exists v. rewrite Nat.add_0_r. now split.
      * destruct (Hnth i data Hd) as (out & Ho & Hr). exists out.
        split; [exact Ho|]. now replace (k + S i)%nat with (S k + i)%nat by lia.
Qed.

(** C6, the order of the results.  With a token and no format,
    [executeQueryAsync] returns the entries of its batch, one per query and
    in the order of the queries ([gathered_in_order]), and raises when one
    of them cannot be built. *)
Lemma executeQueryAsync_gathers
    (env : Env) (st : State) (t : string) (sqls : list string) (context : string) :
  has_token env t ->
  fst (executeQueryAsync (ManyQueries sqls) context None env st)
  = match gathered env
            (mkSession (SkyServerWSurl env)
               (<[CASJOBSCONST.ACCEPT := "application/json+array"]> (json_headers t)))
            (CasJobsRESTUri env +:+ "/contexts/" +:+ context +:+ "/query")
            (__get_taskname env TASKNAMES.EXECUTEQUERY) (sent st) sqls with
    | inl e => Raise e
    | inr outs => Return (VList outs)
    end.
Proof.
  intros Ht. unfold executeQueryAsync. cbv beta delta [bind ask] iota.
  rewrite (__token_has_token _ _ _ Ht).
  change (__get_headers t (Some "json"))
    with (@inr exn _ (<[CASJOBSCONST.ACCEPT := "application/json+array"]>
                        (json_headers t))).
  cbv beta delta [lift ret __async_post_request bind ask] iota zeta.
  set (h := <[CASJOBSCONST.ACCEPT := "application/json+array"]> (json_headers t)).
  set (s := mkSession (SkyServerWSurl env) h).
  set (u := CasJobsRESTUri env +:+ "/contexts/" +:+ context +:+ "/query").
  set (tn := __get_taskname env TASKNAMES.EXECUTEQUERY).
  pose proof (mapM_make_post_request_run s u tn env sqls st) as Hrun.
  destruct (mapM _ sqls env st) as [[outs | e | ] st1]; cbn [fst] in *;
    destruct (gathered env s u tn (sent st) sqls); try discriminate;
    now injection Hrun as ->.
Qed.

(** * Further properties *)

(** ** Decimal text *)








(** ** The requests of the simple operations *)

Lemma plain_app (a b : string) : plain (a +:+ b) = plain a && plain b.
Proof.
  induction a as [|c a IH]; [reflexivity|].
  change (String c a +:+ b) with (String c (a +:+ b)). cbn [plain].
  rewrite IH. now rewrite andb_assoc.
Qed.

Lemma plain_task_prefix env : plain (task_prefix env) = true.
Proof. unfold task_prefix. now destruct (isSciServerComputeEnvironment env). Qed.

Lemma job_url_getJobStatus env jobId :
  plain (CasJobsRESTUri env) = true ->
  job_url env jobId TASKNAMES.GETJOBSTATUS
  = CasJobsRESTUri env +:+ "/jobs/" +:+ str_of_job jobId +:+ "?TaskName="
    +:+ task_prefix env +:+ "getJobStatus".
Proof.
  intros Hb. unfold job_url, Py.replace, DCONST.JOB_ID.
  rewrite (replace_go_plain _ _ _ _ Hb).
  unfold __taskname_url, __get_taskname, task_prefix.
  destruct (isSciServerComputeEnvironment env); reflexivity.
Qed.

Lemma job_url_cancelJob env jobId :
  plain (CasJobsRESTUri env) = true ->
  job_url env jobId TASKNAMES.CANCELJOB
  = CasJobsRESTUri env +:+ "/jobs/" +:+ str_of_job jobId +:+ "?TaskName="
    +:+ task_prefix env +:+ "cancelJob".
Proof.
  intros Hb. unfold job_url, Py.replace, DCONST.JOB_ID.
  rewrite (replace_go_plain _ _ _ _ Hb).
  unfold __taskname_url, __get_taskname, task_prefix.
  destruct (isSciServerComputeEnvironment env); reflexivity.
Qed.

(** The messages with their placeholder filled in. *)
Lemma job_status_error_text (j : string) :
  Py.replace DCONST.JOB_ID j EXCEPT.GET_JOB_STATUS_ERROR
  = "Error when getting the status of job " +:+ j +:+ "." +:+ NL.
Proof. reflexivity. Qed.

Lemma cancel_error_text (j : string) :
  Py.replace DCONST.JOB_ID j EXCEPT.CANCEL_JOB_ERROR
  = "Error when canceling job " +:+ j +:+ "." +:+ NL.
Proof. reflexivity. Qed.

Lemma table_error_text (c : string) :
  Py.replace DCONST.CONTEXT_ID c EXCEPT.GET_TABLE_ERROR
  = "Error when getting table description from database context " +:+ c
    +:+ "." +:+ NL.
Proof. reflexivity. Qed.

Lemma upload_error_text (n : string) :
  Py.replace DCONST.TABLENAME_ID n EXCEPT.UPLOAD_CSV_ERROR
  = "Error when uploading CSV data into CasJobs table " +:+ n +:+ "." +:+ NL.
Proof. reflexivity. Qed.

Lemma response_get_run url t on_error env st :
  __response_get url t on_error env st
  = (get_result on_error
       (server env (sent st) (mkRequest GET None url (json_headers t) NoBody)),
     log st [EvRequest (mkRequest GET None url (json_headers t) NoBody)]).
Proof.
  unfold __response_get, get_result.
  cbv beta delta [bind __get_headers lift ret send] iota zeta.
  fold (json_headers t). fold (sent st).
  destruct (__validate_response_status _ _); [reflexivity|].
  destruct (__response_to_json _); reflexivity.
Qed.

Lemma getTables_run env st t context :
  has_token env t ->
  getTables context env st
  = (get_result (Py.replace DCONST.CONTEXT_ID context EXCEPT.GET_TABLE_ERROR)
       (server env (sent st) (tables_request env t context)),
     log st [EvRequest (tables_request env t context)]).
Proof.
  intros Ht. unfold getTables. cbv beta delta [bind ask] iota.
  rewrite URL_DICT_GETTABLES. cbv beta delta [lift ret] iota.
  rewrite (__token_has_token _ _ _ Ht). apply response_get_run.
Qed.

Lemma tables_url_plain env t context :
  plain (CasJobsRESTUri env) = true ->
  url (tables_request env t context)
  = CasJobsRESTUri env +:+ "/contexts/" +:+ context +:+ "/Tables?TaskName="
    +:+ task_prefix env +:+ "getTables".
Proof.
  intros Hb. cbn [url tables_request]. unfold Py.replace, DCONST.CONTEXT_ID.
  rewrite (replace_go_plain _ _ _ _ Hb).
  unfold __taskname_url, __get_taskname, task_prefix.
  destruct (isSciServerComputeEnvironment env); reflexivity.
Qed.

Lemma cancelJob_run env st t jobId :
  has_token env t ->
  cancelJob jobId env st
  = (match __validate_response_status
             (server env (sent st) (cancel_request env t jobId))
             (Py.replace DCONST.JOB_ID (str_of_job jobId) EXCEPT.CANCEL_JOB_ERROR) with
     | inl e => Raise e
     | inr _ => Return (VBool true)
     end, log st [EvRequest (cancel_request env t jobId)]).
Proof.
  intros Ht. unfold cancelJob. cbv beta delta [bind ask] iota.
  rewrite URL_DICT_CANCELJOB. cbv beta delta [lift ret] iota zeta.
  rewrite (__token_has_token _ _ _ Ht).
  cbv beta delta [__get_headers send] iota zeta.
  fold (json_headers t). fold (job_url env jobId TASKNAMES.CANCELJOB).
  fold (cancel_request env t jobId). fold (sent st).
  destruct (__validate_response_status _ _); reflexivity.
Qed.



Lemma get_result_unfold on_error response :
  get_result on_error response
  = if status_code response =? 200 then
      match json response with
      | Some v => Return v
      | None => Raise JSONDecodeError
      end
    else Raise (ValueError (http_error_message on_error response)).
Proof.
  unfold get_result, __response_to_json. rewrite validate_unfold.
  destruct (status_code response =? 200); [|reflexivity].
  destruct (json response); reflexivity.
Qed.

(** X1.  With a token, [getTables] sends one GET and nothing else: to the
    [Tables] URL of the context, whose [TaskName] parameter has the prefix
    of the environment once.  On status 200 it returns the body as decoded
    JSON (and raises the decoder's error when the body is no JSON); on any
    other status it raises the error that names the context, the status and
    the body.  The context is put in the URL as it is, whatever it holds. *)
Theorem getTables_request_and_result
    (env : Env) (st : State) (t context : string) :
  getToken env = Some t -> t <> "" ->
  exists r,
    snd (getTables context env st) = log st [EvRequest r]
    /\ method r = GET /\ data r = NoBody
    /\ (plain (CasJobsRESTUri env) = true ->
          url r = CasJobsRESTUri env +:+ "/contexts/" +:+ context
                  +:+ "/Tables?TaskName=" +:+ task_prefix env +:+ "getTables")
    /\ fst (getTables context env st)
       = let response := server env (sent st) r in
         if status_code response =? 200 then
           match json response with
           | Some v => Return v
           | None => Raise JSONDecodeError
           end
         else
           Raise (ValueError
                    (http_error_message
                       ("Error when getting table description from database context "
                        +:+ context +:+ "." +:+ NL) response)).
Proof.
  intros Hg Hne. assert (Ht : has_token env t) by now split.
  exists (tables_request env t context).
  rewrite (getTables_run _ _ _ _ Ht). cbn [fst snd].
  split; [reflexivity|]. split; [reflexivity|]. split; [reflexivity|].
  split; [apply tables_url_plain|].
  rewrite get_result_unfold, table_error_text. reflexivity.
Qed.

Lemma getTables_request_and_result_witness :
  exists r,
    snd (getTables "MyDB" refusing_env initial_state)
    = log initial_state [EvRequest r]
    /\ url r = "https://example.org/casjobs/RestApi/contexts/MyDB/Tables?TaskName=SciScript-Python.CasJobs.getTables"
    /\ fst (getTables "MyDB" refusing_env initial_state)
       = Raise (ValueError
                  ("Error when getting table description from database context MyDB."
                   +:+ NL +:+ " Http Response from CasJobs API returned status code 403:"
                   +:+ NL +:+ " Forbidden")).
Proof.
  destruct (getTables_request_and_result refusing_env initial_state "secret" "MyDB"
              eq_refl ltac:(discriminate)) as (r & Hs & _ & _ & Hu & Hf).
  exists r. split; [exact Hs|]. split; [exact (Hu eq_refl)|]. exact Hf.
Defined.

(** X2.  With a token, [getJobStatus] sends one GET and nothing else, to
    the URL of the job, whose [TaskName] parameter has the prefix once.  On
    status 200 it returns the body as decoded JSON; on any other status it
    raises the error that names the job, the status and the body. *)
Theorem getJobStatus_request_and_result
    (env : Env) (st : State) (t : string) (jobId : JobId) :
  getToken env = Some t -> t <> "" ->
  exists r,
    snd (getJobStatus jobId env st) = log st [EvRequest r]
    /\ method r = GET /\ data r = NoBody
    /\ (plain (CasJobsRESTUri env) = true ->
          url r = CasJobsRESTUri env +:+ "/jobs/" +:+ str_of_job jobId
                  +:+ "?TaskName=" +:+ task_prefix env +:+ "getJobStatus")
    /\ fst (getJobStatus jobId env st)
       = let response := server env (sent st) r in
         if status_code response =? 200 then
           match json response with
           | Some v => Return v
           | None => Raise JSONDecodeError
           end
         else
           Raise (ValueError
                    (http_error_message
                       ("Error when getting the status of job " +:+ str_of_job jobId
                        +:+ "." +:+ NL) response)).
Proof.
  intros Hg Hne. assert (Ht : has_token env t) by now split.
  exists (poll_request env t jobId).
  rewrite (getJobStatus_run _ _ _ _ Ht). cbv zeta. cbn [fst snd].
  split; [reflexivity|]. split; [reflexivity|]. split; [reflexivity|].
  split; [apply (job_url_getJobStatus env jobId)|].
  fold (get_result
          (Py.replace DCONST.JOB_ID (str_of_job jobId) EXCEPT.GET_JOB_STATUS_ERROR)
          (server env (sent st) (poll_request env t jobId))).
  rewrite get_result_unfold, job_status_error_text. reflexivity.
Qed.

Lemma getJobStatus_request_and_result_witness :
  exists r,
    snd (getJobStatus (JobInt 42) finishing_env initial_state)
    = log initial_state [EvRequest r]
    /\ url r = "https://example.org/casjobs/RestApi/jobs/42?TaskName=SciScript-Python.CasJobs.getJobStatus"
    /\ fst (getJobStatus (JobInt 42) finishing_env initial_state)
       = Return (status_record 1).
Proof.
  destruct (getJobStatus_request_and_result finishing_env initial_state "secret"
              (JobInt 42) eq_refl ltac:(discriminate)) as (r & Hs & _ & _ & Hu & Hf).
  exists r. split; [exact Hs|]. split; [exact (Hu eq_refl)|]. exact Hf.
Defined.

(** X3.  With a token, [cancelJob] sends one DELETE without a body to the
    URL of the job and nothing else.  It returns [True] exactly when the
    status is 200, and it returns nothing but [True]: on any other status it
    raises the error that names the job, the status and the body. *)
Theorem cancelJob_request_and_result
    (env : Env) (st : State) (t : string) (jobId : JobId) :
  getToken env = Some t -> t <> "" ->
  exists r,
    snd (cancelJob jobId env st) = log st [EvRequest r]
    /\ method r = DELETE /\ data r = NoBody
    /\ (plain (CasJobsRESTUri env) = true ->
          url r = CasJobsRESTUri env +:+ "/jobs/" +:+ str_of_job jobId
                  +:+ "?TaskName=" +:+ task_prefix env +:+ "cancelJob")
    /\ fst (cancelJob jobId env st)
       = let response := server env (sent st) r in
         if status_code response =? 200 then Return (VBool true)
         else
           Raise (ValueError
                    (http_error_message
                       ("Error when canceling job " +:+ str_of_job jobId
                        +:+ "." +:+ NL) response)).
Proof.
  intros Hg Hne. assert (Ht : has_token env t) by now split.
  exists (cancel_request env t jobId).
  rewrite (cancelJob_run _ _ _ _ Ht). cbn [fst snd].
  split; [reflexivity|]. split; [reflexivity|]. split; [reflexivity|].
  split; [apply (job_url_cancelJob env jobId)|].
  rewrite validate_unfold, cancel_error_text. cbv zeta.
  destruct (status_code _ =? 200); reflexivity.
Qed.

Lemma cancelJob_request_and_result_witness :
  exists r,
    snd (cancelJob (JobInt 42) logged_in_env initial_state)
    = log initial_state [EvRequest r]
    /\ url r = "https://example.org/casjobs/RestApi/jobs/42?TaskName=SciScript-Python.CasJobs.cancelJob"
    /\ fst (cancelJob (JobInt 42) logged_in_env initial_state) = Return (VBool true).
Proof.
  destruct (cancelJob_request_and_result logged_in_env initial_state "secret"
              (JobInt 42) eq_refl ltac:(discriminate)) as (r & Hs & _ & _ & Hu & Hf).
  exists r. split; [exact Hs|]. split; [exact (Hu eq_refl)|]. exact Hf.
Defined.



(** ** Synchronous queries *)

(** X5.  With a token and one of the text or byte formats, [executeQuery]
    sends one POST, and when the service answers 200 it returns the body of
    the response unchanged: as a string for [csv] and [json], in a text
    buffer for [readable] and [StringIO], in a byte buffer for [fits] and
    [BytesIO].  On any other status it raises the query error with the
    status and the body. *)
Theorem executeQuery_returns_the_body
    (env : Env) (st : State) (t sql context tag : string) :
  getToken env = Some t -> t <> "" ->
  In tag ["csv"; "json"; "readable"; "StringIO"; "fits"; "BytesIO"] ->
  exists r,
    snd (executeQuery sql context (Some tag) env st)
    = log (consumed st) [EvRequest r]
    /\ method r = POST
    /\ fst (executeQuery sql context (Some tag) env st)
       = let response := server env (sent st) r in
         if status_code response =? 200 then
           Return (if in_tuple (Some tag) ["csv"; "json"] then VStr (content response)
                   else if in_tuple (Some tag) ["readable"; "StringIO"]
                        then VStringIO (content response)
                        else VBytesIO (content response))
         else Raise (ValueError
                       (http_error_message EXCEPT.EXECUTE_QUERY_ERROR response)).
Proof.
  intros Hg Hne Htag. assert (Ht : has_token env t) by now split.
  assert (Hrec : recognized (Some tag) = true).
  { cbn in Htag. decompose [or] Htag; subst; try reflexivity; contradiction. }
  destruct (get_headers_accepted t (Some tag) (or_intror Hrec)) as [h Hh].
  rewrite (executeQuery_run _ _ _ _ _ _ _ Ht Hh). cbv zeta. cbn [fst snd].
  eexists. split; [reflexivity|]. split; [reflexivity|].
  rewrite validate_unfold. destruct (status_code _ =? 200); [|reflexivity].
  cbn in Htag. decompose [or] Htag; subst; try reflexivity; contradiction.
Qed.

Lemma executeQuery_returns_the_body_witness :
  exists r,
    snd (executeQuery "select 1 as foo, 2 as bar" "MyDB" (Some "readable") csv_env
           initial_state)
    = log (consumed initial_state) [EvRequest r]
    /\ method r = POST
    /\ fst (executeQuery "select 1 as foo, 2 as bar" "MyDB" (Some "readable") csv_env
              initial_state)
       = Return (VStringIO ("foo,bar" +:+ NL +:+ "1,2" +:+ NL)).
Proof.
  exact (executeQuery_returns_the_body csv_env initial_state "secret"
           "select 1 as foo, 2 as bar" "MyDB" "readable" eq_refl ltac:(discriminate)
           ltac:(cbn; tauto)).
Defined.

(** X6.  With a token, a format tag that is a string outside the recognized
    set makes [executeQuery] raise the illegal-format error before anything
    is sent.  The format [None] is different: no accept header is chosen
    for it, so the request is sent, without an [Accept] header, and the
    illegal-format error, ending in [None], is raised only when the answer,
    with status 200, is to be decoded. *)
Theorem executeQuery_illegal_format_before_or_after_request
    (env : Env) (st : State) (t sql context : string) :
  getToken env = Some t -> t <> "" ->
  (forall tag,
      recognized (Some tag) = false ->
      fst (executeQuery sql context (Some tag) env st)
      = Raise (ValueError (EXCEPT.ILLEGAL_FORMAT_ERROR +:+ tag))
      /\ trace (snd (executeQuery sql context (Some tag) env st)) = trace st)
  /\ exists r,
       trace (snd (executeQuery sql context None env st)) = trace st ++ [EvRequest r]
       /\ headers r !! "Accept" = None
       /\ data r = __format_data sql (next_task_name env st TASKNAMES.EXECUTEQUERY)
       /\ (status_code (server env (sent st) r) = 200 ->
           fst (executeQuery sql context None env st)
           = Raise (ValueError (EXCEPT.ILLEGAL_FORMAT_ERROR +:+ "None"))).
Proof.
  intros Hg Hne. assert (Ht : has_token env t) by now split. split.
  - intros tag Hrec.
    assert (Hh : __get_headers t (Some tag) = inl (illegal_format (Some tag))).
    { unfold __get_headers. now rewrite (format_to_accept_header_illegal _ Hrec). }
    rewrite (executeQuery_illegal _ _ _ _ _ _ _ Ht Hh). now split.
  - rewrite (executeQuery_run env st t sql context None (json_headers t) Ht eq_refl).
    cbv zeta. cbn [fst snd]. eexists. split; [reflexivity|].
    split; [|split; [reflexivity|]].
    + cbn [headers executeQuery_request]. unfold json_headers.
      now rewrite !lookup_insert_ne by discriminate.
    + intros Hs. rewrite validate_unfold, Hs. reflexivity.
Qed.

Lemma executeQuery_illegal_format_before_or_after_request_witness :
  (fst (executeQuery "select 1" "MyDB" (Some "xml") csv_env initial_state)
   = Raise (ValueError (EXCEPT.ILLEGAL_FORMAT_ERROR +:+ "xml"))
   /\ trace (snd (executeQuery "select 1" "MyDB" (Some "xml") csv_env initial_state))
      = trace initial_state)
  /\ exists r,
       trace (snd (executeQuery "select 1" "MyDB" None csv_env initial_state))
       = trace initial_state ++ [EvRequest r]
       /\ fst (executeQuery "select 1" "MyDB" None csv_env initial_state)
          = Raise (ValueError (EXCEPT.ILLEGAL_FORMAT_ERROR +:+ "None")).
Proof.
  destruct (executeQuery_illegal_format_before_or_after_request csv_env
              initial_state "secret" "select 1" "MyDB" eq_refl ltac:(discriminate))
    as [Hbefore (r & Htr & _ & _ & Hafter)].
  split.
  - exact (Hbefore "xml" eq_refl).
  - exists r. split; [exact Htr|]. exact (Hafter eq_refl).
Defined.

(** ** Uploads *)

(** X7.  With a token, and a base URI and a context without placeholder
    characters, the table name given to [uploadCSVDataToTable] reaches no
    part of its request: the URL is the query URL of the context, the only
    header is the token, and the body is the CSV data, whatever the table
    name is. *)
Theorem upload_request_ignores_the_table_name
    (env : Env) (st : State) (t csvData tableName tableName' context : string) :
  getToken env = Some t -> t <> "" ->
  plain (CasJobsRESTUri env) = true -> plain context = true ->
  requests (trace (snd (uploadCSVDataToTable csvData tableName context env st)))
  = requests (trace (snd (uploadCSVDataToTable csvData tableName' context env st)))
  /\ exists r,
       requests (trace (snd (uploadCSVDataToTable csvData tableName context env st)))
       = requests (trace st) ++ [r]
       /\ url r = CasJobsRESTUri env +:+ "/contexts/" +:+ context
                  +:+ "/query?TaskName=" +:+ task_prefix env
                  +:+ next_task_name env st TASKNAMES.UPLOADCSVDATATOTABLE
       /\ headers r = {[ "X-Auth-Token" := t ]}
       /\ data r = RawBody csvData.
Proof.
  intros Hg Hne Hb Hc. assert (Ht : has_token env t) by now split.
  rewrite !(uploadCSVDataToTable_run _ _ _ _ _ _ Ht). cbv zeta. cbn [snd].
  unfold log, consumed. cbn [trace]. rewrite !requests_app.
  assert (Hr : forall n,
             upload_request env t csvData n context
               (next_task_name env st TASKNAMES.UPLOADCSVDATATOTABLE)
             = mkRequest POST None
                 (CasJobsRESTUri env +:+ "/contexts/" +:+ context
                  +:+ "/query?TaskName=" +:+ task_prefix env
                  +:+ next_task_name env st TASKNAMES.UPLOADCSVDATATOTABLE)
                 (<[CASJOBSCONST.X_AUTH_TOKEN := t]> ∅) (RawBody csvData)).
  { intros n. unfold upload_request.
    now rewrite (upload_url_plain _ _ _ _ Hb Hc), (executeQuery_url_plain _ _ _ Hb Hc). }
  split.
  - cbn [requests omap]. now rewrite !Hr.
  - eexists. split; [reflexivity|]. rewrite Hr. cbn [url headers data].
    split; [reflexivity|]. split; [|reflexivity]. now rewrite insert_empty.
Qed.

Lemma upload_request_ignores_the_table_name_witness :
  requests (trace (snd (uploadCSVDataToTable "a,b" "Stars" "MyDB" logged_in_env
                          initial_state)))
  = requests (trace (snd (uploadCSVDataToTable "a,b" "Galaxies" "MyDB" logged_in_env
                            initial_state))).
Proof.
  exact (proj1 (upload_request_ignores_the_table_name logged_in_env initial_state
                  "secret" "a,b" "Stars" "Galaxies" "MyDB" eq_refl
                  ltac:(discriminate) eq_refl eq_refl)).
Defined.

(** ** The operations built on [executeQuery] *)

Lemma getPandasDataFrameFromQuery_run env st queryString context :
  getPandasDataFrameFromQuery queryString context env st
  = (map_outcome VReadCsv
       (fst (executeQuery queryString context (Some "readable") env
               (mkState (Some (__get_taskname env TASKNAMES.GETPANDASDATAFRAMEFROMQUERY))
                  (trace st)))),
     snd (executeQuery queryString context (Some "readable") env
            (mkState (Some (__get_taskname env TASKNAMES.GETPANDASDATAFRAMEFROMQUERY))
               (trace st)))).
Proof.
  unfold getPandasDataFrameFromQuery.
  cbv beta delta [bind ask set_task_name] iota.
  destruct (executeQuery _ _ _ _ _) as [[v | e | ] st']; reflexivity.
Qed.

Lemma getNumpyArrayFromQuery_run env st queryString context :
  getNumpyArrayFromQuery queryString context env st
  = (map_outcome VMatrix (fst (getPandasDataFrameFromQuery queryString context env st)),
     snd (getPandasDataFrameFromQuery queryString context env st)).
Proof.
  unfold getNumpyArrayFromQuery. cbv beta delta [bind ask set_task_name] iota.
  rewrite !getPandasDataFrameFromQuery_run. cbn [trace fst snd].
  destruct (executeQuery _ _ _ _ _) as [[v | e | ] st']; reflexivity.
Qed.

Lemma writeFitsFileFromQuery_run env st fileName queryString context :
  writeFitsFileFromQuery fileName queryString context env st
  = match executeQuery queryString context (Some "fits") env
            (mkState (Some (__get_taskname env TASKNAMES.WRITEFITSFILEFROMQUERY))
               (trace st)) with
    | (Return bytesio, st') =>
        if writable env fileName then
          match read bytesio with
          | inl e => (Raise e, st')
          | inr b =>
              (Return (VBool true),
               mkState (task_name st') (trace st' ++ [EvWrite fileName b]))
          end
        else (Raise OSError, st')
    | (Raise e, st') => (Raise e, st')
    | (OutOfFuel, st') => (OutOfFuel, st')
    end.
Proof.
  unfold writeFitsFileFromQuery. cbv beta delta [bind ask set_task_name] iota.
  destruct (executeQuery _ _ _ _ _) as [[v | e | ] st']; try reflexivity.
  destruct (writable env fileName); [|reflexivity].
  cbv beta delta [ret lift raise emit] iota.
  destruct (read v); reflexivity.
Qed.

(** X8.  The task name [getNumpyArrayFromQuery] sets never reaches the
    service: [getPandasDataFrameFromQuery], which it calls at once, sets its
    own.  So a run of [getNumpyArrayFromQuery] is the run of
    [getPandasDataFrameFromQuery] from the same state, with the frame
    returned turned into a matrix; the requests it sends name
    [getPandasDataFrameFromQuery] in their body, and it leaves no override
    behind. *)
Theorem getNumpyArrayFromQuery_runs_as_getPandasDataFrameFromQuery
    (env : Env) (st : State) (queryString context : string) :
  getNumpyArrayFromQuery queryString context env st
  = (map_outcome VMatrix (fst (getPandasDataFrameFromQuery queryString context env st)),
     snd (getPandasDataFrameFromQuery queryString context env st))
  /\ task_name (snd (getNumpyArrayFromQuery queryString context env st)) = None
  /\ exists delta,
       trace (snd (getNumpyArrayFromQuery queryString context env st))
       = trace st ++ delta
       /\ forall r, r ∈ requests delta ->
            body_task_name (data r)
            = Some (VStr (task_prefix env +:+ "getPandasDataFrameFromQuery")).
Proof.
  pose proof (getNumpyArrayFromQuery_run env st queryString context) as Hrun.
  split; [exact Hrun|]. rewrite Hrun. cbn [snd].
  rewrite getPandasDataFrameFromQuery_run. cbn [snd].
  destruct (executeQuery_task_name env
              (mkState (Some (__get_taskname env TASKNAMES.GETPANDASDATAFRAMEFROMQUERY))
                 (trace st))
              queryString context (Some "readable")) as (Hnone & delta & Htr & Hreq).
  split; [exact Hnone|]. exists delta. split; [exact Htr|].
  intros r Hr. destruct (Hreq r Hr) as [_ Hd]. rewrite Hd.
  unfold next_task_name. cbn [task_name]. now rewrite get_taskname_prefix.
Qed.

(** X9.  With a token, [writeFitsFileFromQuery] sends one POST that asks
    for the [fits] format and names [writeFitsFileFromQuery] in its body.
    When the service answers 200 and the file can be written, the body of
    the response is written to the file as it is, after the request, and
    [True] is returned; when the file cannot be written, the error of the
    file system is raised, the request having been sent; on any other status
    the query error is raised and nothing is written. *)
Theorem writeFitsFileFromQuery_writes_the_body
    (env : Env) (st : State) (t fileName queryString context : string) :
  getToken env = Some t -> t <> "" ->
  exists r,
    headers r !! "Accept" = Some "application/fits"
    /\ body_task_name (data r)
       = Some (VStr (task_prefix env +:+ "writeFitsFileFromQuery"))
    /\ (status_code (server env (sent st) r) = 200 ->
        writable env fileName = true ->
        writeFitsFileFromQuery fileName queryString context env st
        = (Return (VBool true),
           mkState None
             (trace st ++ [EvRequest r;
                           EvWrite fileName (content (server env (sent st) r))])))
    /\ (status_code (server env (sent st) r) = 200 ->
        writable env fileName = false ->
        writeFitsFileFromQuery fileName queryString context env st
        = (Raise OSError, mkState None (trace st ++ [EvRequest r])))
    /\ (status_code (server env (sent st) r) <> 200 ->
        writeFitsFileFromQuery fileName queryString context env st
        = (Raise (ValueError (http_error_message EXCEPT.EXECUTE_QUERY_ERROR
                                (server env (sent st) r))),
           mkState None (trace st ++ [EvRequest r]))).
Proof.
  intros Hg Hne. assert (Ht : has_token env t) by now split.
  set (st0 := mkState (Some (__get_taskname env TASKNAMES.WRITEFITSFILEFROMQUERY))
                (trace st)).
  set (h := <[CASJOBSCONST.ACCEPT := "application/fits"]> (json_headers t)).
  assert (Hh : __get_headers t (Some "fits") = inr h) by reflexivity.
  pose proof (executeQuery_run env st0 t queryString context (Some "fits") h Ht Hh)
    as Hrun. cbv zeta in Hrun.
  change (sent st0) with (sent st) in Hrun.
  change (next_task_name env st0 TASKNAMES.EXECUTEQUERY)
    with (__get_taskname env TASKNAMES.WRITEFITSFILEFROMQUERY) in Hrun.
  change (log (consumed st0) ?evs) with (mkState None (trace st ++ evs)) in Hrun.
  set (r := executeQuery_request env h queryString context
              (__get_taskname env TASKNAMES.WRITEFITSFILEFROMQUERY)) in *.
  pose proof (writeFitsFileFromQuery_run env st fileName queryString context) as Hw.
  fold st0 in Hw.
  exists r. split; [|split; [|split; [|split]]].
  - subst r h. cbn [headers executeQuery_request]. apply lookup_insert_eq.
  - subst r. cbn [data executeQuery_request]. now rewrite get_taskname_prefix.
  - intros Hs Hwr. rewrite Hw, Hrun, validate_unfold, Hs. cbn [Z.eqb Pos.eqb].
    change (__parse_post (server env (sent st) r) (Some "fits"))
      with (@inr exn _ (VBytesIO (content (server env (sent st) r)))).
    rewrite Hwr. cbn [read task_name trace]. now rewrite <- app_assoc.
  - intros Hs Hwr. rewrite Hw, Hrun, validate_unfold, Hs. cbn [Z.eqb Pos.eqb].
    change (__parse_post (server env (sent st) r) (Some "fits"))
      with (@inr exn _ (VBytesIO (content (server env (sent st) r)))).
    now rewrite Hwr.
  - intros Hs. apply Z.eqb_neq in Hs. rewrite Hw, Hrun, validate_unfold, Hs.
    reflexivity.
Qed.

Lemma writeFitsFileFromQuery_writes_the_body_witness :
  exists r,
    writeFitsFileFromQuery "out.fits" "select 1" "MyDB" fits_env initial_state
    = (Return (VBool true),
       mkState None [EvRequest r; EvWrite "out.fits" "SIMPLE  =                    T"]).
Proof.
  destruct (writeFitsFileFromQuery_writes_the_body fits_env initial_state "secret"
              "out.fits" "select 1" "MyDB" eq_refl ltac:(discriminate))
    as (r & _ & _ & Hok & _).
  exists r. exact (Hok eq_refl eq_refl).
Defined.

(** ** The override across the operations *)

Lemma keeps_ret {A} (a : A) : keeps_task_name (ret a).
Proof. intros env st. reflexivity. Qed.

Lemma keeps_raise {A} (e : exn) : keeps_task_name (@raise A e).
Proof. intros env st. reflexivity. Qed.

Lemma keeps_lift {A} (o : exn + A) : keeps_task_name (lift o).
Proof. destruct o; [apply keeps_raise | apply keeps_ret]. Qed.

Lemma keeps_ask : keeps_task_name ask.
Proof. intros env st. reflexivity. Qed.

Lemma keeps_emit e : keeps_task_name (emit e).
Proof. intros env st. reflexivity. Qed.

Lemma keeps_send r : keeps_task_name (send r).
Proof. intros env st. reflexivity. Qed.

Lemma keeps_token : keeps_task_name __token.
Proof.
  intros env st. unfold __token, bind, ask.
  destruct (getToken env) as [t|]; [|reflexivity].
  destruct (String.eqb t ""); reflexivity.
Qed.

Lemma keeps_bind {A B} (m : M A) (k : A -> M B) :
  keeps_task_name m -> (forall a, keeps_task_name (k a)) -> keeps_task_name (bind m k).
Proof.
  intros Hm Hk env st. unfold bind. specialize (Hm env st).
  destruct (m env st) as [[a | e | ] st1]; cbn [snd] in *; try exact Hm.
  now rewrite Hk.
Qed.

Lemma keeps_mapM {A B} (f : A -> M B) (l : list A) :
  (forall a, keeps_task_name (f a)) -> keeps_task_name (mapM f l).
Proof.
  intros Hf. induction l as [|x l IH]; cbn [mapM]; [apply keeps_ret|].
  apply keeps_bind; [apply Hf|]. intros y.
  apply keeps_bind; [apply IH|]. intros ys. apply keeps_ret.
Qed.

Ltac keeps :=
  repeat first
    [ apply keeps_bind; [ | intros ? ]
    | apply keeps_ret | apply keeps_raise | apply keeps_lift | apply keeps_ask
    | apply keeps_emit | apply keeps_send | apply keeps_token
    | apply keeps_mapM; intros ?
    | match goal with
      | |- keeps_task_name (match ?x with _ => _ end) => destruct x
      end ].







Lemma keeps_executeQueryAsync sql context format :
  keeps_task_name (executeQueryAsync sql context format).
Proof.
  unfold executeQueryAsync, __async_post_request, __make_post_request. keeps.
Qed.










(** ** Batches: what is sent *)

Lemma mapM_make_post_request_trace _session url task_name env datas : forall st,
  exists k,
    (k <= length datas)%nat
    /\ snd (mapM (fun data => __make_post_request _session url data task_name)
              datas env st)
       = log st (EvRequest <$> ((fun data => query_request _session url data task_name)
                                <$> take k datas))
    /\ (forall vs,
          fst (mapM (fun data => __make_post_request _session url data task_name)
                 datas env st) = Return vs ->
          k = length datas).
Proof.
  induction datas as [|data datas IH]; intros st; cbn [mapM].
  - exists 0%nat. cbn. rewrite log_nil. auto.
  - unfold bind. rewrite make_post_request_run.
    destruct (result_entry _) as [e | v]; cbv beta iota.
    + exists 1%nat. cbn [length take fmap list_fmap fst snd]. split; [lia|].
      split; [reflexivity | intros vs; discriminate].
    + destruct (IH (log st [EvRequest (query_request _session url data task_name)]))
        as (k & Hk & Hs & Hr).
      exists (S k). cbn [length]. split; [lia|].
      destruct (mapM _ datas env _) as [[vs | e | ] st1]; cbn [fst snd] in *;
        subst st1; rewrite log_log; cbn [take fmap list_fmap app ret];
        (split; [reflexivity|]); intros ws; try discriminate.
      intros _. f_equal. now apply (Hr vs).
Qed.

Lemma requests_of_requests (rs : list Request) : requests (EvRequest <$> rs) = rs.
Proof. induction rs as [|r rs IH]; [reflexivity|]. cbn. now f_equal. Qed.

(** X11.  [executeQueryAsync] neither uses nor resets the override: with a
    token, every request it sends is a POST through the session of the
    batch, to the query URL of the context without any [TaskName] parameter,
    with the accept header of [json] and with one of the queries and the
    default task name of [executeQuery] in its body; [task.name] is
    afterwards what it was.  When it returns, it has sent one request per
    query, in the order of the queries, whatever format was asked for. *)
Theorem executeQueryAsync_requests
    (env : Env) (st : State) (t : string) (sql : Queries) (context : string)
    (format : option string) :
  getToken env = Some t -> t <> "" ->
  task_name (snd (executeQueryAsync sql context format env st)) = task_name st
  /\ exists rs,
       requests (trace (snd (executeQueryAsync sql context format env st)))
       = requests (trace st) ++ rs
       /\ (forall r, r ∈ rs ->
             exists q, q ∈ queries_of sql
               /\ r = batch_request env t context q
               /\ method r = POST
               /\ base_url r = Some (SkyServerWSurl env)
               /\ url r = CasJobsRESTUri env +:+ "/contexts/" +:+ context +:+ "/query"
               /\ headers r !! "Accept" = Some "application/json+array"
               /\ data r = __format_data q (task_prefix env +:+ "executeQuery"))
       /\ (forall v,
             fst (executeQueryAsync sql context format env st) = Return v ->
             rs = batch_request env t context <$> queries_of sql).
Proof.
  intros Hg Hne. assert (Ht : has_token env t) by now split.
  split; [apply keeps_executeQueryAsync|].
  unfold executeQueryAsync. cbv beta delta [bind ask] iota.
  rewrite (__token_has_token _ _ _ Ht).
  change (__get_headers t (Some "json"))
    with (@inr exn _ (<[CASJOBSCONST.ACCEPT := "application/json+array"]>
                        (json_headers t))).
  cbv beta delta [lift ret __async_post_request bind ask] iota zeta.
  fold (batch_session env t). fold (batch_url env context). fold (queries_of sql).
  destruct (mapM_make_post_request_trace (batch_session env t) (batch_url env context)
              (__get_taskname env TASKNAMES.EXECUTEQUERY) env (queries_of sql) st)
    as (k & Hk & Hs & Hr).
  assert (Hshape : forall r,
             r ∈ batch_request env t context <$> take k (queries_of sql) ->
             exists q, q ∈ queries_of sql
               /\ r = batch_request env t context q
               /\ method r = POST
               /\ base_url r = Some (SkyServerWSurl env)
               /\ url r = CasJobsRESTUri env +:+ "/contexts/" +:+ context +:+ "/query"
               /\ headers r !! "Accept" = Some "application/json+array"
               /\ data r = __format_data q (task_prefix env +:+ "executeQuery")).
  { intros r Hin. apply list_elem_of_fmap in Hin as (q & -> & Hq).
    exists q. split; [exact (subseteq_take k _ q Hq)|].
    repeat split; try reflexivity.
    cbn [data batch_request query_request]. now rewrite get_taskname_prefix. }
  exists (batch_request env t context <$> take k (queries_of sql)).
  destruct (mapM _ (queries_of sql) env st) as [[vs | e | ] st1] eqn:Hm;
    cbn [fst snd] in *; subst st1.
  - split; [|split; [exact Hshape|]].
    + destruct format as [f|]; cbn [iter];
        [ destruct (emap _ vs) as [e | r]; cbn [raise];
          [ | destruct (ebind _ _) as [e | c]; cbn [raise] ] | ];
        cbn [snd log trace]; now rewrite requests_app, requests_of_requests.
    + intros v _. now rewrite (Hr vs eq_refl), firstn_all.
  - split; [|split; [exact Hshape | discriminate]].
    cbn [snd log trace]. now rewrite requests_app, requests_of_requests.
  - split; [|split; [exact Hshape | discriminate]].
    cbn [snd log trace]. now rewrite requests_app, requests_of_requests.
Qed.

Lemma executeQueryAsync_requests_witness :
  task_name (snd (executeQueryAsync (ManyQueries ["select 1"; "select 2"]) "MyDB" None
                    query_env (mkState (Some "mine") [])))
  = Some "mine"
  /\ exists rs,
       requests (trace (snd (executeQueryAsync (ManyQueries ["select 1"; "select 2"])
                               "MyDB" None query_env (mkState (Some "mine") []))))
       = [] ++ rs
       /\ rs = [batch_request query_env "secret" "MyDB" "select 1";
                batch_request query_env "secret" "MyDB" "select 2"].
Proof.
  destruct (executeQueryAsync_requests query_env (mkState (Some "mine") []) "secret"
              (ManyQueries ["select 1"; "select 2"]) "MyDB" None eq_refl
              ltac:(discriminate)) as [Hname (rs & Hrs & _ & Hall)].
  split; [exact Hname|]. exists rs. split; [exact Hrs|].
  exact (Hall _ eq_refl).
Defined.

(** ** One request at most *)

Lemma silent_ret {A} (a : A) : silent (ret a).
Proof. intros env st. reflexivity. Qed.

Lemma silent_raise {A} (e : exn) : silent (@raise A e).
Proof. intros env st. reflexivity. Qed.

Lemma silent_lift {A} (o : exn + A) : silent (lift o).
Proof. destruct o; [apply silent_raise | apply silent_ret]. Qed.

Lemma silent_ask : silent ask.
Proof. intros env st. reflexivity. Qed.

Lemma silent_get_task_name : silent get_task_name.
Proof. intros env st. reflexivity. Qed.

Lemma silent_set_task_name n : silent (set_task_name n).
Proof. intros env st. reflexivity. Qed.

Lemma silent_token : silent __token.
Proof.
  intros env st. unfold __token, bind, ask.
  destruct (getToken env) as [t|]; [|reflexivity].
  destruct (String.eqb t ""); reflexivity.
Qed.

Lemma silent_bind {A B} (m : M A) (k : A -> M B) :
  silent m -> (forall a, silent (k a)) -> silent (bind m k).
Proof.
  intros Hm Hk env st. unfold bind. specialize (Hm env st).
  destruct (m env st) as [[a | e | ] st1]; cbn [snd] in *; try exact Hm.
  now rewrite Hk.
Qed.

Ltac quiet :=
  repeat first
    [ apply silent_bind; [ | intros ? ]
    | apply silent_ret | apply silent_raise | apply silent_lift | apply silent_ask
    | apply silent_get_task_name | apply silent_set_task_name | apply silent_token
    | match goal with
      | |- silent (match ?x with _ => _ end) => destruct x
      end ].

Lemma silent_take_task_name default_id : silent (take_task_name default_id).
Proof. unfold take_task_name. quiet. Qed.

Lemma one_shot_send r : one_shot (send r).
Proof.
  intros env st. exists [r]. cbn. repeat split; auto.
Qed.

Lemma one_shot_after {A B} (m : M A) (k : A -> M B) :
  silent m -> (forall a, one_shot (k a)) -> one_shot (bind m k).
Proof.
  intros Hm Hk env st. unfold bind. specialize (Hm env st).
  destruct (m env st) as [[a | e | ] st1]; cbn [snd] in *.
  - destruct (Hk a env st1) as (rs & Hle & Htr & Hret). exists rs.
    rewrite <- Hm. auto.
  - exists []. cbn. rewrite app_nil_r. repeat split; auto. discriminate.
  - exists []. cbn. rewrite app_nil_r. repeat split; auto. discriminate.
Qed.

Lemma one_shot_before {A B} (m : M A) (k : A -> M B) :
  one_shot m -> (forall a, silent (k a)) -> one_shot (bind m k).
Proof.
  intros Hm Hk env st. unfold bind.
  destruct (Hm env st) as (rs & Hle & Htr & Hret).
  destruct (m env st) as [[a | e | ] st1]; cbn [fst snd] in *;
    exists rs; (split; [exact Hle|]).
  - split; [now rewrite Hk | intros _ _; now apply (Hret a)].
  - split; [exact Htr | discriminate].
  - split; [exact Htr | discriminate].
Qed.

Ltac single :=
  first
    [ apply one_shot_send
    | apply one_shot_after; [ solve [quiet; apply silent_take_task_name]
                            | intros ?; single ]
    | apply one_shot_before; [ single | intros ?; solve [quiet] ] ].

Lemma one_shot_response_get url t on_error :
  one_shot (__response_get url t on_error).
Proof. unfold __response_get. single. Qed.

Lemma one_shot_getSchemaName : one_shot getSchemaName.
Proof.
  unfold getSchemaName.
  do 4 (apply one_shot_after; [solve [quiet] | intros ?]).
  apply one_shot_before; [apply one_shot_response_get | intros ?; solve [quiet]].
Qed.

Lemma one_shot_getTables context : one_shot (getTables context).
Proof.
  unfold getTables.
  do 3 (apply one_shot_after; [solve [quiet] | intros ?]).
  apply one_shot_response_get.
Qed.

Lemma one_shot_getJobStatus jobId : one_shot (getJobStatus jobId).
Proof.
  unfold getJobStatus.
  do 3 (apply one_shot_after; [solve [quiet] | intros ?]).
  apply one_shot_response_get.
Qed.

Lemma one_shot_cancelJob jobId : one_shot (cancelJob jobId).
Proof. unfold cancelJob. single. Qed.

Lemma one_shot_submitJob sql context : one_shot (submitJob sql context).
Proof. unfold submitJob. single. Qed.

Lemma one_shot_executeQuery sql context format :
  one_shot (executeQuery sql context format).
Proof. unfold executeQuery. single. Qed.

Lemma one_shot_uploadCSVDataToTable csvData tableName context :
  one_shot (uploadCSVDataToTable csvData tableName context).
Proof. unfold uploadCSVDataToTable. single. Qed.

Lemma one_shot_uploadPandasDataFrameToTable dataFrame tableName context :
  one_shot (uploadPandasDataFrameToTable dataFrame tableName context).
Proof.
  unfold uploadPandasDataFrameToTable.
  do 2 (apply one_shot_after; [solve [quiet] | intros ?]).
  apply one_shot_uploadCSVDataToTable.
Qed.

Lemma one_shot_getPandasDataFrameFromQuery queryString context :
  one_shot (getPandasDataFrameFromQuery queryString context).
Proof.
  unfold getPandasDataFrameFromQuery.
  do 2 (apply one_shot_after; [solve [quiet] | intros ?]).
  apply one_shot_before; [apply one_shot_executeQuery | intros ?; solve [quiet]].
Qed.

Lemma one_shot_getNumpyArrayFromQuery queryString context :
  one_shot (getNumpyArrayFromQuery queryString context).
Proof.
  unfold getNumpyArrayFromQuery.
  do 2 (apply one_shot_after; [solve [quiet] | intros ?]).
  apply one_shot_before;
    [apply one_shot_getPandasDataFrameFromQuery | intros ?; solve [quiet]].
Qed.

(** [writeFitsFileFromQuery]: the request of [executeQuery], and then the
    file, if it gets that far. *)
Lemma writeFitsFileFromQuery_events fileName queryString context env st :
  exists rs,
    (length rs <= 1)%nat
    /\ (forall a, fst (writeFitsFileFromQuery fileName queryString context env st)
                  = Return a -> length rs = 1%nat)
    /\ (trace (snd (writeFitsFileFromQuery fileName queryString context env st))
        = trace st ++ (EvRequest <$> rs)
        /\ (forall a, fst (writeFitsFileFromQuery fileName queryString context env st)
                      <> Return a)
        \/ exists b,
             fst (writeFitsFileFromQuery fileName queryString context env st)
             = Return (VBool true)
             /\ trace (snd (writeFitsFileFromQuery fileName queryString context env st))
                = trace st ++ (EvRequest <$> rs) ++ [EvWrite fileName b]).
Proof.
  unfold writeFitsFileFromQuery. cbv beta delta [bind ask set_task_name] iota.
  set (st0 := mkState _ (trace st)).
  destruct (one_shot_executeQuery queryString context (Some "fits") env st0)
    as (rs & Hle & Htr & Hret).
  exists rs. split; [exact Hle|].
  destruct (executeQuery _ _ _ env st0) as [[bytesio | e | ] st1];
    cbn [fst snd] in *.
  - specialize (Hret _ eq_refl). split; [intros _ _; exact Hret|].
    destruct (writable env fileName); cbn [ret raise];
      [|left; split; [exact Htr | discriminate]].
    destruct (read bytesio) as [e | b]; cbn [lift ret raise emit];
      [left; split; [exact Htr | discriminate]|].
    right. exists b. split; [reflexivity|]. cbn [snd trace].
    now rewrite Htr, <- app_assoc.
  - split; [discriminate|]. left. split; [exact Htr | discriminate].
  - split; [discriminate|]. left. split; [exact Htr | discriminate].
Qed.

(** X12.  An operation other than [waitForJob] and [executeQueryAsync]
    sends one request at most, so that a request that failed is never sent
    again, and it does not return without having sent one.  It adds nothing
    else to the trace (no sleep, no print), except that
    [writeFitsFileFromQuery], when it returns, has written its file once,
    after its request. *)
Theorem single_request_operations (op : Op) (fuel : nat) (env : Env) (st : State) :
  single_request op = true ->
  exists rs,
    (length rs <= 1)%nat
    /\ (forall v, fst (call fuel op env st) = Return v -> length rs = 1%nat)
    /\ (trace (snd (call fuel op env st)) = trace st ++ (EvRequest <$> rs)
        \/ exists fileName queryString context b,
             op = WriteFitsFileFromQuery fileName queryString context
             /\ fst (call fuel op env st) = Return (VBool true)
             /\ trace (snd (call fuel op env st))
                = trace st ++ (EvRequest <$> rs) ++ [EvWrite fileName b]).
Proof.
  assert (Hone : forall m : M value, one_shot m ->
            exists rs,
              (length rs <= 1)%nat
              /\ (forall v, fst (m env st) = Return v -> length rs = 1%nat)
              /\ (trace (snd (m env st)) = trace st ++ (EvRequest <$> rs)
                  \/ exists fileName queryString context b,
                       op = WriteFitsFileFromQuery fileName queryString context
                       /\ fst (m env st) = Return (VBool true)
                       /\ trace (snd (m env st))
                          = trace st ++ (EvRequest <$> rs) ++ [EvWrite fileName b])).
  { intros m Hm. destruct (Hm env st) as (rs & Hle & Htr & Hret).
    exists rs. auto. }
  destruct op; cbn [single_request call]; try discriminate; intros _.
  - apply Hone, one_shot_getSchemaName.
  - apply Hone, one_shot_getTables.
  - apply Hone, one_shot_executeQuery.
  - apply Hone, one_shot_submitJob.
  - apply Hone, one_shot_getJobStatus.
  - apply Hone, one_shot_cancelJob.
  - destruct (writeFitsFileFromQuery_events fileName queryString context env st)
      as (rs & Hle & Hret & [[Htr _] | (b & Ho & Htr)]); exists rs;
      (split; [exact Hle|]); (split; [exact Hret|]).
    + now left.
    + right. now exists fileName, queryString, context, b.
  - apply Hone, one_shot_getPandasDataFrameFromQuery.
  - apply Hone, one_shot_getNumpyArrayFromQuery.
  - apply Hone, one_shot_uploadPandasDataFrameToTable.
  - apply Hone, one_shot_uploadCSVDataToTable.
Qed.

Lemma single_request_operations_witness :
  exists rs,
    (length rs <= 1)%nat
    /\ (forall v, fst (call 0 (GetTables "MyDB") logged_in_env initial_state) = Return v ->
         length rs = 1%nat)
    /\ (trace (snd (call 0 (GetTables "MyDB") logged_in_env initial_state))
        = trace initial_state ++ (EvRequest <$> rs)
        \/ exists fileName queryString context b,
             GetTables "MyDB" = WriteFitsFileFromQuery fileName queryString context
             /\ fst (call 0 (GetTables "MyDB") logged_in_env initial_state)
                = Return (VBool true)
             /\ trace (snd (call 0 (GetTables "MyDB") logged_in_env initial_state))
                = trace initial_state ++ (EvRequest <$> rs) ++ [EvWrite fileName b]).
Proof.
  exact (single_request_operations (GetTables "MyDB") 0 logged_in_env initial_state
           eq_refl).
Defined.

(** ** What [verbose] changes *)

Lemma prints_app (a b : list Event) : prints (a ++ b) = prints a ++ prints b.
Proof. apply omap_app. Qed.

Lemma unprinted_app (a b : list Event) : unprinted (a ++ b) = unprinted a ++ unprinted b.
Proof. apply List.filter_app. Qed.

Section Verbose.

Variables (env : Env) (jobId : JobId) (pollTime : Z).

(** [getJobStatus] looks at the state only to count the requests sent. *)
Lemma getJobStatus_by_sent (s1 s2 : State) :
  sent s1 = sent s2 ->
  exists o d,
    getJobStatus jobId env s1 = (o, log s1 d)
    /\ getJobStatus jobId env s2 = (o, log s2 d)
    /\ prints d = [] /\ unprinted d = d
    /\ (forall t, has_token env t -> length (requests d) = 1%nat).
Proof.
  intros Hs. destruct (token_cases env) as [Hno | [t Ht]].
  - exists (Raise (ValueError EXCEPT.LOGIN_ERROR)), [].
    rewrite !log_nil.
    assert (Hrun : forall st, getJobStatus jobId env st
                              = (Raise (ValueError EXCEPT.LOGIN_ERROR), st)).
    { intros st. unfold getJobStatus. cbv beta delta [bind ask] iota.
      rewrite URL_DICT_GETJOBSTATUS. cbv beta delta [lift ret] iota.
      now rewrite __token_no_token. }
    rewrite !Hrun. repeat split; auto.
    intros t [Hg Hne]. destruct Hno as [Hn | Hn]; rewrite Hn in Hg; congruence.
  - rewrite !(getJobStatus_run env _ t jobId Ht). cbv zeta. rewrite Hs.
    eexists _, [EvRequest (poll_request env t jobId)].
    repeat split; reflexivity.
Qed.

(** One round of the loop. *)
Lemma waitForJob_loop_step (fuel : nat) (verbose : bool) (st : State) :
  waitForJob_loop (S fuel) jobId verbose pollTime env st
  = match getJobStatus jobId env (log st (waiting_events verbose)) with
    | (Return jobDesc, st1) =>
        match status_of jobDesc with
        | inl e => (Raise e, st1)
        | inr jobStatus =>
            if is_terminal jobStatus then
              (Return jobDesc,
               log st1 (if verbose then [EvPrint ("Done!" +:+ NL)] else []))
            else
              waitForJob_loop fuel jobId verbose pollTime env
                (log st1 [EvSleep (Z.max minPollTime pollTime)])
        end
    | (Raise e, st1) => (Raise e, st1)
    | (OutOfFuel, st1) => (OutOfFuel, st1)
    end.
Proof.
  cbn [waitForJob_loop].
  rewrite (bind_Return _ _ _ _ _ _ (waiting_run verbose env st)).
  unfold bind at 1.
  destruct (getJobStatus jobId env _) as [[jobDesc | e | ] st1]; try reflexivity.
  unfold status_of, ebind. cbv beta delta [bind lift] iota.
  destruct (getitem jobDesc (VStr "Status")) as [e | status]; [reflexivity|].
  cbv beta delta [ret] iota.
  destruct (int status) as [e | jobStatus]; [reflexivity|].
  destruct (is_terminal jobStatus); [|reflexivity].
  destruct verbose; [reflexivity|]. now rewrite log_nil.
Qed.

Lemma waitForJob_loop_verbose (fuel : nat) : forall sq sl,
  sent sl = sent sq ->
  exists o d d' k,
    waitForJob_loop fuel jobId false pollTime env sq = (o, log sq d)
    /\ waitForJob_loop fuel jobId true pollTime env sl = (o, log sl d')
    /\ prints d = [] /\ unprinted d' = d
    /\ prints d' = replicate k waitingStr ++ done_line o
    /\ (forall t, has_token env t -> k = length (requests d)).
Proof.
  induction fuel as [|fuel IH]; intros sq sl Hs.
  - exists OutOfFuel, [], [], 0%nat. cbn [waitForJob_loop]. rewrite !log_nil.
    repeat split; auto.
  - rewrite !waitForJob_loop_step. cbn [waiting_events]. rewrite log_nil.
    destruct (getJobStatus_by_sent sq (log sl [EvPrint waitingStr]))
      as (o & dj & Hq & Hl & Hpj & Huj & Htj).
    { now rewrite sent_log, Nat.add_0_r. }
    rewrite Hq, Hl, !log_log.
    assert (Hfail : forall o' : outcome value, done_line o' = [] ->
              exists (o0 : outcome value) d d' k,
                (o', log sq dj) = (o0, log sq d)
                /\ (o', log sl ([EvPrint waitingStr] ++ dj)) = (o0, log sl d')
                /\ prints d = [] /\ unprinted d' = d
                /\ prints d' = replicate k waitingStr ++ done_line o0
                /\ (forall t, has_token env t -> k = length (requests d))).
    { intros o' Ho'. exists o', dj, ([EvPrint waitingStr] ++ dj), 1%nat.
      rewrite Ho'.
      split; [reflexivity|]. split; [reflexivity|]. split; [exact Hpj|]. split.
      { rewrite unprinted_app, Huj. reflexivity. }
      split.
      { rewrite prints_app, Hpj. reflexivity. }
      intros t Ht. now rewrite (Htj t Ht). }
    destruct o as [jobDesc | e | ]; [|now apply Hfail..].
    destruct (status_of jobDesc) as [e | jobStatus]; [now apply Hfail|].
    destruct (is_terminal jobStatus).
    + exists (Return jobDesc), dj,
        (([EvPrint waitingStr] ++ dj) ++ [EvPrint ("Done!" +:+ NL)]), 1%nat.
      rewrite app_nil_r.
      split; [reflexivity|]. split; [reflexivity|]. split; [exact Hpj|]. split.
      { rewrite !unprinted_app, Huj. cbn. now rewrite app_nil_r. }
      split.
      { rewrite !prints_app, Hpj. reflexivity. }
      intros t Ht. now rewrite (Htj t Ht).
    + set (sleep := EvSleep (Z.max minPollTime pollTime)).
      destruct (IH (log sq (dj ++ [sleep]))
                  (log sl (([EvPrint waitingStr] ++ dj) ++ [sleep])))
        as (o & d & d' & k & Hq' & Hl' & Hp & Hu & Hp' & Hk).
      { rewrite !sent_log, Hs, !requests_app. cbn. reflexivity. }
      exists o, ((dj ++ [sleep]) ++ d), ((([EvPrint waitingStr] ++ dj) ++ [sleep]) ++ d'),
        (S k).
      rewrite Hq', Hl', !log_log.
      split; [reflexivity|]. split; [reflexivity|]. split.
      { rewrite !prints_app, Hpj, Hp. reflexivity. }
      split.
      { rewrite !unprinted_app, Huj, Hu. reflexivity. }
      split.
      { rewrite !prints_app, Hpj, Hp'. reflexivity. }
      intros t Ht. rewrite !requests_app, !length_app, (Htj t Ht), <- (Hk t Ht).
      cbn. lia.
Qed.

End Verbose.

(** X13.  [verbose] changes nothing but what is printed: with it,
    [waitForJob] ends as without it and sends the same requests and sleeps
    as long, in the same order.  Without it nothing is printed; with it,
    [Waiting...] is printed once before the loop and once more in every
    round, that is, with a token, once more than there are polls, and
    [Done!] is printed at the end when the record is returned, and only
    then. *)
Theorem waitForJob_verbose_only_prints
    (env : Env) (st : State) (jobId : JobId) (pollTime : Z) (fuel : nat) :
  exists d d' k,
    snd (waitForJob fuel jobId false pollTime env st) = log st d
    /\ snd (waitForJob fuel jobId true pollTime env st) = log st d'
    /\ fst (waitForJob fuel jobId true pollTime env st)
       = fst (waitForJob fuel jobId false pollTime env st)
    /\ prints d = [] /\ unprinted d' = d
    /\ prints d'
       = replicate (S k) "Waiting..."
         ++ done_line (fst (waitForJob fuel jobId false pollTime env st))
    /\ (forall t, getToken env = Some t -> t <> "" -> k = length (requests d)).
Proof.
  unfold waitForJob.
  rewrite (bind_Return _ _ _ _ _ _ (waiting_run false env st)).
  rewrite (bind_Return _ _ _ _ _ _ (waiting_run true env st)).
  cbn [waiting_events]. rewrite log_nil.
  destruct (waitForJob_loop_verbose env jobId pollTime fuel st
              (log st [EvPrint waitingStr]))
    as (o & d & d' & k & Hq & Hl & Hp & Hu & Hp' & Hk).
  { now rewrite sent_log, Nat.add_0_r. }
  exists d, ([EvPrint waitingStr] ++ d'), k.
  rewrite Hq, Hl, log_log. cbn [fst snd].
  split; [reflexivity|]. split; [reflexivity|]. split; [reflexivity|].
  split; [exact Hp|]. split.
  { rewrite unprinted_app, Hu. reflexivity. }
  split.
  { rewrite prints_app, Hp'. reflexivity. }
  intros t Hg Hne. apply (Hk t). now split.
Qed.

Lemma waitForJob_verbose_only_prints_witness :
  exists d d' k,
    snd (waitForJob 5 (JobInt 42) false 10 finishing_env initial_state)
    = log initial_state d
    /\ snd (waitForJob 5 (JobInt 42) true 10 finishing_env initial_state)
       = log initial_state d'
    /\ unprinted d' = d
    /\ prints d'
       = replicate (S k) "Waiting..."
         ++ done_line (fst (waitForJob 5 (JobInt 42) false 10 finishing_env
                              initial_state))
    /\ k = length (requests d).
Proof.
  destruct (waitForJob_verbose_only_prints finishing_env initial_state (JobInt 42)
              10 5) as (d & d' & k & Hq & Hl & _ & _ & Hu & Hp & Hk).
  exists d, d', k. repeat split; auto.
  apply (Hk "secret"); [reflexivity | discriminate].
Defined.

(** ** Result sets *)

Lemma emap_frames (sets : list value) (frames : list (value * value)) :
  Forall2 is_result_set sets frames ->
  emap (fun result =>
          d <~ getitem result (VStr "Data") ;;
          c <~ getitem result (VStr "Columns") ;;
          inr (VDataFrame d c)) sets
  = inr (frame <$> frames).
Proof.
  induction 1 as [|s f sets frames [Hd Hc] _ IH]; [reflexivity|].
  cbn [emap]. unfold ebind at 1 2 3. rewrite Hd, Hc.
  unfold ebind at 1. now rewrite IH.
Qed.

Lemma emap_entries (sets : list value) (frames : list (value * value)) :
  Forall2 is_result_set sets frames ->
  emap (fun response =>
          c <~ getitem response (VStr "Columns") ;;
          d <~ getitem response (VStr "Data") ;;
          inr (VDict [("Columns", c); ("Data", d)])) sets
  = inr (entry <$> frames).
Proof.
  induction 1 as [|s f sets frames [Hd Hc] _ IH]; [reflexivity|].
  cbn [emap]. unfold ebind at 1 2 3. rewrite Hd, Hc.
  unfold ebind at 1. now rewrite IH.
Qed.

Lemma parse_post_pandas (response : Response) (r : value) (sets : list value)
    (frames : list (value * value)) :
  json response = Some r ->
  getitem r (VStr "Result") = inr (VList sets) ->
  Forall2 is_result_set sets frames ->
  __parse_post response (Some "pandas")
  = match frames with
    | [] => inl IndexError
    | [f] => inr (frame f)
    | _ => inr (VList (frame <$> frames))
    end.
Proof.
  intros Hj Hr Hsets.
  change (__parse_post response (Some "pandas"))
    with (r <~ __response_to_json response ;;
          results <~ getitem r (VStr "Result") ;;
          n <~ len results ;;
          if 1 <? n then
            items <~ iter results ;;
            res <~ emap (fun result =>
                           d <~ getitem result (VStr "Data") ;;
                           c <~ getitem result (VStr "Columns") ;;
                           inr (VDataFrame d c)) items ;;
            inr (VList res)
          else
            r0 <~ getitem results (VInt 0) ;;
            d <~ getitem r0 (VStr "Data") ;;
            c <~ getitem r0 (VStr "Columns") ;;
            inr (VDataFrame d c)).
  unfold __response_to_json. rewrite Hj. cbn [ebind]. rewrite Hr. cbn [ebind len].
  destruct Hsets as [|s f sets frames [Hd Hc] Hsets]; [reflexivity|].
  destruct Hsets as [|s' f' sets frames Hs' Hsets].
  - change (1 <? Z.of_nat (length [s])) with false. cbv beta iota.
    change (getitem (VList [s]) (VInt 0)) with (@inr exn _ s).
    cbn [ebind]. rewrite Hd. cbn [ebind]. now rewrite Hc.
  - replace (1 <? Z.of_nat (length (s :: s' :: sets))) with true
      by (symmetry; apply Z.ltb_lt; cbn [length]; lia).
    cbn [iter ebind].
    rewrite (emap_frames (s :: s' :: sets) (f :: f' :: frames)); [reflexivity|].
    constructor; [now split|]. now constructor.
Qed.

(** X14.  With a token and the format [pandas], when the service answers
    200 with a JSON object whose [Result] lists result sets that have [Data]
    and [Columns], the kind of value [executeQuery] returns depends on their
    number: one result set gives its table itself, two or more give the
    list of their tables, in the order of the result sets, and none makes
    [executeQuery] raise an [IndexError]. *)
Theorem executeQuery_pandas_by_number_of_result_sets
    (env : Env) (st : State) (t sql context : string) (r : value)
    (sets : list value) (frames : list (value * value)) :
  getToken env = Some t -> t <> "" ->
  status_code (server env (sent st) (pandas_request env st t sql context)) = 200 ->
  json (server env (sent st) (pandas_request env st t sql context)) = Some r ->
  getitem r (VStr "Result") = inr (VList sets) ->
  Forall2 is_result_set sets frames ->
  executeQuery sql context (Some "pandas") env st
  = (match frames with
     | [] => Raise IndexError
     | [f] => Return (frame f)
     | _ => Return (VList (frame <$> frames))
     end,
     log (consumed st) [EvRequest (pandas_request env st t sql context)]).
Proof.
  intros Hg Hne Hs Hj Hr Hsets. assert (Ht : has_token env t) by now split.
  rewrite (executeQuery_run env st t sql context (Some "pandas")
             (<[CASJOBSCONST.ACCEPT := "application/json+array"]> (json_headers t))
             Ht eq_refl).
  cbv zeta. fold (pandas_request env st t sql context).
  rewrite validate_unfold, Hs. cbn [Z.eqb Pos.eqb].
  rewrite (parse_post_pandas _ r sets frames Hj Hr Hsets).
  destruct frames as [|f [|f' frames]]; reflexivity.
Qed.

Lemma executeQuery_pandas_by_number_of_result_sets_witness :
  fst (executeQuery "select 1; select 2" "MyDB" (Some "pandas") two_sets_env initial_state)
  = Return (VList [VDataFrame (VList [VList [VInt 1]]) (VList [VStr "a"]);
                   VDataFrame (VList [VList [VInt 2]; VList [VInt 3]])
                     (VList [VStr "b"])]).
Proof.
  exact (f_equal fst
           (executeQuery_pandas_by_number_of_result_sets two_sets_env initial_state
              "secret" "select 1; select 2" "MyDB" two_sets
              [VDict [("Columns", VList [VStr "a"]); ("Data", VList [VList [VInt 1]])];
               VDict [("TableName", VStr "Table2"); ("Columns", VList [VStr "b"]);
                      ("Data", VList [VList [VInt 2]; VList [VInt 3]])]]
              [(VList [VList [VInt 1]], VList [VStr "a"]);
               (VList [VList [VInt 2]; VList [VInt 3]], VList [VStr "b"])]
              eq_refl ltac:(discriminate) eq_refl eq_refl eq_refl
              ltac:(repeat constructor))).
Defined.

Lemma result_entry_sets (response : Response) (r : value) (sets : list value)
    (frames : list (value * value)) :
  status_code response = 200 ->
  json response = Some r ->
  getitem r (VStr "Result") = inr (VList sets) ->
  Forall2 is_result_set sets frames ->
  result_entry response = inr (VList (entry <$> frames)).
Proof.
  intros Hs Hj Hr Hsets. unfold result_entry, __async_validate_response_status.
  rewrite Hs. cbn [Z.eqb Pos.eqb negb ebind].
  unfold __response_to_json. rewrite Hj. cbn [ebind]. rewrite Hr. cbn [ebind iter].
  now rewrite (emap_entries sets frames Hsets).
Qed.

(** X15.  [executeQueryAsync] takes a single query string as the batch of
    that one query.  With a token and no format, when the service answers
    200 with a JSON object whose [Result] lists result sets that have [Data]
    and [Columns], the result is a list with one entry, which is the list of
    the result sets in their order, each cut down to its [Columns] and its
    [Data]; an empty [Result] gives an empty entry and no error. *)
Theorem executeQueryAsync_single_query
    (env : Env) (st : State) (t q context : string) (r : value)
    (sets : list value) (frames : list (value * value)) :
  getToken env = Some t -> t <> "" ->
  status_code (server env (sent st) (batch_request env t context q)) = 200 ->
  json (server env (sent st) (batch_request env t context q)) = Some r ->
  getitem r (VStr "Result") = inr (VList sets) ->
  Forall2 is_result_set sets frames ->
  executeQueryAsync (OneQuery q) context None env st
  = (Return (VList [VList (entry <$> frames)]),
     log st [EvRequest (batch_request env t context q)])
  /\ forall format,
       executeQueryAsync (OneQuery q) context format env st
       = executeQueryAsync (ManyQueries [q]) context format env st.
Proof.
  intros Hg Hne Hs Hj Hr Hsets. assert (Ht : has_token env t) by now split.
  split; [|reflexivity].
  unfold executeQueryAsync. cbv beta delta [bind ask] iota.
  rewrite (__token_has_token _ _ _ Ht).
  change (__get_headers t (Some "json"))
    with (@inr exn _ (<[CASJOBSCONST.ACCEPT := "application/json+array"]>
                        (json_headers t))).
  cbv beta delta [lift ret __async_post_request bind ask] iota zeta.
  fold (batch_session env t). fold (batch_url env context).
  cbn [mapM]. unfold bind at 1. rewrite make_post_request_run.
  fold (batch_request env t context q).
  rewrite (result_entry_sets _ r sets frames Hs Hj Hr Hsets). reflexivity.
Qed.

Lemma executeQueryAsync_single_query_witness :
  fst (executeQueryAsync (OneQuery "select 1") "MyDB" None two_sets_env initial_state)
  = Return (VList [VList [VDict [("Columns", VList [VStr "a"]);
                                 ("Data", VList [VList [VInt 1]])];
                          VDict [("Columns", VList [VStr "b"]);
                                 ("Data", VList [VList [VInt 2]; VList [VInt 3]])]]]).
Proof.
  exact (f_equal fst
           (proj1
              (executeQueryAsync_single_query two_sets_env initial_state
                 "secret" "select 1" "MyDB" two_sets
                 [VDict [("Columns", VList [VStr "a"]); ("Data", VList [VList [VInt 1]])];
                  VDict [("TableName", VStr "Table2"); ("Columns", VList [VStr "b"]);
                         ("Data", VList [VList [VInt 2]; VList [VInt 3]])]]
                 [(VList [VList [VInt 1]], VList [VStr "a"]);
                  (VList [VList [VInt 2]; VList [VInt 3]], VList [VStr "b"])]
                 eq_refl ltac:(discriminate) eq_refl eq_refl eq_refl
                 ltac:(repeat constructor)))).
Defined.

(** ** The schema name *)

Lemma schema_url_plain env t user_id :
  plain (CasJobsRESTUri env) = true ->
  url (schema_request env t user_id)
  = CasJobsRESTUri env +:+ "/users/" +:+ user_id +:+ "?TaskName="
    +:+ task_prefix env +:+ "getSchemaName".
Proof.
  intros Hb. cbn [url schema_request].
  unfold Py.replace, CASJOBSCONST.KEYSTONE_USER_ID.
  rewrite (replace_go_plain _ _ _ _ Hb).
  unfold __taskname_url, __get_taskname, task_prefix.
  destruct (isSciServerComputeEnvironment env); reflexivity.
Qed.

(** X16.  With a token, [getSchemaName] first asks the authentication
    service for the user of the token, and sends nothing when that fails.
    Otherwise it sends one GET to the URL of that user, whose [TaskName]
    parameter has the prefix of the environment once; on status 200 it
    returns [wsid_] followed by the text of the [WebServicesId] of the
    decoded body, and raises when the body is no JSON or has no such field;
    on any other status it raises the schema error with the status and the
    body. *)
Theorem getSchemaName_request_and_result (env : Env) (st : State) (t : string) :
  getToken env = Some t -> t <> "" ->
  (getKeystoneUserWithToken env t = None ->
     exists e, getSchemaName env st = (Raise e, st))
  /\ (forall user_id, getKeystoneUserWithToken env t = Some user_id ->
        exists r,
          snd (getSchemaName env st) = log st [EvRequest r]
          /\ method r = GET /\ data r = NoBody
          /\ (plain (CasJobsRESTUri env) = true ->
                url r = CasJobsRESTUri env +:+ "/users/" +:+ user_id
                        +:+ "?TaskName=" +:+ task_prefix env +:+ "getSchemaName")
          /\ fst (getSchemaName env st)
             = let response := server env (sent st) r in
               if status_code response =? 200 then
                 match json response with
                 | Some v =>
                     match getitem v (VStr "WebServicesId") with
                     | inr w => Return (VConcatStr "wsid_" w)
                     | inl e => Raise e
                     end
                 | None => Raise JSONDecodeError
                 end
               else
                 Raise (ValueError
                          (http_error_message "Error when getting schema name."
                             response))).
Proof.
  intros Hg Hne. assert (Ht : has_token env t) by now split.
  assert (Hrun : getSchemaName env st
                 = match getKeystoneUserWithToken env t with
                   | Some user_id =>
                       bind (__response_get
                               (url (schema_request env t user_id)) t EXCEPT.SCHEMA_ERROR)
                         (fun r => w <- lift (getitem r (VStr "WebServicesId")) ;;
                                   ret (VConcatStr "wsid_" w)) env st
                   | None => (Raise KeystoneError, st)
                   end).
  { unfold getSchemaName. cbv beta delta [bind ask] iota.
    rewrite (__token_has_token _ _ _ Ht), URL_DICT_GETSCHEMANAME.
    cbv beta delta [lift ret] iota.
    destruct (getKeystoneUserWithToken env t); reflexivity. }
  rewrite Hrun. split.
  - intros ->. now eexists.
  - intros user_id ->. exists (schema_request env t user_id).
    unfold bind. rewrite response_get_run.
    change (mkRequest GET None (url (schema_request env t user_id)) (json_headers t)
              NoBody) with (schema_request env t user_id).
    rewrite get_result_unfold. cbv zeta.
    destruct (status_code _ =? 200);
      [|repeat split; solve [reflexivity | apply schema_url_plain]].
    destruct (json _) as [v|];
      [|repeat split; solve [reflexivity | apply schema_url_plain]].
    destruct (getitem v (VStr "WebServicesId"));
      repeat split; solve [reflexivity | apply schema_url_plain].
Qed.

Lemma getSchemaName_request_and_result_witness :
  exists r,
    snd (getSchemaName schema_env initial_state) = log initial_state [EvRequest r]
    /\ url r = "https://example.org/casjobs/RestApi/users/user"
               +:+ "?TaskName=SciScript-Python.CasJobs.getSchemaName"
    /\ fst (getSchemaName schema_env initial_state)
       = Return (VConcatStr "wsid_" (VInt 1234)).
Proof.
  destruct (proj2 (getSchemaName_request_and_result schema_env initial_state "secret"
                     eq_refl ltac:(discriminate)) "user" eq_refl)
    as (r & Hs & _ & _ & Hu & Hr).
  exists r. split; [exact Hs|]. split; [exact (Hu eq_refl)|].
  rewrite Hr. reflexivity.
Defined.

(** ** The operations that set the override themselves *)

Lemma query_url_of_wrapper env context name :
  plain (CasJobsRESTUri env) = true -> plain context = true ->
  executeQuery_url env context (__get_taskname env name)
  = CasJobsRESTUri env +:+ "/contexts/" +:+ context +:+ "/query?TaskName="
    +:+ task_prefix env +:+ task_prefix env +:+ name.
Proof.
  intros Hb Hc. now rewrite (executeQuery_url_plain _ _ _ Hb Hc), get_taskname_prefix.
Qed.

Lemma requests_snoc_write (delta : list Event) fileName b :
  requests (delta ++ [EvWrite fileName b]) = requests delta.
Proof. rewrite requests_app. cbn. apply app_nil_r. Qed.

(** X17.  [writeFitsFileFromQuery], [getPandasDataFrameFromQuery],
    [getNumpyArrayFromQuery] and [uploadPandasDataFrameToTable] overwrite
    the override: what the caller had put in [task.name] changes nothing in
    their run.  The name that reaches the service is their own (for
    [getNumpyArrayFromQuery], that of [getPandasDataFrameFromQuery]), and as
    the URL is built from a name that has the prefix already, the [TaskName]
    parameter has the prefix twice. *)
Theorem wrappers_overwrite_the_override
    (op : Op) (fuel : nat) (env : Env) (tr : list Event) (n : option string)
    (context name : string) :
  wrapper_name op = Some (context, name) ->
  (forall n', call fuel op env (mkState n tr) = call fuel op env (mkState n' tr))
  /\ exists delta,
       trace (snd (call fuel op env (mkState n tr))) = tr ++ delta
       /\ forall r, r ∈ requests delta ->
            plain (CasJobsRESTUri env) = true -> plain context = true ->
            url r = CasJobsRESTUri env +:+ "/contexts/" +:+ context
                    +:+ "/query?TaskName=" +:+ task_prefix env +:+ task_prefix env
                    +:+ name.
Proof.
  destruct op; cbn [wrapper_name call]; try discriminate; intros [= -> <-].
  - split; [reflexivity|].
    rewrite writeFitsFileFromQuery_run. cbn [trace].
    destruct (executeQuery_task_name env
                (mkState (Some (__get_taskname env TASKNAMES.WRITEFITSFILEFROMQUERY)) tr)
                queryString context (Some "fits")) as (_ & delta & Htr & Hreq).
    cbn [trace] in Htr.
    assert (Hurl : forall r, r ∈ requests delta ->
              plain (CasJobsRESTUri env) = true -> plain context = true ->
              url r = CasJobsRESTUri env +:+ "/contexts/" +:+ context
                      +:+ "/query?TaskName=" +:+ task_prefix env +:+ task_prefix env
                      +:+ TASKNAMES.WRITEFITSFILEFROMQUERY).
    { intros r Hr Hb Hc. destruct (Hreq r Hr) as [Hu _]. rewrite Hu.
      now apply query_url_of_wrapper. }
    destruct (executeQuery _ _ _ _ _) as [[v | e | ] st']; cbn [snd] in *;
      try (exists delta; split; [exact Htr | exact Hurl]).
    destruct (writable env fileName);
      [|exists delta; split; [exact Htr | exact Hurl]].
    destruct (read v) as [e | b]; [exists delta; split; [exact Htr | exact Hurl]|].
    exists (delta ++ [EvWrite fileName b]). cbn [snd trace].
    split; [now rewrite Htr, <- app_assoc|].
    intros r. rewrite requests_snoc_write. apply Hurl.
  - split; [reflexivity|].
    rewrite getPandasDataFrameFromQuery_run. cbn [snd trace].
    destruct (executeQuery_task_name env
                (mkState (Some (__get_taskname env TASKNAMES.GETPANDASDATAFRAMEFROMQUERY))
                   tr)
                queryString context (Some "readable")) as (_ & delta & Htr & Hreq).
    exists delta. split; [exact Htr|].
    intros r Hr Hb Hc. destruct (Hreq r Hr) as [Hu _]. rewrite Hu.
    now apply query_url_of_wrapper.
  - split; [reflexivity|].
    rewrite getNumpyArrayFromQuery_run, getPandasDataFrameFromQuery_run.
    cbn [snd trace].
    destruct (executeQuery_task_name env
                (mkState (Some (__get_taskname env TASKNAMES.GETPANDASDATAFRAMEFROMQUERY))
                   tr)
                queryString context (Some "readable")) as (_ & delta & Htr & Hreq).
    exists delta. split; [exact Htr|].
    intros r Hr Hb Hc. destruct (Hreq r Hr) as [Hu _]. rewrite Hu.
    now apply query_url_of_wrapper.
  - split; [reflexivity|].
    unfold uploadPandasDataFrameToTable.
    cbv beta delta [bind ask set_task_name] iota zeta. cbn [trace].
    destruct (uploadCSVDataToTable_task_name env
                (mkState (Some (__get_taskname env TASKNAMES.UPLOADPANDASDATAFRAMETOTABLE))
                   tr)
                (if index_is_named dataFrame then to_csv dataFrame true
                 else to_csv dataFrame false)
                tableName context) as (_ & delta & Htr & Hreq).
    exists delta. split; [exact Htr|].
    intros r Hr Hb Hc. rewrite (Hreq r Hr).
    rewrite (upload_url_plain _ _ _ _ Hb Hc). now apply query_url_of_wrapper.
Qed.

Lemma wrappers_overwrite_the_override_witness :
  call 0 (GetNumpyArrayFromQuery "select 1" "MyDB") csv_env (mkState (Some "mine") [])
  = call 0 (GetNumpyArrayFromQuery "select 1" "MyDB") csv_env (mkState None [])
  /\ exists delta,
       trace (snd (call 0 (GetNumpyArrayFromQuery "select 1" "MyDB") csv_env
                     (mkState (Some "mine") [])))
       = [] ++ delta
       /\ forall r, r ∈ requests delta ->
            url r = "https://example.org/casjobs/RestApi/contexts/MyDB/query?TaskName="
                    +:+ "SciScript-Python.CasJobs.SciScript-Python.CasJobs."
                    +:+ "getPandasDataFrameFromQuery".
Proof.
  destruct (wrappers_overwrite_the_override
              (GetNumpyArrayFromQuery "select 1" "MyDB") 0 csv_env [] (Some "mine")
              "MyDB" "getPandasDataFrameFromQuery" eq_refl)
    as [Hsame (delta & Htr & Hurl)].
  split; [exact (Hsame None)|]. exists delta. split; [exact Htr|].
  intros r Hr. exact (Hurl r Hr eq_refl eq_refl).
Defined.

(** ** The result of an upload *)

(** X18.  With a token, [uploadCSVDataToTable] sends one POST, and its
    result depends on the status of the answer alone: on 200 it returns
    [True], whatever the body of the answer is; on any other status it
    raises the upload error, in which alone the table name appears, with the
    status and the body.  In both cases the override is reset. *)
Theorem uploadCSVDataToTable_result
    (env : Env) (st : State) (t csvData tableName context : string) :
  getToken env = Some t -> t <> "" ->
  exists r,
    snd (uploadCSVDataToTable csvData tableName context env st)
    = log (consumed st) [EvRequest r]
    /\ method r = POST
    /\ fst (uploadCSVDataToTable csvData tableName context env st)
       = let response := server env (sent st) r in
         if status_code response =? 200 then Return (VBool true)
         else Raise (ValueError
                       (http_error_message
                          ("Error when uploading CSV data into CasJobs table "
                           +:+ tableName +:+ "." +:+ NL) response)).
Proof.
  intros Hg Hne. assert (Ht : has_token env t) by now split.
  rewrite (uploadCSVDataToTable_run _ _ _ _ _ _ Ht). cbv zeta. cbn [fst snd].
  eexists. split; [reflexivity|]. split; [reflexivity|].
  rewrite validate_unfold, upload_error_text.
  destruct (status_code _ =? 200); reflexivity.
Qed.

Lemma uploadCSVDataToTable_result_witness :
  exists r,
    snd (uploadCSVDataToTable "a,b" "Stars" "MyDB" refusing_env initial_state)
    = log (consumed initial_state) [EvRequest r]
    /\ fst (uploadCSVDataToTable "a,b" "Stars" "MyDB" refusing_env initial_state)
       = Raise (ValueError
                  ("Error when uploading CSV data into CasJobs table Stars." +:+ NL
                   +:+ " Http Response from CasJobs API returned status code 403:"
                   +:+ NL +:+ " Forbidden")).
Proof.
  destruct (uploadCSVDataToTable_result refusing_env initial_state "secret" "a,b"
              "Stars" "MyDB" eq_refl ltac:(discriminate)) as (r & Hs & _ & Hr).
  exists r. split; [exact Hs|]. rewrite Hr. reflexivity.
Defined.
